(** * PON configurator: record builder, enrichment, classifier and grouper

    A shallow embedding of [app/pdf_parser.py] (class [PonDictCreator]) and
    [app/data_processer.py] (class [PonDictProcessor]), and the properties
    the design document states about them.

    Conventions of the embedding:
    - a Python value held by a record or a table is [None], a [str] or an
      [int] ([pyval]); a value the code knows to be a [str] or [None] is
      an [option string]; Python truthiness is [truthy];
    - a Python [dict] is an insertion-ordered association list with unique
      keys ([gdict K V], [dict V] when the keys are strings); [d[k] = v] is
      [dset], [d.get(k)] is [dget], [d[k]] is [getitem] (raises
      [KeyError]);
    - exceptions are values of [exn], a computation that may raise
      returns a [result];
    - a polars data frame is its schema (column names with their dtype)
      and its rows;
    - for the enrichment stage, whose contract speaks about aliasing, there
      is a second model over an explicit object store ([heap]). *)

From Stdlib Require Import Ascii String ZArith.
From stdpp Require Import gmap strings list pretty.

Local Open Scope string_scope.
Local Open Scope list_scope.

(** ** Python values and exceptions *)

(** The values the records and the tables hold besides [None]: strings
    and integers.  (Tables with columns of other kinds, floats or dates,
    are outside this model.) *)
Inductive atom :=
  | AStr (s : string)
  | AInt (n : Z).

Global Instance atom_eq_dec : EqDecision atom.
Proof. solve_decision. Defined.

(** A Python value: [None], a [str] or an [int]. *)
Definition pyval : Type := option atom.
Abbreviation Str s := (Some (AStr s)).
Abbreviation Int n := (Some (AInt n)).

(** A [str]-or-[None] as a value *)
Definition of_str (v : option string) : pyval := AStr <$> v.

(** [bool(v)]: [None], the empty string and zero are falsy. *)
Definition truthy (v : pyval) : bool :=
  match v with
  | Some (AStr s) => negb (bool_decide (s = EmptyString))
  | Some (AInt n) => negb (bool_decide (n = 0%Z))
  | None => false
  end.

(** [str(a)], what an f-string puts for [a] *)
Definition py_str (a : atom) : string :=
  match a with
  | AStr s => s
  | AInt n => pretty n
  end.

(** [f"{v or ''}"] *)
Definition or_empty (v : pyval) : string :=
  match v with
  | Some a => if truthy v then py_str a else EmptyString
  | None => EmptyString
  end.

Inductive exn :=
  | KeyError (k : string)
  | TypeError
  | ColumnNotFoundError (c : string)
  | ComputeError
  | OutOfBoundsError
  | OSError.

Inductive result (A : Type) :=
  | Ok (a : A)
  | Raise (e : exn).
Arguments Ok {A} a.
Arguments Raise {A} e.

(** Sequencing: the first exception raised ends the computation. *)
Global Instance result_ret : MRet result := @Ok.
Global Instance result_bind : MBind result := λ A B k m,
  match m with
  | Ok a => k a
  | Raise e => Raise e
  end.

(** ** Strings *)

(** [p in s] for strings: [p] occurs in [s] as a contiguous substring. *)
Fixpoint py_in (p s : string) : bool :=
  String.prefix p s ||
  match s with
  | EmptyString => false
  | String _ s' => py_in p s'
  end.

(** [s.lstrip(c)] for a one-character argument. *)
Fixpoint lstrip (c : Ascii.ascii) (s : string) : string :=
  match s with
  | EmptyString => EmptyString
  | String a s' => if decide (a = c) then lstrip c s' else s
  end.

(** [s.rstrip(c)] for a one-character argument. *)
Fixpoint rstrip (c : Ascii.ascii) (s : string) : string :=
  match s with
  | EmptyString => EmptyString
  | String a s' =>
      match rstrip c s' with
      | EmptyString => if decide (a = c) then EmptyString else String a EmptyString
      | r => String a r
      end
  end.

(** [s.strip(c)] *)
Definition strip (c : Ascii.ascii) (s : string) : string := rstrip c (lstrip c s).

(** ** Python dictionaries *)

Definition gdict (K V : Type) : Type := list (K * V).
Abbreviation dict := (gdict string).

Section dict.
Context {K : Type} `{!EqDecision K} {V : Type}.

(** [d.get(k)] *)
Fixpoint dget (k : K) (d : gdict K V) : option V :=
  match d with
  | [] => None
  | (k', v) :: d' => if decide (k = k') then Some v else dget k d'
  end.


(** [d[k] = v]: an existing key keeps its position, a new one goes last. *)
Fixpoint dset (k : K) (v : V) (d : gdict K V) : gdict K V :=
  match d with
  | [] => [(k, v)]
  | (k', v') :: d' =>
      if decide (k = k') then (k, v) :: d' else (k', v') :: dset k v d'
  end.

(** [d.pop(k, None)], the popped value dropped. *)
Fixpoint dpop (k : K) (d : gdict K V) : gdict K V :=
  match d with
  | [] => []
  | (k', v') :: d' =>
      if decide (k = k') then d' else (k', v') :: dpop k d'
  end.

(** [d.update(src)] *)
Definition dupdate (src d : gdict K V) : gdict K V :=
  fold_left (fun acc kv => dset kv.1 kv.2 acc) src d.

Definition dkeys (d : gdict K V) : list K := d.*1.

(** The keys of a dictionary are pairwise distinct. *)
Definition dict_wf (d : gdict K V) : Prop := NoDup (dkeys d).

(** [dict(items)] *)
Definition dict_of_items (items : list (K * V)) : gdict K V :=
  dupdate items [].
End dict.

(** [d[k]] for a key that is a string *)
Definition getitem {V} (k : string) (d : dict V) : result V :=
  match dget k d with
  | Some v => Ok v
  | None => Raise (KeyError k)
  end.

(** [value.get(field)], a missing key giving [None] *)
Definition field (f : string) (value : dict pyval) : pyval :=
  default None (dget f value).

(** ** Data frames (polars)

    The two reference tables are polars data frames.  A frame is its
    schema, the column names each with the dtype of the column, and its
    rows, each row a list of cells in column order; a cell is a string, an
    integer or null, as the dtype of its column has it.  Referring to a
    column the frame does not have raises; comparing a column with a value
    of the other kind (a column of integers with a string, a column of
    strings with an integer) raises; comparing with a null never matches. *)

Inductive dtype := DString | DInt64.

Global Instance dtype_eq_dec : EqDecision dtype.
Proof. solve_decision. Defined.

Record DataFrame := {
  df_schema : list (string * dtype);
  df_rows : list (list pyval);
}.

Definition df_columns (df : DataFrame) : list string := (df_schema df).*1.

Definition column_dtype (df : DataFrame) (c : string) : option dtype :=
  dget c (df_schema df).

(** [df.row(i, named=True)] for a row already extracted *)
Definition named_row (df : DataFrame) (row : list pyval) : dict pyval :=
  dict_of_items (zip (df_columns df) row).

Definition cell (df : DataFrame) (c : string) (row : list pyval) : pyval :=
  field c (named_row df row).

(** [==] between a cell and a Python value, inside a filter *)
Definition cell_eq (a b : pyval) : bool :=
  match a, b with
  | Some x, Some y => bool_decide (x = y)
  | _, _ => false
  end.

(** Whether [pl.col(c) == v] can be evaluated on a column of dtype [t] *)
Definition comparable (t : dtype) (v : pyval) : bool :=
  match t, v with
  | _, None => true
  | DString, Some (AStr _) => true
  | DInt64, Some (AInt _) => true
  | _, _ => false
  end.

(** The error of the first predicate that cannot be evaluated: its column
    is missing, or has a dtype the value cannot be compared with *)
Fixpoint filter_error (df : DataFrame) (preds : list (string * pyval))
  : option exn :=
  match preds with
  | [] => None
  | (c, v) :: preds' =>
      match column_dtype df c with
      | None => Some (ColumnNotFoundError c)
      | Some t =>
          if comparable t v then filter_error df preds' else Some ComputeError
      end
  end.

(** [df.filter([pl.col(c1) == v1, ...])] *)
Definition df_filter (preds : list (string * pyval)) (df : DataFrame)
  : result DataFrame :=
  match filter_error df preds with
  | Some e => Raise e
  | None =>
      Ok {| df_schema := df_schema df;
            df_rows := filter (λ row,
              forallb (λ p, cell_eq (cell df p.1 row) p.2) preds) (df_rows df) |}
  end.

(** [df[c]], a series *)
Definition df_column (c : string) (df : DataFrame) : result (list pyval) :=
  if bool_decide (c ∈ df_columns df)
  then Ok (cell df c <$> df_rows df)
  else Raise (ColumnNotFoundError c).

(** [len(df)] *)
Definition df_len (df : DataFrame) : nat := length (df_rows df).

(** [series.item()], called on a series of length one *)
Definition series_item (s : list pyval) : pyval :=
  default None (head s).

(** [df.row(0, named=True)] *)
Definition df_row0 (df : DataFrame) : result (dict pyval) :=
  match df_rows df with
  | row :: _ => Ok (named_row df row)
  | [] => Raise OutOfBoundsError
  end.

(** ** Configuration: the entries of [config.json] the core reads *)

Record ColumnsMapping := {
  tower_column : string;
  evc_column : string;
}.

Record Config := {
  evc_uniq_keys : string;
  uni_uniq_keys : list string;
  tmo_columns_mapping : ColumnsMapping;
}.

(** A record of the collection: a Python dict from field names to
    values. *)
Definition Record_ : Type := dict pyval.

(** * Enrichment: [PonDictProcessor.add_cvlan_data], [_get_cvlan],
      [add_address_data] *)

(** The query inside the [try] of [_get_cvlan]:
    [lookup_df.filter([...tower..., ...evc...])["CVLAN"]] *)
Definition cvlan_query (lookup_df : DataFrame) (columns_mapping : ColumnsMapping)
    (tower_name evc_value : pyval) : result (list pyval) :=
  filtered ← df_filter [(tower_column columns_mapping, tower_name);
                        (evc_column columns_mapping, evc_value)] lookup_df;
  df_column "CVLAN" filtered.

(** [_get_cvlan]: the list [suspicious_towers] is passed in and out; the
    returned pair is (CVLAN value or [None], list after the call). *)
Definition _get_cvlan (lookup_df : DataFrame) (columns_mapping : ColumnsMapping)
    (tower_name evc_value : pyval) (evc_key : string)
    (suspicious_towers : list pyval)
  : pyval * list pyval :=
  match cvlan_query lookup_df columns_mapping tower_name evc_value with
  | Ok result =>
      (if bool_decide (length result = 1) then series_item result else None,
       suspicious_towers)
  | Raise e => (None, suspicious_towers ++ [tower_name])
  end.

(** [f"{cvlan_evc1 or ''}/{cvlan_evc2 or ''}".strip("/")] *)
Definition combine_cvlan (cvlan_evc1 cvlan_evc2 : pyval) : string :=
  strip "/"%char (or_empty cvlan_evc1 +:+ "/" +:+ or_empty cvlan_evc2).

(** The body of the loop of [add_cvlan_data] on one item: the new value of
    the record and of [suspicious_towers]. *)
Definition add_cvlan_item (lookup_df : DataFrame) (columns_mapping : ColumnsMapping)
    (value : Record_) (suspicious_towers : list pyval)
  : result (Record_ * list pyval) :=
  tower_name ← getitem "tower_name" value;
  evc1 ← getitem "evc1" value;
  let '(cvlan_evc1, suspicious_towers) :=
    _get_cvlan lookup_df columns_mapping tower_name evc1 "evc1" suspicious_towers in
  evc2 ← getitem "evc2" value;
  let '(cvlan_evc2, suspicious_towers) :=
    _get_cvlan lookup_df columns_mapping tower_name evc2 "evc2" suspicious_towers in
  let combined_cvlan := combine_cvlan cvlan_evc1 cvlan_evc2 in
  if bool_decide (combined_cvlan = EmptyString)
  then Ok (value, suspicious_towers)
  else Ok (dset "cvlan" (Str combined_cvlan) value, suspicious_towers).

(** The loop of [add_cvlan_data] over the items of the copy, the records
    seen as values: [done_] is the part of the collection already updated. *)
Fixpoint add_cvlan_loop (lookup_df : DataFrame) (columns_mapping : ColumnsMapping)
    (items : list (string * Record_)) (done_ : dict Record_)
    (suspicious_towers : list pyval)
  : result (dict Record_ * list pyval) :=
  match items with
  | [] => Ok (done_, suspicious_towers)
  | (key, value) :: items' =>
      '(value', suspicious_towers') ←
        add_cvlan_item lookup_df columns_mapping value suspicious_towers;
      add_cvlan_loop lookup_df columns_mapping items'
        (done_ ++ [(key, value')]) suspicious_towers'
  end.

(** [add_cvlan_data(pon_dict, config)], with [lookup_df] the frame read from
    [config["tmo_circuits"]["tmo_lookup_path"]]. *)
Definition add_cvlan_data (pon_dict : dict Record_) (config : Config)
    (lookup_df : DataFrame) : result (dict Record_ * list pyval) :=
  add_cvlan_loop lookup_df (tmo_columns_mapping config) pon_dict [] [].

(** The [try] block of [add_address_data] on one item; an exception leaves
    the record as it is. *)
Definition add_address_item (address_df : DataFrame) (key : string)
    (value : Record_) : Record_ :=
  match (filtered ← df_filter [("Site Name", Str key)] address_df;
         df_row0 filtered) with
  | Ok site_info => dpop "Site Name" (dupdate site_info value)
  | Raise e => value
  end.

(** [add_address_data(pon_dict, config)], with [address_df] the frame read
    from [config["site_lookup"]["df_of_sites_dir"]]. *)
Definition add_address_data (pon_dict : dict Record_) (address_df : DataFrame)
  : dict Record_ :=
  (λ kv, (kv.1, add_address_item address_df kv.1 kv.2)) <$> pon_dict.

(** * Record builder: [PonDictCreator._create_pon_dict], [create_full_dict] *)

(** The dictionary returned by [_parse_contact_info] *)
Record ContactInfo := {
  name : option string;
  phone : option string;
  email : option string;
}.

(** What the builder writes with [logger.error] *)
Inductive log_event :=
  | CircuitNotFound (cir : option string)
  | Caught (e : exn).

(** A path is the list of its components: [os.path.join(p, item)] appends a
    component, [os.path.basename] takes the last one. *)
Definition path : Type := list string.
Definition path_join (p : path) (item : string) : path := p ++ [item].
Definition basename (p : path) : string := default EmptyString (last p).

Section builder.
(** The staging area and the field extractor, which the builder calls:
    [os.listdir], [_extract_pdf_text] (which returns the empty string when
    the file cannot be read), [_parse_date_info], [_parse_contact_info],
    [_parse_circuit_info]. *)
Variable listdir : path → result (list string).
Variable _extract_pdf_text : path → string.
Variable _parse_date_info : string → option string.
Variable _parse_contact_info : string → ContactInfo.
Variable _parse_circuit_info : string → option string.
Variable config : Config.

(** [x in cir]: [cir] is [None] when no circuit was found, and then the
    test raises [TypeError]. *)
Definition in_cir (x : string) (cir : option string) : result bool :=
  match cir with
  | Some c => Ok (py_in x c)
  | None => Raise TypeError
  end.

(** [any(key in cir for key in keys)] *)
Fixpoint any_in_cir (keys : list string) (cir : option string) : result bool :=
  match keys with
  | [] => Ok false
  | key :: keys' =>
      b ← in_cir key cir;
      if b : bool then Ok true else any_in_cir keys' cir
  end.

(** The date and contact assignments of the loop body *)
Definition set_date_contact (text : string) (dict_pon : Record_) : Record_ :=
  let date_info := of_str (_parse_date_info text) in
  let contact_info := _parse_contact_info text in
  let dict_pon :=
    if truthy date_info then dset "date_sent" date_info dict_pon else dict_pon in
  let dict_pon :=
    if truthy (of_str (name contact_info))
    then dset "contact_name" (of_str (name contact_info)) dict_pon
    else dict_pon in
  let dict_pon :=
    if truthy (of_str (phone contact_info))
    then dset "contact_phone" (of_str (phone contact_info)) dict_pon
    else dict_pon in
  if truthy (of_str (email contact_info))
  then dset "contact_email" (of_str (email contact_info)) dict_pon
  else dict_pon.

(** The circuit-slot statement of the loop body: the record and the
    error log after it, or the exception it raises. *)
Definition set_circuit (cir : option string) (dict_pon : Record_)
    (log : list log_event) : result (Record_ * list log_event) :=
  is_evc ← in_cir (evc_uniq_keys config) cir;
  if is_evc : bool then
    evc1 ← getitem "evc1" dict_pon;
    match evc1 with
    | None => Ok (dset "evc1" (of_str cir) dict_pon, log)
    | Some _ => Ok (dset "evc2" (of_str cir) dict_pon, log)
    end
  else
    is_uni ← any_in_cir (uni_uniq_keys config) cir;
    if is_uni : bool then Ok (dset "uni" (of_str cir) dict_pon, log)
    else Ok (dict_pon, log ++ [CircuitNotFound cir]).

(** The [for] loop inside the [try]: the state of [dict_pon] and of the
    error log when the loop ends, and the exception that ended it, if
    any.  [dict_pon] is mutated in place, so what was assigned before an
    exception stays. *)
Fixpoint pon_loop (process_dir : path) (items : list string)
    (dict_pon : Record_) (log : list log_event)
  : Record_ * list log_event * option exn :=
  match items with
  | [] => (dict_pon, log, None)
  | item :: items' =>
      let file_path := path_join process_dir item in
      let text := _extract_pdf_text file_path in
      let cir := _parse_circuit_info text in
      let dict_pon := set_date_contact text dict_pon in
      match set_circuit cir dict_pon log with
      | Ok (dict_pon', log') => pon_loop process_dir items' dict_pon' log'
      | Raise e => (dict_pon, log, Some e)
      end
  end.

Definition new_pon (pon_num : string) : Record_ :=
  [("evc1", None); ("evc2", None); ("uni", None); ("tower_name", Str pon_num);
   ("contact_name", None); ("contact_phone", None); ("contact_email", None)].

(** [_create_pon_dict(process_dir)], with the error log it writes *)
Definition _create_pon_dict_log (process_dir : path)
  : dict Record_ * list log_event :=
  let pon_num := basename process_dir in
  let dict_pon := new_pon pon_num in
  match listdir process_dir with
  | Ok items =>
      match pon_loop process_dir items dict_pon [] with
      | (dict_pon', log, None) => ([(pon_num, dict_pon')], log)
      | (dict_pon', log, Some e) => ([(pon_num, dict_pon')], log ++ [Caught e])
      end
  | Raise e => ([(pon_num, dict_pon)], [Caught e])
  end.

Definition _create_pon_dict (process_dir : path) : dict Record_ :=
  (_create_pon_dict_log process_dir).1.

(** [create_full_dict()]: [full_dict] is the attribute [self.full_dict]
    at the call, [process_dir] the attribute [self.process_dir]. *)
Definition create_full_dict (process_dir : path) (full_dict : dict Record_)
  : result (dict Record_) :=
  items ← listdir process_dir;
  Ok (fold_left (λ full_dict item,
        dupdate (_create_pon_dict (path_join process_dir item)) full_dict)
      items full_dict).

(** The circuit token the builder gets from a document of a directory *)
Definition cir_of (process_dir : path) (item : string) : option string :=
  _parse_circuit_info (_extract_pdf_text (path_join process_dir item)).

(** The families, as the builder tells them apart: a token with the
    [evc_uniq_keys] substring is of the primary family; any other token
    with one of the [uni_uniq_keys] substrings is of the access family. *)
Definition is_primary (c : string) : bool := py_in (evc_uniq_keys config) c.
Definition is_access (c : string) : bool :=
  negb (is_primary c) && existsb (λ key, py_in key c) (uni_uniq_keys config).

(** The date the builder gets from a document of a directory *)
Definition date_of (process_dir : path) (item : string) : option string :=
  _parse_date_info (_extract_pdf_text (path_join process_dir item)).

End builder.

(** The invariant of the collection: a record's [tower_name] is the key
    it is stored under. *)
Definition tower_is_key (full_dict : dict Record_) : Prop :=
  ∀ key value, dget key full_dict = Some value →
               dget "tower_name" value = Some (Str key).

(** * Classifier: [PonDictProcessor.sort_by_type] *)

(** The value of [sorted_dict["pdisc"]] *)
Record Pdisc := {
  vlan : dict Record_;
  unievc : dict Record_;
}.

(** The dictionary [sorted_dict]:
    [{"pdisc": {"vlan": {}, "unievc": {}}, "fdisc": {}, "no_type": {}}] *)
Record SortedDict := {
  pdisc : Pdisc;
  fdisc : dict Record_;
  no_type : dict Record_;
}.

Definition empty_sorted : SortedDict :=
  {| pdisc := {| vlan := []; unievc := [] |}; fdisc := []; no_type := [] |}.

(** The four leaves of [sorted_dict] *)
Inductive bucket := PdiscVlan | PdiscUnievc | Fdisc | NoType.

Global Instance bucket_eq_dec : EqDecision bucket.
Proof. solve_decision. Defined.

Definition get_bucket (b : bucket) (s : SortedDict) : dict Record_ :=
  match b with
  | PdiscVlan => vlan (pdisc s)
  | PdiscUnievc => unievc (pdisc s)
  | Fdisc => fdisc s
  | NoType => no_type s
  end.

(** [sorted_dict[...][key] = value] at a leaf *)
Definition set_bucket (b : bucket) (key : string) (value : Record_)
    (s : SortedDict) : SortedDict :=
  match b with
  | PdiscVlan =>
      {| pdisc := {| vlan := dset key value (vlan (pdisc s));
                     unievc := unievc (pdisc s) |};
         fdisc := fdisc s; no_type := no_type s |}
  | PdiscUnievc =>
      {| pdisc := {| vlan := vlan (pdisc s);
                     unievc := dset key value (unievc (pdisc s)) |};
         fdisc := fdisc s; no_type := no_type s |}
  | Fdisc =>
      {| pdisc := pdisc s; fdisc := dset key value (fdisc s);
         no_type := no_type s |}
  | NoType =>
      {| pdisc := pdisc s; fdisc := fdisc s;
         no_type := dset key value (no_type s) |}
  end.

(** The [if] cascade of the loop body: which leaf the record goes to, from
    [len(tower_filter)] and the three circuit fields. *)
Definition type_of (tower_filter_len : nat) (uni evc1 evc2 : pyval)
  : bucket :=
  if bool_decide (2 < tower_filter_len) then
    if truthy uni && truthy evc1 && truthy evc2 then PdiscUnievc
    else if truthy evc1 && truthy evc2 && negb (truthy uni) then PdiscVlan
    else NoType
  else
    if truthy uni && truthy evc1 && truthy evc2 then Fdisc
    else NoType.

(** The body of the loop of [sort_by_type] *)
Definition sort_item (lookup_df : DataFrame) (key : string) (value : Record_)
    (sorted_dict : SortedDict) : result SortedDict :=
  tower_filter ← df_filter [("Tower Name", Str key)] lookup_df;
  let uni := field "uni" value in
  let evc1 := field "evc1" value in
  let evc2 := field "evc2" value in
  Ok (set_bucket (type_of (df_len tower_filter) uni evc1 evc2) key value sorted_dict).

Fixpoint sort_loop (lookup_df : DataFrame) (items : list (string * Record_))
    (sorted_dict : SortedDict) : result SortedDict :=
  match items with
  | [] => Ok sorted_dict
  | (key, value) :: items' =>
      sorted_dict' ← sort_item lookup_df key value sorted_dict;
      sort_loop lookup_df items' sorted_dict'
  end.

(** [sort_by_type(pon_dict, config)], with [lookup_df] the frame read from
    [config["tmo_circuits"]["tmo_lookup_path"]]. *)
Definition sort_by_type (pon_dict : dict Record_) (lookup_df : DataFrame)
  : result SortedDict :=
  sort_loop lookup_df pon_dict empty_sorted.

(** * Grouper: [PonDictProcessor.sort_by_date] *)

(** The value of [d[k]] on a [defaultdict] whose factory gives an empty
    dictionary. *)
Definition default_get {K K' V} `{!EqDecision K} (k : K)
    (d : gdict K (gdict K' V)) : gdict K' V :=
  default [] (dget k d).

(** [target[date_sent][key] = value] on a [defaultdict(dict)]; the date
    is the value of the field, the key of the group *)
Definition target_set (date_sent : atom) (key : string) (value : Record_)
    (target : gdict atom (dict Record_)) : gdict atom (dict Record_) :=
  dset date_sent (dset key value (default_get date_sent target)) target.

(** One iteration of the loop of [group_entries] *)
Definition group_entry (target : gdict atom (dict Record_)) (kv : string * Record_)
  : gdict atom (dict Record_) :=
  match field "date_sent" kv.2 with
  | Some date_sent =>
      if truthy (Some date_sent) then target_set date_sent kv.1 kv.2 target
      else target
  | None => target
  end.

(** The local function [group_entries(entries, target)]; [target] is
    updated in place, the result is its final state. *)
Definition group_entries (entries : dict Record_) (target : gdict atom (dict Record_))
  : gdict atom (dict Record_) :=
  fold_left group_entry entries target.

(** [pon_dict.get("pdisc", {}).get(section, {})] *)
Definition pdisc_section (section : string) (pon_dict : SortedDict) : dict Record_ :=
  if decide (section = "unievc") then unievc (pdisc pon_dict)
  else if decide (section = "vlan") then vlan (pdisc pon_dict)
  else [].

(** [pon_dict.get(section, {})] for the sections that hold records *)
Definition top_section (section : string) (pon_dict : SortedDict) : dict Record_ :=
  if decide (section = "fdisc") then fdisc pon_dict
  else if decide (section = "no_type") then no_type pon_dict
  else [].

(** [group_entries(entries, grouped_dict[section])] for one section:
    reading [grouped_dict[section]] adds the section when it is missing. *)
Definition group_section (entries : dict Record_) (section : string)
    (grouped_dict : dict (gdict atom (dict Record_))) : dict (gdict atom (dict Record_)) :=
  dset section (group_entries entries (default_get section grouped_dict))
    grouped_dict.

Definition sort_by_date (pon_dict : SortedDict) : dict (gdict atom (dict Record_)) :=
  let grouped_dict := [] in
  let grouped_dict :=
    fold_left (λ g section, group_section (pdisc_section section pon_dict) section g)
      ["unievc"; "vlan"] grouped_dict in
  fold_left (λ g section, group_section (top_section section pon_dict) section g)
    ["fdisc"; "no_type"] grouped_dict.

(** * The pipeline: [PonDictProcessor.process] *)

Definition process (pon_dict : dict Record_) (config : Config)
    (lookup_df address_df : DataFrame) : result (dict (gdict atom (dict Record_))) :=
  '(pon_dict, suspicious_towers) ← add_cvlan_data pon_dict config lookup_df;
  let pon_dict := add_address_data pon_dict address_df in
  sorted_by_type ← sort_by_type pon_dict lookup_df;
  Ok (sort_by_date sorted_by_type).

(** * Notions the properties are stated with *)

(** The number of rows of the reference table whose tower is [key] *)
Definition tower_match_count (lookup_df : DataFrame) (key : string) : nat :=
  length (filter (λ row, cell_eq (cell lookup_df "Tower Name" row) (Str key))
            (df_rows lookup_df)).

(** The decision table of the design document, on the count and the three
    presence flags: more than two matching rows and all three circuits give
    pdisc.unievc, primary and secondary without access give pdisc.vlan; at
    most two rows and all three circuits give fdisc; everything else is
    no_type. *)
Definition decision_table (count : nat) (has_access has_p has_s : bool) : bucket :=
  match bool_decide (2 < count), has_access, has_p, has_s with
  | true, true, true, true => PdiscUnievc
  | true, false, true, true => PdiscVlan
  | true, _, _, _ => NoType
  | false, true, true, true => Fdisc
  | false, _, _, _ => NoType
  end.

(** The leaf the design document assigns to a record stored under [key] *)
Definition leaf_of (lookup_df : DataFrame) (key : string) (value : Record_) : bucket :=
  decision_table (tower_match_count lookup_df key)
    (truthy (field "uni" value)) (truthy (field "evc1" value))
    (truthy (field "evc2" value)).

(** The section of the output that takes the records of a leaf *)
Definition section_name (b : bucket) : string :=
  match b with
  | PdiscUnievc => "unievc"
  | PdiscVlan => "vlan"
  | Fdisc => "fdisc"
  | NoType => "no_type"
  end.

(** [group.get(date, {}).get(key)] in one section of the output *)
Definition in_group (date : atom) (key : string) (target : gdict atom (dict Record_))
  : option Record_ :=
  dget key (default_get date target).

(** [grouped.get(section, {}).get(date, {}).get(key)] in the output *)
Definition in_grouped (section : string) (date : atom) (key : string)
    (grouped : dict (gdict atom (dict Record_))) : option Record_ :=
  in_group date key (default_get section grouped).

(** The record is grouped under [date]: its [date_sent] is that value, and
    the value is truthy. *)
Definition sent_on (date : atom) (value : Record_) : Prop :=
  field "date_sent" value = Some date ∧ truthy (Some date).

Global Instance sent_on_dec date value : Decision (sent_on date value).
Proof. unfold sent_on. apply _. Defined.

(** The flattening the design document speaks of (the code has no such
    function): one section of a grouped collection put back into a mapping
    from order id to record, the date groups one after the other. *)
Definition flatten_section (g : gdict atom (dict Record_)) : dict Record_ :=
  fold_left (λ acc dg, dupdate dg.2 acc) g [].

(** The flattening of a grouped collection into the classified buckets its
    sections come from. *)
Definition flatten (grouped : dict (gdict atom (dict Record_))) : SortedDict :=
  {| pdisc := {| vlan := flatten_section (default_get "vlan" grouped);
                 unievc := flatten_section (default_get "unievc" grouped) |};
     fdisc := flatten_section (default_get "fdisc" grouped);
     no_type := flatten_section (default_get "no_type" grouped) |}.

(** All order ids of a section, group after group *)
Definition all_keys (g : gdict atom (dict Record_)) : list string :=
  g ≫= (λ dg, dkeys dg.2).

(** What holds of every section [group_entries] builds: dates are distinct,
    an order id is in one group only, no group is empty, and the records of
    a group carry the group's date. *)
Record grouped_wf (g : gdict atom (dict Record_)) : Prop := {
  gwf_dates : dict_wf g;
  gwf_keys : NoDup (all_keys g);
  gwf_groups : Forall (λ dg, dg.2 ≠ [] ∧ Forall (λ kv, sent_on dg.1 kv.2) dg.2) g;
}.

(** All records of a section, group after group *)
Definition all_entries (g : gdict atom (dict Record_)) : dict Record_ :=
  mbind (M := list) snd g.

(** The rows of the reference table that match a tower and a circuit *)
Definition matching_rows (lookup_df : DataFrame) (columns_mapping : ColumnsMapping)
    (tower_name evc_value : pyval) : list (list pyval) :=
  filter (λ row,
      cell_eq (cell lookup_df (tower_column columns_mapping) row) tower_name &&
      cell_eq (cell lookup_df (evc_column columns_mapping) row) evc_value)
    (df_rows lookup_df).

(** The reference table has the three columns the CVLAN query names. *)
Definition query_columns (lookup_df : DataFrame) (columns_mapping : ColumnsMapping)
  : Prop :=
  tower_column columns_mapping ∈ df_columns lookup_df ∧
  evc_column columns_mapping ∈ df_columns lookup_df ∧
  "CVLAN" ∈ df_columns lookup_df.

Global Instance query_columns_dec lookup_df columns_mapping :
  Decision (query_columns lookup_df columns_mapping).
Proof. unfold query_columns. apply _. Defined.

(** The frame has the column, of a dtype the value can be compared with. *)
Definition col_comparable (df : DataFrame) (c : string) (v : pyval) : bool :=
  match column_dtype df c with
  | Some t => comparable t v
  | None => false
  end.

(** The CVLAN query for a tower and a circuit can be evaluated: the
    reference table has the three columns, and the tower and the circuit
    can be compared with the cells of theirs. *)
Definition query_ok (lookup_df : DataFrame) (columns_mapping : ColumnsMapping)
    (tower_name evc_value : pyval) : Prop :=
  col_comparable lookup_df (tower_column columns_mapping) tower_name ∧
  col_comparable lookup_df (evc_column columns_mapping) evc_value ∧
  "CVLAN" ∈ df_columns lookup_df.

Global Instance query_ok_dec lookup_df columns_mapping tower_name evc_value :
  Decision (query_ok lookup_df columns_mapping tower_name evc_value).
Proof. unfold query_ok. apply _. Defined.

(** The column is a column of strings of the frame. *)
Definition str_column (df : DataFrame) (c : string) : Prop :=
  column_dtype df c = Some DString.

Global Instance str_column_dec df c : Decision (str_column df c).
Proof. unfold str_column. apply _. Defined.

(** The tag the enrichment resolves for one circuit slot of a record *)
Definition slot_tag (lookup_df : DataFrame) (columns_mapping : ColumnsMapping)
    (value : Record_) (slot : string) : pyval :=
  match dget "tower_name" value, dget slot value with
  | Some tower_name, Some evc_value =>
      (_get_cvlan lookup_df columns_mapping tower_name evc_value slot []).1
  | _, _ => None
  end.

(** The record after the loop body, from the two slot tags *)
Definition with_cvlan (lookup_df : DataFrame) (columns_mapping : ColumnsMapping)
    (value : Record_) : Record_ :=
  let combined_cvlan :=
    combine_cvlan (slot_tag lookup_df columns_mapping value "evc1")
                  (slot_tag lookup_df columns_mapping value "evc2") in
  if bool_decide (combined_cvlan = EmptyString) then value
  else dset "cvlan" (Str combined_cvlan) value.

(** The three fields [add_cvlan_data] reads with [value[...]] *)
Definition has_circuit_fields (value : Record_) : Prop :=
  is_Some (dget "tower_name" value) ∧ is_Some (dget "evc1" value) ∧
  is_Some (dget "evc2" value).

(** The four fields the classifier and the grouper read *)
Definition sort_fields : list string := ["uni"; "evc1"; "evc2"; "date_sent"].

(** * The enrichment on the object store

    [add_cvlan_data] and [add_address_data] start with
    [pon_dict = deepcopy(pon_dict)] and then assign into the records of the
    copy.  Here the collection and its records are objects of a store, a
    dictionary holds references, and assignments update the store in
    place, so that what is shared and what is copied can be stated. *)

Abbreviation loc := positive.

Inductive obj :=
  | ORecord (fields : Record_)
  | OColl (items : dict loc).

Abbreviation heap := (gmap loc obj).

(** Computations on the store that may raise *)
Definition M (A : Type) : Type := heap → heap * result A.

Global Instance M_ret : MRet M := λ A a h, (h, Ok a).
Global Instance M_bind : MBind M := λ A B k m h,
  match m h with
  | (h', Ok a) => k a h'
  | (h', Raise e) => (h', Raise e)
  end.

(** A new object *)
Definition alloc (o : obj) : M loc :=
  λ h, let l := fresh (dom h) in (<[l:=o]> h, Ok l).

(** Reading through a reference; Python has no dangling or ill-typed
    reference for these objects, the model answers [TypeError] there. *)
Definition read_record (l : loc) : M Record_ :=
  λ h, match h !! l with
       | Some (ORecord r) => (h, Ok r)
       | _ => (h, Raise TypeError)
       end.

Definition read_coll (l : loc) : M (dict loc) :=
  λ h, match h !! l with
       | Some (OColl c) => (h, Ok c)
       | _ => (h, Raise TypeError)
       end.

(** In-place update of the object behind a reference *)
Definition write (l : loc) (o : obj) : M unit :=
  λ h, (<[l:=o]> h, Ok ()).

Definition lift {A} (r : result A) : M A := λ h, (h, r).

(** The loop of [deepcopy] over the items of the collection [x]: every
    record is copied once ([memo] maps a record to its copy), and the copy
    is stored under the same key in the new collection [y]. *)
Fixpoint deepcopy_items (items : list (string * loc)) (memo : gmap loc loc)
    (y : loc) : M unit :=
  match items with
  | [] => mret ()
  | (key, l) :: items' =>
      match memo !! l with
      | Some l' =>
          d ← read_coll y;
          write y (OColl (dset key l' d));;
          deepcopy_items items' memo y
      | None =>
          r ← read_record l;
          l' ← alloc (ORecord r);
          d ← read_coll y;
          write y (OColl (dset key l' d));;
          deepcopy_items items' (<[l:=l']> memo) y
      end
  end.

(** [deepcopy(x)] for a collection of records *)
Definition deepcopy (x : loc) : M loc :=
  items ← read_coll x;
  y ← alloc (OColl []);
  deepcopy_items items ∅ y;;
  mret y.

(** [for key, value in pon_dict.items(): value = body(key, value)], the
    assignments made in place on the record [value] refers to; [s] is the
    state the body threads (the list [suspicious_towers]). *)
Fixpoint for_items {S} (body : string → Record_ → S → result (Record_ * S))
    (items : list (string * loc)) (s : S) : M S :=
  match items with
  | [] => mret s
  | (key, l) :: items' =>
      value ← read_record l;
      '(value', s') ← lift (body key value s);
      write l (ORecord value');;
      for_items body items' s'
  end.

(** [add_cvlan_data] on the store *)
Definition add_cvlan_data_heap (pon_dict : loc) (config : Config)
    (lookup_df : DataFrame) : M (loc * list pyval) :=
  pon_dict ← deepcopy pon_dict;
  items ← read_coll pon_dict;
  suspicious_towers ←
    for_items (λ key value suspicious_towers,
                 add_cvlan_item lookup_df (tmo_columns_mapping config) value
                   suspicious_towers) items [];
  mret (pon_dict, suspicious_towers).

(** [add_address_data] on the store *)
Definition add_address_data_heap (pon_dict : loc) (address_df : DataFrame)
  : M loc :=
  pon_dict ← deepcopy pon_dict;
  items ← read_coll pon_dict;
  for_items (λ key value (_ : unit),
               Ok (add_address_item address_df key value, ())) items ();;
  mret pon_dict.

(** The collection at [x] is a dictionary of records of the store. *)
Definition heap_coll (h : heap) (x : loc) (items : dict loc) : Prop :=
  h !! x = Some (OColl items) ∧
  ∀ key l, (key, l) ∈ items → ∃ r, h !! l = Some (ORecord r).






(** The collection behind a dictionary of references, as a value *)
Fixpoint read_back (h : heap) (items : dict loc) : option (dict Record_) :=
  match items with
  | [] => Some []
  | (key, l) :: items' =>
      match h !! l with
      | Some (ORecord r) => (λ rest, (key, r) :: rest) <$> read_back h items'
      | _ => None
      end
  end.

(** The loop [for_items] on values *)
Fixpoint for_values {S} (body : string → Record_ → S → result (Record_ * S))
    (items : dict Record_) (s : S) : result (dict Record_ * S) :=
  match items with
  | [] => Ok ([], s)
  | (key, value) :: items' =>
      '(value', s') ← body key value s;
      '(rest, s'') ← for_values body items' s';
      Ok ((key, value') :: rest, s'')
  end.

(** * A worked staging area

    Three order directories under [tmp]: PON_1234 with a primary and an
    access document, PON_777 with three primary documents, PON_9 with an
    unreadable scan before a primary document.  The text of a document is
    stood for by its file name. *)

Definition ex_config : Config :=
  {| evc_uniq_keys := "EVCTAG"; uni_uniq_keys := ["UNITAG"];
     tmo_columns_mapping :=
       {| tower_column := "Tower Name"; evc_column := "EVC" |} |}.

Definition ex_listdir (p : path) : result (list string) :=
  if decide (p = ["tmp"]) then Ok ["PON_1234"; "PON_777"; "PON_9"]
  else if decide (p = ["tmp"; "PON_1234"]) then Ok ["evc.pdf"; "uni.pdf"]
  else if decide (p = ["tmp"; "PON_777"]) then Ok ["a.pdf"; "b.pdf"; "c.pdf"]
  else if decide (p = ["tmp"; "PON_9"]) then Ok ["scan.pdf"; "evc.pdf"]
  else Raise OSError.

Definition ex_extract_pdf_text (p : path) : string := basename p.

Definition ex_parse_date_info (text : string) : option string :=
  if decide (text = "evc.pdf") then Some "01-02-2024" else None.

Definition ex_parse_contact_info (text : string) : ContactInfo :=
  {| name := None; phone := None; email := None |}.

Definition ex_parse_circuit_info (text : string) : option string :=
  if decide (text = "evc.pdf") then Some "1.EVCTAG.X."
  else if decide (text = "uni.pdf") then Some "1.UNITAG.Y."
  else if decide (text = "a.pdf") then Some "1.EVCTAG.A."
  else if decide (text = "b.pdf") then Some "1.EVCTAG.B."
  else if decide (text = "c.pdf") then Some "1.EVCTAG.C."
  else None.

Definition ex_create_pon_dict_log (process_dir : path) :=
  _create_pon_dict_log ex_listdir ex_extract_pdf_text ex_parse_date_info
    ex_parse_contact_info ex_parse_circuit_info ex_config process_dir.

Definition ex_create_pon_dict (process_dir : path) : dict Record_ :=
  _create_pon_dict ex_listdir ex_extract_pdf_text ex_parse_date_info
    ex_parse_contact_info ex_parse_circuit_info ex_config process_dir.

(** The reference table: three rows for PON_1234, tower T1 with the same
    circuit on two rows, and tower T0 with the tags 0 and 7.  The tags are
    integers. *)
Definition ex_lookup_df : DataFrame :=
  {| df_schema := [("Tower Name", DString); ("EVC", DString); ("CVLAN", DInt64)];
     df_rows := [[Str "PON_1234"; Str "1.EVCTAG.X."; Int 10];
                 [Str "PON_1234"; Str "1.EVCTAG.W."; Int 20];
                 [Str "PON_1234"; Str "1.EVCTAG.V."; Int 30];
                 [Str "T1"; Str "1.EVCTAG.E."; Int 41];
                 [Str "T1"; Str "1.EVCTAG.E."; Int 42];
                 [Str "T0"; Str "1.EVCTAG.P."; Int 0];
                 [Str "T0"; Str "1.EVCTAG.S."; Int 7]] |}.

(** A reference table without the tower column the configuration names *)
Definition ex_lookup_df_no_tower : DataFrame :=
  {| df_schema := [("Tower", DString); ("EVC", DString); ("CVLAN", DInt64)];
     df_rows := [[Str "T1"; Str "1.EVCTAG.E."; Int 41]] |}.

(** A reference table whose towers are all numbers: the column is a column
    of integers *)
Definition ex_lookup_df_int_tower : DataFrame :=
  {| df_schema := [("Tower Name", DInt64); ("EVC", DString); ("CVLAN", DInt64)];
     df_rows := [[Int 1234; Str "1.EVCTAG.X."; Int 10]] |}.

Definition ex_address_df : DataFrame :=
  {| df_schema := [("Site Name", DString); ("City", DString); ("Zip", DInt64)];
     df_rows := [[Str "PON_1234"; Str "Springfield"; Int 62701];
                 [Str "S1"; Str "Shelbyville"; Int 46176]] |}.

(** The record the builder makes of PON_1234 *)
Definition ex_record : Record_ :=
  [("evc1", Str "1.EVCTAG.X."); ("evc2", None); ("uni", Str "1.UNITAG.Y.");
   ("tower_name", Str "PON_1234"); ("contact_name", None);
   ("contact_phone", None); ("contact_email", None);
   ("date_sent", Str "01-02-2024")].

(** A collection with a record for each leaf *)
Definition ex_pon_dict : dict Record_ :=
  [("PON_1234", ex_record);
   ("PON_1", [("evc1", Str "1.EVCTAG.A."); ("evc2", Str "1.EVCTAG.B.");
              ("uni", None); ("tower_name", Str "PON_1");
              ("date_sent", Str "03-02-2024")]);
   ("T1", [("evc1", Str "1.EVCTAG.E."); ("evc2", Str "1.EVCTAG.F.");
           ("uni", Str "1.UNITAG.G."); ("tower_name", Str "T1")])].

Definition ex_sorted_dict : SortedDict :=
  {| pdisc := {| vlan := []; unievc := [] |};
     fdisc := [("T1", [("evc1", Str "1.EVCTAG.E."); ("evc2", Str "1.EVCTAG.F.");
                       ("uni", Str "1.UNITAG.G."); ("tower_name", Str "T1")])];
     no_type := [("PON_1234", ex_record);
                 ("PON_1", [("evc1", Str "1.EVCTAG.A."); ("evc2", Str "1.EVCTAG.B.");
                            ("uni", None); ("tower_name", Str "PON_1");
                            ("date_sent", Str "03-02-2024")])] |}.

(** A store with the collection at 1 and one record at 2; the record has a
    field named like the key column of the address table. *)
Definition ex_heap : heap :=
  <[1%positive := OColl [("S1", 2%positive)]]>
    (<[2%positive := ORecord [("Site Name", Str "old"); ("evc1", None);
                              ("evc2", None); ("tower_name", Str "S1")]]> ∅).


(** * Further notions *)

Global Instance has_circuit_fields_dec value : Decision (has_circuit_fields value).
Proof. unfold has_circuit_fields. apply _. Defined.

(** What one record adds to the list of suspicious towers: its tower,
    once for each circuit slot whose query cannot be evaluated. *)
Definition flagged (lookup_df : DataFrame) (columns_mapping : ColumnsMapping)
    (value : Record_) : list pyval :=
  let tower_name := field "tower_name" value in
  (if decide (query_ok lookup_df columns_mapping tower_name (field "evc1" value))
   then [] else [tower_name]) ++
  (if decide (query_ok lookup_df columns_mapping tower_name (field "evc2" value))
   then [] else [tower_name]).

Definition first_char (s : string) : option ascii :=
  match s with
  | EmptyString => None
  | String a _ => Some a
  end.

Fixpoint last_char (s : string) : option ascii :=
  match s with
  | EmptyString => None
  | String a EmptyString => Some a
  | String _ s' => last_char s'
  end.

(** A tag as the reference table should hold it: not empty, no slash at
    either end. *)
Definition clean_tag (a : string) : Prop :=
  a ≠ EmptyString ∧ first_char a ≠ Some "/"%char ∧ last_char a ≠ Some "/"%char.

(** The row of the address table [add_address_data] takes for a site: the
    first one whose Site Name is the key. *)
Definition address_row (address_df : DataFrame) (key : string)
  : option (list pyval) :=
  head (filter (λ row, cell_eq (cell address_df "Site Name" row) (Str key))
          (df_rows address_df)).

(** The record has a date the grouper accepts. *)
Definition dated (kv : string * Record_) : Prop :=
  truthy (field "date_sent" kv.2).

Global Instance dated_dec kv : Decision (dated kv).
Proof. unfold dated. apply _. Defined.

(** * Field extractor: [PonDictCreator._extract_pdf_text],
      [_parse_circuit_info] *)

(** [sep.join(l)] *)
Fixpoint py_join (sep : string) (l : list string) : string :=
  match l with
  | [] => EmptyString
  | [x] => x
  | x :: l' => x +:+ sep +:+ py_join sep l'
  end.

(** The line feed, and the one-character string that holds it *)
Definition newline : ascii := "010"%char.
Definition nl : string := String newline EmptyString.

(** [s.split(c)] for a one-character separator; the result is never the
    empty list. *)
Fixpoint py_split (c : ascii) (s : string) : list string :=
  match s with
  | EmptyString => [EmptyString]
  | String a s' =>
      if decide (a = c) then EmptyString :: py_split c s'
      else match py_split c s' with
           | line :: lines => String a line :: lines
           | [] => [String a EmptyString]
           end
  end.

(** The entries [evc_target_header] and [uni_target_header] of
    [config["tmo_circuits"]] *)
Record TargetHeaders := {
  evc_target_header : string;
  uni_target_header : string;
}.

Section extractor.
(** What the extractor calls: pdfplumber ([pdf_pages pdf_path] is the
    outcome of opening the document, and for each of its pages the outcome
    of [page.extract_text()]: a string, [None], or an exception) and the
    regular-expression engine ([re_search pattern s] is [group(0)] of
    [re.search(pattern, s)], if there is a match). *)
Variable pdf_pages : path → result (list (result (option string))).
Variable re_search : string → string → option string.
Variable config : Config.
Variable headers : TargetHeaders.

(** The loop over [pdf.pages]: [text += page.extract_text() + "\n"]; adding
    a string to [None] raises. *)
Fixpoint read_pages (pages : list (result (option string))) (text : string)
  : result string :=
  match pages with
  | [] => Ok text
  | page :: pages' =>
      page_text ← page;
      match page_text with
      | Some t => read_pages pages' (text +:+ t +:+ nl)
      | None => Raise TypeError
      end
  end.

(** [_extract_pdf_text(pdf_path)]: any exception gives the empty string. *)
Definition _extract_pdf_text (pdf_path : path) : string :=
  match (pages ← pdf_pages pdf_path; read_pages pages EmptyString) with
  | Ok text => text
  | Raise e => EmptyString
  end.

Definition evc_pattern : string :=
  "\b\d+\.\b" +:+ evc_uniq_keys config +:+ "\.\S*\.".
Definition uni_pattern : string :=
  "\b\d+\.\b(" +:+ py_join "|" (uni_uniq_keys config) +:+ ")\.\S*\.".

(** The loop of [search_header] over the lines: a line with the header is
    looked at only if a line follows it, and the pattern is searched in
    that next line. *)
Fixpoint search_lines (header pattern : string) (lines : list string)
  : option string :=
  match lines with
  | [] => None
  | line :: rest =>
      match rest with
      | [] => None
      | next :: _ =>
          if py_in header line then
            match re_search pattern next with
            | Some m => Some m
            | None => search_lines header pattern rest
            end
          else search_lines header pattern rest
      end
  end.

(** [search_header(header, pattern)], a closure over [text] *)
Definition search_header (text header pattern : string) : option string :=
  if py_in header text
  then search_lines header pattern (py_split newline text)
  else None.

(** [_parse_circuit_info(text)] *)
Definition _parse_circuit_info (text : string) : option string :=
  let found := search_header text (evc_target_header headers) evc_pattern in
  if truthy (of_str found) then found
  else search_header text (uni_target_header headers) uni_pattern.

End extractor.

(** The lines have the header at index [i] and, on the line after it, a
    match [m] of the pattern. *)
Definition match_at (re_search : string → string → option string)
    (header pattern : string) (lines : list string) (i : nat) (m : string)
  : Prop :=
  ∃ line next, lines !! i = Some line ∧ lines !! S i = Some next ∧
               py_in header line ∧ re_search pattern next = Some m.

(** The names of the fields of a record the builder has just created *)
Definition new_fields : list string :=
  ["evc1"; "evc2"; "uni"; "tower_name";
   "contact_name"; "contact_phone"; "contact_email"].

(** ** Documents for the worked staging area

    The pages of the documents of PON_1234 and PON_9 (the scan of PON_9 has
    a page without text), and a stand-in for the regular-expression engine
    that knows the two circuits of the example. *)

Definition ex_headers : TargetHeaders :=
  {| evc_target_header := "EVC CIRCUIT ID"; uni_target_header := "UNI CIRCUIT ID" |}.

Definition ex_pages : list string :=
  ["UNI CIRCUIT ID" +:+ nl +:+ "1.UNITAG.Y.";
   "EVC CIRCUIT ID" +:+ nl +:+ "1.EVCTAG.X."].

(** The text of the two pages *)
Definition ex_text : string :=
  "UNI CIRCUIT ID" +:+ nl +:+ "1.UNITAG.Y." +:+ nl +:+
  "EVC CIRCUIT ID" +:+ nl +:+ "1.EVCTAG.X." +:+ nl.

Definition ex_pdf_pages (p : path) : result (list (result (option string))) :=
  if decide (p = ["tmp"; "PON_1234"; "evc.pdf"])
  then Ok ((λ t, Ok (Some t)) <$> ex_pages)
  else if decide (p = ["tmp"; "PON_9"; "scan.pdf"])
  then Ok [Ok (Some "cover"); Ok None]
  else if decide (p = ["tmp"; "PON_9"; "evc.pdf"])
  then Ok [Ok (Some ("EVC CIRCUIT ID" +:+ nl +:+ "1.EVCTAG.X."))]
  else Raise OSError.

Definition ex_re_search (pattern s : string) : option string :=
  if decide (s = "1.EVCTAG.X.")
  then (if py_in "EVCTAG" pattern then Some s else None)
  else if decide (s = "1.UNITAG.Y.")
  then (if py_in "UNITAG" pattern then Some s else None)
  else None.

(** * Properties of the dictionaries *)

Section dict_facts.
Context {K : Type} `{!EqDecision K} {V : Type}.
Implicit Types (d : gdict K V) (k : K) (v : V).

Lemma dget_None k d : dget k d = None ↔ k ∉ dkeys d.
Proof.
  induction d as [|[k' v'] d IH]; simpl.
  - split; [intros _; apply not_elem_of_nil | done].
  - rewrite not_elem_of_cons. destruct (decide (k = k')); naive_solver.
Qed.

Lemma dget_Some_elem k v d : dget k d = Some v → (k, v) ∈ d.
Proof.
  induction d as [|[k' v'] d IH]; simpl; [done|].
  destruct (decide (k = k')) as [->|]; [intros [= ->]; left|right; auto].
Qed.

Lemma dget_Some_key k v d : dget k d = Some v → k ∈ dkeys d.
Proof.
  intros H. destruct (decide (k ∈ dkeys d)) as [|Hn]; [done|].
  apply dget_None in Hn. congruence.
Qed.

Lemma elem_dget k v d : dict_wf d → (k, v) ∈ d → dget k d = Some v.
Proof.
  unfold dict_wf, dkeys. induction d as [|[k' v'] d IH]; simpl.
  - intros _ H. by apply elem_of_nil in H.
  - rewrite NoDup_cons. intros [Hk Hd] [[= -> ->]|H]%elem_of_cons.
    + by rewrite decide_True.
    + rewrite decide_False; [auto|]. intros ->. apply Hk.
      apply list_elem_of_fmap. by exists (k', v).
Qed.

Lemma dget_dset k k' v d :
  dget k' (dset k v d) = if decide (k' = k) then Some v else dget k' d.
Proof.
  induction d as [|[k0 v0] d IH]; simpl.
  - done.
  - destruct (decide (k = k0)) as [->|]; simpl.
    + destruct (decide (k' = k0)); done.
    + rewrite IH. destruct (decide (k' = k0)) as [->|]; [|done].
      by rewrite decide_False.
Qed.

Lemma dget_dset_eq k v d : dget k (dset k v d) = Some v.
Proof. by rewrite dget_dset, decide_True. Qed.

Lemma dget_dset_ne k k' v d : k' ≠ k → dget k' (dset k v d) = dget k' d.
Proof. intros. by rewrite dget_dset, decide_False. Qed.

Lemma dkeys_dset_in k v d : k ∈ dkeys d → dkeys (dset k v d) = dkeys d.
Proof.
  unfold dkeys. induction d as [|[k0 v0] d IH]; simpl.
  - intros H. by apply elem_of_nil in H.
  - intros H. destruct (decide (k = k0)) as [->|Hne]; simpl; [done|].
    f_equal. apply IH. apply elem_of_cons in H as [|]; done.
Qed.

Lemma dset_notin k v d : k ∉ dkeys d → dset k v d = d ++ [(k, v)].
Proof.
  unfold dkeys. induction d as [|[k0 v0] d IH]; simpl; [done|].
  rewrite not_elem_of_cons. intros [Hne Hn].
  rewrite decide_False by done. by rewrite IH.
Qed.

Lemma dkeys_dset_notin k v d : k ∉ dkeys d → dkeys (dset k v d) = dkeys d ++ [k].
Proof. intros H. rewrite dset_notin by done. unfold dkeys. by rewrite fmap_app. Qed.

Lemma elem_dkeys_dset k k' v d : k' ∈ dkeys (dset k v d) ↔ k' = k ∨ k' ∈ dkeys d.
Proof.
  destruct (decide (k ∈ dkeys d)) as [Hin|Hn].
  - rewrite dkeys_dset_in by done. naive_solver.
  - rewrite dkeys_dset_notin by done. rewrite elem_of_app, list_elem_of_singleton.
    naive_solver.
Qed.

Lemma dict_wf_dset k v d : dict_wf d → dict_wf (dset k v d).
Proof.
  unfold dict_wf. intros Hd. destruct (decide (k ∈ dkeys d)) as [Hin|Hn].
  - by rewrite dkeys_dset_in.
  - rewrite dkeys_dset_notin by done. apply NoDup_app. split_and!; [done| |].
    + intros x Hx ->%list_elem_of_singleton. done.
    + apply NoDup_singleton.
Qed.

Lemma dget_dpop k k' d :
  dict_wf d → dget k' (dpop k d) = if decide (k' = k) then None else dget k' d.
Proof.
  unfold dict_wf, dkeys. induction d as [|[k0 v0] d IH]; simpl.
  - intros _. by destruct (decide (k' = k)).
  - rewrite NoDup_cons. intros [Hk Hd].
    destruct (decide (k = k0)) as [->|Hne]; simpl.
    + destruct (decide (k' = k0)) as [->|]; [|done].
      by apply dget_None.
    + rewrite IH by done.
      destruct (decide (k' = k0)) as [->|]; [|done].
      by rewrite decide_False.
Qed.

Lemma dget_dpop_ne k k' d : k' ≠ k → dget k' (dpop k d) = dget k' d.
Proof.
  intros Hne. induction d as [|[k0 v0] d IH]; simpl; [done|].
  destruct (decide (k = k0)) as [->|]; simpl.
  - by rewrite decide_False.
  - by rewrite IH.
Qed.


Lemma dget_dupdate_notin k src d :
  k ∉ dkeys src → dget k (dupdate src d) = dget k d.
Proof.
  unfold dupdate, dkeys. revert d.
  induction src as [|[k0 v0] src IH]; simpl; [done|].
  intros d [Hne Hn]%not_elem_of_cons. rewrite IH by done.
  by rewrite dget_dset_ne.
Qed.

Lemma dict_wf_dupdate src d : dict_wf d → dict_wf (dupdate src d).
Proof.
  unfold dupdate. revert d. induction src as [|[k0 v0] src IH]; simpl; [done|].
  intros d Hd. by apply IH, dict_wf_dset.
Qed.

Lemma dict_wf_nil : dict_wf (@nil (K * V)).
Proof. apply NoDup_nil_2. Qed.
End dict_facts.

(** * Properties of the data frames *)

Lemma column_dtype_None df c : column_dtype df c = None ↔ c ∉ df_columns df.
Proof. apply dget_None. Qed.

Lemma column_dtype_elem df c t : column_dtype df c = Some t → c ∈ df_columns df.
Proof. apply dget_Some_key. Qed.

Lemma str_column_comparable df c s :
  str_column df c → col_comparable df c (Str s).
Proof. unfold str_column, col_comparable. by intros ->. Qed.

Lemma comparable_str_column df c s :
  col_comparable df c (Str s) → str_column df c.
Proof.
  unfold str_column, col_comparable.
  by destruct (column_dtype df c) as [[]|].
Qed.

Lemma col_comparable_elem df c v : col_comparable df c v → c ∈ df_columns df.
Proof.
  unfold col_comparable. destruct (column_dtype df c) eqn:Hc; [|done].
  intros _. by eapply column_dtype_elem.
Qed.

Lemma df_filter_one c v df :
  col_comparable df c v →
  df_filter [(c, v)] df =
  Ok {| df_schema := df_schema df;
        df_rows := filter (λ row, cell_eq (cell df c row) v) (df_rows df) |}.
Proof.
  unfold col_comparable, df_filter. simpl.
  destruct (column_dtype df c) as [t|]; [|done].
  destruct (comparable t v); [|done]. intros _.
  do 2 f_equal. apply list_filter_iff. intros row. simpl. by rewrite andb_true_r.
Qed.

Lemma df_filter_one_raise c v df :
  ¬ col_comparable df c v →
  df_filter [(c, v)] df =
  Raise (if decide (c ∈ df_columns df) then ComputeError
         else ColumnNotFoundError c).
Proof.
  unfold col_comparable, df_filter. simpl.
  destruct (column_dtype df c) as [t|] eqn:Hc.
  - rewrite decide_True by (by eapply column_dtype_elem).
    destruct (comparable t v); [by intros []|done].
  - intros _. apply column_dtype_None in Hc. by rewrite decide_False.
Qed.

Lemma df_filter_schema preds df df' :
  df_filter preds df = Ok df' → df_schema df' = df_schema df.
Proof.
  unfold df_filter. destruct (filter_error df preds); [done|].
  by intros [= <-].
Qed.

(** * Properties of the classifier *)

Lemma type_of_decision_table n uni evc1 evc2 :
  type_of n uni evc1 evc2 =
  decision_table n (truthy uni) (truthy evc1) (truthy evc2).
Proof.
  unfold type_of, decision_table.
  destruct (bool_decide (2 < n)), (truthy uni), (truthy evc1), (truthy evc2);
    reflexivity.
Qed.

Lemma get_set_bucket b b0 key k0 v0 s :
  dget key (get_bucket b (set_bucket b0 k0 v0 s)) =
  if decide (b = b0 ∧ key = k0) then Some v0 else dget key (get_bucket b s).
Proof.
  destruct b, b0; simpl; rewrite ?dget_dset;
    repeat case_decide; try reflexivity; intuition congruence.
Qed.

Lemma sort_item_ok lookup_df key value s :
  str_column lookup_df "Tower Name" →
  sort_item lookup_df key value s =
  Ok (set_bucket (leaf_of lookup_df key value) key value s).
Proof.
  intros Hcol. unfold sort_item.
  rewrite df_filter_one by (by apply str_column_comparable). simpl.
  by rewrite type_of_decision_table.
Qed.

Lemma sort_loop_spec lookup_df items acc :
  str_column lookup_df "Tower Name" →
  dict_wf items →
  ∃ sorted, sort_loop lookup_df items acc = Ok sorted ∧
    ∀ key b, dget key (get_bucket b sorted) =
      match dget key items with
      | Some value =>
          if decide (b = leaf_of lookup_df key value) then Some value
          else dget key (get_bucket b acc)
      | None => dget key (get_bucket b acc)
      end.
Proof.
  intros Hcol. revert acc.
  induction items as [|[k0 v0] items IH]; intros acc Hwf; simpl.
  - eexists; split; [reflexivity|done].
  - apply NoDup_cons in Hwf as [Hk0 Hwf]. simpl in Hk0.
    rewrite sort_item_ok by done. simpl.
    destruct (IH (set_bucket (leaf_of lookup_df k0 v0) k0 v0 acc) Hwf)
      as (sorted & -> & Hs).
    exists sorted. split; [reflexivity|]. intros key b. rewrite Hs.
    rewrite get_set_bucket.
    destruct (decide (key = k0)) as [->|Hne].
    + apply dget_None in Hk0. rewrite Hk0.
      destruct (decide (b = leaf_of lookup_df k0 v0)) as [->|Hb].
      * by rewrite decide_True.
      * rewrite decide_False; [done|]. intros [? _]; done.
    + rewrite (decide_False (P := _ ∧ _)); [done|]. intros [_ ?]; done.
Qed.

Lemma sort_by_type_spec pon_dict lookup_df :
  dict_wf pon_dict →
  str_column lookup_df "Tower Name" →
  ∃ sorted_dict, sort_by_type pon_dict lookup_df = Ok sorted_dict ∧
    (∀ key value, dget key pon_dict = Some value →
       ∀ b, dget key (get_bucket b sorted_dict) =
            if decide (b = leaf_of lookup_df key value) then Some value else None) ∧
    (∀ key, dget key pon_dict = None →
       ∀ b, dget key (get_bucket b sorted_dict) = None).
Proof.
  intros Hwf Hcol.
  destruct (sort_loop_spec lookup_df pon_dict empty_sorted Hcol Hwf)
    as (sorted & Hs & Hget).
  exists sorted. split; [exact Hs|]. split.
  - intros key value Hkv b. rewrite Hget, Hkv.
    case_decide; [done|]. by destruct b.
  - intros key Hk b. rewrite Hget, Hk. by destruct b.
Qed.

Lemma set_bucket_wf b0 key value s :
  (∀ b, dict_wf (get_bucket b s)) →
  ∀ b, dict_wf (get_bucket b (set_bucket b0 key value s)).
Proof.
  intros Hs b. pose proof (Hs b) as Hb.
  destruct b, b0; simpl in *; try done; by apply dict_wf_dset.
Qed.

(** The leaves [sort_by_type] returns are dictionaries. *)
Lemma sort_by_type_wf pon_dict lookup_df sorted_dict :
  sort_by_type pon_dict lookup_df = Ok sorted_dict →
  ∀ b, dict_wf (get_bucket b sorted_dict).
Proof.
  unfold sort_by_type.
  assert (Hempty : ∀ b, dict_wf (get_bucket b empty_sorted)).
  { intros []; apply NoDup_nil_2. }
  revert Hempty. generalize empty_sorted as acc.
  induction pon_dict as [|[key value] items IH]; intros acc Hacc; simpl.
  - by intros [= <-].
  - unfold sort_item.
    destruct (df_filter _ lookup_df) as [tower_filter|e]; simpl; [|done].
    apply IH. by apply set_bucket_wf.
Qed.

(** C1.  For a collection and a reference table whose column Tower Name is
    a column of strings (the keys of the collection are strings, and polars
    refuses to compare them with a column of integers), [sort_by_type]
    returns, and in its result every record of the
    collection is found under its key in exactly one leaf: the one the
    decision table gives for (tower_match_count, has_access, has_p, has_s);
    it is in no other leaf, and the leaves hold nothing else. *)
Theorem sort_by_type_decision_table (pon_dict : dict Record_) (lookup_df : DataFrame) :
  dict_wf pon_dict →
  str_column lookup_df "Tower Name" →
  ∃ sorted_dict, sort_by_type pon_dict lookup_df = Ok sorted_dict ∧
    (∀ key value, dget key pon_dict = Some value →
       ∀ b, dget key (get_bucket b sorted_dict) =
            if decide (b = decision_table (tower_match_count lookup_df key)
                             (truthy (field "uni" value))
                             (truthy (field "evc1" value))
                             (truthy (field "evc2" value)))
            then Some value else None) ∧
    (∀ key, dget key pon_dict = None →
       ∀ b, dget key (get_bucket b sorted_dict) = None).
Proof. apply sort_by_type_spec. Qed.

(** * Properties of the grouper *)

Lemma sort_by_date_unfold (pon_dict : SortedDict) :
  sort_by_date pon_dict =
  [("unievc", group_entries (unievc (pdisc pon_dict)) []);
   ("vlan", group_entries (vlan (pdisc pon_dict)) []);
   ("fdisc", group_entries (fdisc pon_dict) []);
   ("no_type", group_entries (no_type pon_dict) [])].
Proof. reflexivity. Qed.

Lemma in_group_target_set date key d0 k0 v0 target :
  in_group date key (target_set d0 k0 v0 target) =
  if decide (date = d0 ∧ key = k0) then Some v0 else in_group date key target.
Proof.
  unfold in_group, target_set, default_get. rewrite dget_dset.
  destruct (decide (date = d0)) as [->|Hd]; simpl.
  - rewrite dget_dset. destruct (decide (key = k0)) as [->|Hk].
    + by rewrite decide_True.
    + rewrite decide_False; [done|]. intros [_ ?]; done.
  - rewrite decide_False; [done|]. intros [? _]; done.
Qed.

Lemma group_entry_cases target key value :
  (∃ date, sent_on date value ∧
           group_entry target (key, value) = target_set date key value target) ∨
  ((∀ date, ¬ sent_on date value) ∧ group_entry target (key, value) = target).
Proof.
  unfold group_entry, sent_on. cbn [fst snd].
  destruct (field "date_sent" value) as [date|].
  - destruct (truthy (Some date)) eqn:Ht.
    + left. exists date. by rewrite Ht.
    + right. split; [|done]. intros d [[= <-] Hd]. by rewrite Ht in Hd.
  - right. split; [|done]. intros date [[=] _].
Qed.

Lemma in_group_group_entry date key target k0 v0 :
  in_group date key (group_entry target (k0, v0)) =
  if decide (key = k0 ∧ sent_on date v0) then Some v0
  else in_group date key target.
Proof.
  destruct (group_entry_cases target k0 v0) as [(d0 & Hd0 & ->)|[Hno ->]].
  - rewrite in_group_target_set.
    destruct (decide (date = d0 ∧ key = k0)) as [[-> ->]|Hn].
    + by rewrite decide_True.
    + rewrite decide_False; [done|]. intros [-> Hs]. apply Hn. split; [|done].
      destruct Hd0 as [Hd0 _], Hs as [Hs _]. congruence.
  - rewrite decide_False; [done|]. intros [_ Hs]. by apply (Hno date).
Qed.

Lemma in_group_group_entries date key entries target :
  dict_wf entries →
  in_group date key (group_entries entries target) =
  match dget key entries with
  | Some value =>
      if decide (sent_on date value) then Some value
      else in_group date key target
  | None => in_group date key target
  end.
Proof.
  unfold group_entries. revert target.
  induction entries as [|[k0 v0] entries IH]; intros target Hwf; simpl; [done|].
  apply NoDup_cons in Hwf as [Hk0 Hwf]. simpl in Hk0.
  rewrite IH by done. rewrite in_group_group_entry.
  destruct (decide (key = k0)) as [->|Hne].
  - apply dget_None in Hk0. rewrite Hk0.
    destruct (decide (sent_on date v0)).
    + by rewrite decide_True.
    + rewrite decide_False; [done|]. intros [_ ?]; done.
  - rewrite (decide_False (P := _ ∧ _)); [done|]. intros [? _]; done.
Qed.

(** In which leaf of the classified collection a section's records come
    from: the four sections are the four leaves. *)
Lemma in_grouped_sort_by_date b date key pon_dict :
  dict_wf (get_bucket b pon_dict) →
  in_grouped (section_name b) date key (sort_by_date pon_dict) =
  match dget key (get_bucket b pon_dict) with
  | Some value => if decide (sent_on date value) then Some value else None
  | None => None
  end.
Proof.
  intros Hwf. rewrite sort_by_date_unfold. unfold in_grouped.
  destruct b; unfold default_get at 1; simpl;
    by rewrite in_group_group_entries.
Qed.

(** Every key of the output is one of the four section names. *)
Lemma in_grouped_section section date key pon_dict :
  is_Some (in_grouped section date key (sort_by_date pon_dict)) →
  ∃ b, section = section_name b.
Proof.
  rewrite sort_by_date_unfold. unfold in_grouped, default_get at 1. simpl.
  repeat case_decide; subst;
    [by exists PdiscUnievc|by exists PdiscVlan|by exists Fdisc|by exists NoType|].
  simpl. intros [? [=]].
Qed.

(** C7.  The output of [sort_by_date] has the four sections as its keys;
    a record found in a date group of a section comes from that section's
    leaf and has that date as its (truthy) [date_sent], so a record without
    a date is in no group; and a record of a leaf that has a date is found
    in the leaf's section under that date, and under no other. *)
Theorem sort_by_date_groups (pon_dict : SortedDict) :
  (∀ b, dict_wf (get_bucket b pon_dict)) →
  dkeys (sort_by_date pon_dict) = ["unievc"; "vlan"; "fdisc"; "no_type"] ∧
  (∀ section date key value,
     in_grouped section date key (sort_by_date pon_dict) = Some value →
     ∃ b, section = section_name b ∧
          dget key (get_bucket b pon_dict) = Some value ∧
          sent_on date value) ∧
  (∀ b key value,
     dget key (get_bucket b pon_dict) = Some value →
     truthy (field "date_sent" value) = false →
     ∀ section date,
       in_grouped section date key (sort_by_date pon_dict) ≠ Some value) ∧
  (∀ b key value date,
     dget key (get_bucket b pon_dict) = Some value →
     sent_on date value →
     in_grouped (section_name b) date key (sort_by_date pon_dict) = Some value ∧
     ∀ date', date' ≠ date →
       in_grouped (section_name b) date' key (sort_by_date pon_dict) = None).
Proof.
  intros Hwf.
  assert (Hfrom : ∀ section date key value,
     in_grouped section date key (sort_by_date pon_dict) = Some value →
     ∃ b, section = section_name b ∧
          dget key (get_bucket b pon_dict) = Some value ∧
          sent_on date value).
  { intros section date key value Hin.
    destruct (in_grouped_section section date key pon_dict) as [b ->]; [by eexists|].
    exists b. split; [done|]. rewrite in_grouped_sort_by_date in Hin by done.
    destruct (dget key (get_bucket b pon_dict)) as [value'|]; [|done].
    destruct (decide (sent_on date value')); [|done]. by simplify_eq. }
  split_and!.
  - by rewrite sort_by_date_unfold.
  - exact Hfrom.
  - intros b key value _ Hdate section date Hin.
    apply Hfrom in Hin as (_ & _ & _ & Hs & Hne).
    rewrite Hs in Hdate. by rewrite Hdate in Hne.
  - intros b key value date Hkv Hs. split.
    + rewrite in_grouped_sort_by_date, Hkv by done. by rewrite decide_True.
    + intros date' Hne. rewrite in_grouped_sort_by_date, Hkv by done.
      rewrite decide_False; [done|]. intros [Hs' _]. destruct Hs as [Hs _].
      congruence.
Qed.

(** ** Regrouping *)

Section dict_app.
Context {K : Type} `{!EqDecision K} {V : Type}.
Implicit Types (d : gdict K V) (k : K) (v : V).

Lemma dget_app_notin k d1 d2 : k ∉ dkeys d1 → dget k (d1 ++ d2) = dget k d2.
Proof.
  unfold dkeys. induction d1 as [|[k0 v0] d1 IH]; simpl; [done|].
  intros [Hne Hn]%not_elem_of_cons. rewrite decide_False by done. auto.
Qed.

Lemma dset_app_notin k v d1 d2 :
  k ∉ dkeys d1 → dset k v (d1 ++ d2) = d1 ++ dset k v d2.
Proof.
  unfold dkeys. induction d1 as [|[k0 v0] d1 IH]; simpl; [done|].
  intros [Hne Hn]%not_elem_of_cons. rewrite decide_False by done.
  by rewrite IH.
Qed.

Lemma dkeys_app d1 d2 : dkeys (d1 ++ d2) = dkeys d1 ++ dkeys d2.
Proof. unfold dkeys. apply fmap_app. Qed.

(** Where a key of a dictionary sits *)
Lemma dkeys_split k d :
  k ∈ dkeys d → ∃ d1 v d2, d = d1 ++ ((k, v) :: d2) ∧ k ∉ dkeys d1.
Proof.
  unfold dkeys. induction d as [|[k0 v0] d IH]; simpl.
  - intros H. by apply elem_of_nil in H.
  - intros H. destruct (decide (k = k0)) as [->|Hne].
    + exists [], v0, d. split; [done|]. apply not_elem_of_nil.
    + apply elem_of_cons in H as [|H]; [done|].
      destruct (IH H) as (d1 & v & d2 & -> & Hn).
      exists ((k0, v0) :: d1), v, d2. split; [done|].
      simpl. by apply not_elem_of_cons.
Qed.

Lemma dupdate_fresh src d :
  NoDup (dkeys d ++ dkeys src) → dupdate src d = d ++ src.
Proof.
  unfold dupdate. revert d.
  induction src as [|[k v] src IH]; intros d Hnd; simpl.
  - by rewrite app_nil_r.
  - simpl in Hnd. rewrite dset_notin.
    + rewrite IH; [by rewrite <- app_assoc|].
      rewrite dkeys_app. simpl. by rewrite <- app_assoc.
    + apply NoDup_app in Hnd as (_ & Hd & _). intros Hk.
      apply (Hd k Hk). left.
Qed.
End dict_app.

Lemma grouped_wf_nil : grouped_wf [].
Proof. split; [apply NoDup_nil_2|apply NoDup_nil_2|apply Forall_nil_2]. Qed.

Lemma group_entry_sent_on target date key value :
  sent_on date value → group_entry target (key, value) = target_set date key value target.
Proof.
  intros [Hf Hne]. unfold group_entry. cbn [fst snd]. rewrite Hf.
  by apply Is_true_true in Hne as ->.
Qed.

(** A record with a fresh order id goes to the end of its date group, and a
    new date group goes to the end of the section. *)
Lemma target_set_shape date key value target :
  key ∉ all_keys target →
  ((date ∉ dkeys target) ∧
   target_set date key value target = target ++ [(date, [(key, value)])]) ∨
  (∃ t1 grp t2, target = t1 ++ ((date, grp) :: t2) ∧ (date ∉ dkeys t1) ∧
     target_set date key value target
     = t1 ++ ((date, grp ++ [(key, value)]) :: t2)).
Proof.
  intros Hk. unfold target_set, default_get.
  destruct (decide (date ∈ dkeys target)) as [Hin|Hn].
  - right. destruct (dkeys_split date target Hin) as (t1 & grp & t2 & -> & Hn).
    exists t1, grp, t2. split_and!; [done..|].
    rewrite dget_app_notin by done. simpl. rewrite decide_True by done. simpl.
    rewrite dset_app_notin by done. simpl. rewrite decide_True by done.
    rewrite dset_notin; [done|]. intros Hkg. apply Hk. unfold all_keys.
    rewrite bind_app, bind_cons. simpl. rewrite !elem_of_app. auto.
  - left. split; [done|]. pose proof Hn as Hn'. apply dget_None in Hn'.
    rewrite Hn'. simpl. by rewrite dset_notin.
Qed.

Lemma target_set_wf date key value target :
  grouped_wf target → sent_on date value → key ∉ all_keys target →
  grouped_wf (target_set date key value target) ∧
  all_keys (target_set date key value target) ≡ₚ (key :: all_keys target).
Proof.
  intros [Hd Hk Hg] Hs Hn.
  destruct (target_set_shape date key value target Hn)
    as [[Hdn ->]|(t1 & grp & t2 & -> & Hdn & ->)].
  - assert (Hperm : all_keys (target ++ [(date, [(key, value)])])
                    ≡ₚ (key :: all_keys target)).
    { unfold all_keys. rewrite bind_app, bind_singleton. simpl.
      by rewrite Permutation_app_comm. }
    split; [|done]. split.
    + unfold dict_wf. rewrite dkeys_app. simpl. apply NoDup_app.
      split_and!; [done| |apply NoDup_singleton].
      intros x Hx ->%list_elem_of_singleton. done.
    + rewrite Hperm. by apply NoDup_cons.
    + apply Forall_app. split; [done|]. apply Forall_singleton. simpl.
      split; [done|]. by apply Forall_singleton.
  - assert (Hperm : all_keys (t1 ++ (date, grp ++ [(key, value)]) :: t2)
                    ≡ₚ (key :: all_keys (t1 ++ (date, grp) :: t2))).
    { unfold all_keys. rewrite !bind_app, !bind_cons. simpl.
      rewrite dkeys_app. simpl.
      rewrite <- (app_assoc (dkeys grp)). simpl.
      rewrite (Permutation_middle _ _ key).
      by rewrite <- Permutation_middle. }
    split; [|done]. split.
    + unfold dict_wf in *. by rewrite dkeys_app in *.
    + rewrite Hperm. by apply NoDup_cons.
    + apply Forall_app in Hg as [Hg1 Hg2].
      apply Forall_cons in Hg2 as [[_ Hgrp] Hg2]. simpl in Hgrp.
      apply Forall_app. split; [done|]. apply Forall_cons. split; [|done].
      simpl. split; [by destruct grp|].
      apply Forall_app. split; [done|]. by apply Forall_singleton.
Qed.

Lemma group_entries_wf entries target :
  grouped_wf target → dict_wf entries →
  (∀ k, k ∈ dkeys entries → k ∉ all_keys target) →
  grouped_wf (group_entries entries target).
Proof.
  unfold group_entries. revert target.
  induction entries as [|[k0 v0] entries IH]; intros target Ht Hwf Hfresh;
    simpl; [done|].
  apply NoDup_cons in Hwf as [Hk0 Hwf]. simpl in Hk0.
  destruct (group_entry_cases target k0 v0) as [(d0 & Hd0 & ->)|[_ ->]].
  - destruct (target_set_wf d0 k0 v0 target Ht Hd0) as [Hwf' Hperm].
    { apply Hfresh. left. }
    apply IH; [done..|]. intros k Hk. rewrite Hperm.
    apply not_elem_of_cons. split; [by intros ->|].
    apply Hfresh. by right.
  - apply IH; [done..|]. intros k Hk. apply Hfresh. by right.
Qed.

Lemma flatten_section_acc g acc :
  NoDup (dkeys acc ++ all_keys g) →
  fold_left (λ acc dg, dupdate dg.2 acc) g acc = acc ++ all_entries g.
Proof.
  unfold all_entries.
  revert acc. induction g as [|[d grp] g IH]; intros acc Hnd; simpl.
  - by rewrite app_nil_r.
  - unfold all_keys in Hnd. rewrite bind_cons in Hnd. simpl in Hnd.
    rewrite app_assoc in Hnd.
    rewrite dupdate_fresh by (by apply NoDup_app in Hnd as [? _]).
    rewrite IH; [by rewrite app_assoc|].
    by rewrite dkeys_app.
Qed.

Lemma flatten_section_wf g :
  NoDup (all_keys g) → flatten_section g = all_entries g.
Proof. intros Hnd. unfold flatten_section. by rewrite flatten_section_acc. Qed.

(** The records of one date, in order, fill the last group of the section. *)
Lemma group_entries_last date rest pre target :
  date ∉ dkeys target → dict_wf (pre ++ rest) →
  Forall (λ kv, sent_on date kv.2) rest →
  group_entries rest (target ++ [(date, pre)]) = target ++ [(date, pre ++ rest)].
Proof.
  intros Hd. unfold group_entries. revert pre.
  induction rest as [|[k v] rest IH]; intros pre Hwf Hs; simpl.
  - by rewrite app_nil_r.
  - apply Forall_cons in Hs as [Hkv Hs]. simpl in Hkv.
    rewrite (group_entry_sent_on _ date) by done.
    unfold target_set, default_get. rewrite dget_app_notin by done. simpl.
    rewrite decide_True by done. simpl. rewrite dset_app_notin by done. simpl.
    rewrite decide_True by done.
    rewrite dset_notin.
    + rewrite IH; [by rewrite <- app_assoc| |done].
      by rewrite <- app_assoc.
    + unfold dict_wf in Hwf. rewrite dkeys_app in Hwf.
      apply NoDup_app in Hwf as (_ & Hwf & _). intros Hk. apply (Hwf k Hk). left.
Qed.

Lemma group_entries_fresh_date date grp target :
  date ∉ dkeys target → grp ≠ [] → dict_wf grp →
  Forall (λ kv, sent_on date kv.2) grp →
  group_entries grp target = target ++ [(date, grp)].
Proof.
  intros Hd Hne Hwf Hs. destruct grp as [|[k v] grp]; [done|].
  pose proof Hs as [Hkv _]%Forall_cons. simpl in Hkv.
  pose proof Hs as [_ Hs']%Forall_cons.
  unfold group_entries. simpl. rewrite (group_entry_sent_on _ date) by done.
  unfold target_set, default_get. pose proof Hd as Hd'. apply dget_None in Hd'.
  rewrite Hd'. simpl. rewrite dset_notin by done.
  by apply (group_entries_last date grp [(k, v)] target).
Qed.

(** Grouping the flattened records of a well-formed section gives the
    section back. *)
Lemma group_entries_flatten g :
  grouped_wf g → group_entries (flatten_section g) [] = g.
Proof.
  intros Hg. rewrite flatten_section_wf by apply Hg. unfold all_entries.
  induction g as [|[d grp] g IH] using rev_ind; [done|].
  destruct Hg as [Hd Hk Hgr].
  unfold dict_wf in Hd. rewrite dkeys_app in Hd. simpl in Hd.
  apply NoDup_app in Hd as (Hd1 & Hd2 & _).
  unfold all_keys in Hk. rewrite bind_app, bind_singleton in Hk. simpl in Hk.
  apply NoDup_app in Hk as (Hk1 & Hk2 & Hk3).
  apply Forall_app in Hgr as [Hg1 [Hne Hs]%Forall_singleton]. simpl in Hne, Hs.
  rewrite bind_app, bind_singleton. simpl.
  unfold group_entries. rewrite fold_left_app.
  fold (group_entries (mbind (M := list) snd g) []). rewrite IH by (by split).
  apply group_entries_fresh_date; [|done..].
  intros Hin. apply (Hd2 d Hin). left.
Qed.

(** C8.  Flattening the output of [sort_by_date] back into the classified
    buckets and grouping again gives the same output. *)
Theorem sort_by_date_idempotent (pon_dict : SortedDict) :
  (∀ b, dict_wf (get_bucket b pon_dict)) →
  sort_by_date (flatten (sort_by_date pon_dict)) = sort_by_date pon_dict.
Proof.
  intros Hwf.
  assert (Hgroup : ∀ b, group_entries
            (flatten_section (group_entries (get_bucket b pon_dict) [])) []
          = group_entries (get_bucket b pon_dict) []).
  { intros b. apply group_entries_flatten.
    apply group_entries_wf; [apply grouped_wf_nil|apply Hwf|].
    intros k _. apply not_elem_of_nil. }
  rewrite (sort_by_date_unfold (flatten _)).
  rewrite (sort_by_date_unfold pon_dict).
  unfold flatten, default_get. simpl.
  pose proof (Hgroup PdiscUnievc) as Hu. pose proof (Hgroup PdiscVlan) as Hv.
  pose proof (Hgroup Fdisc) as Hf. pose proof (Hgroup NoType) as Hn.
  simpl in Hu, Hv, Hf, Hn. by rewrite Hu, Hv, Hf, Hn.
Qed.

(** * Properties of the enrichment *)

Lemma cvlan_query_ok lookup_df columns_mapping tower_name evc_value :
  query_ok lookup_df columns_mapping tower_name evc_value →
  cvlan_query lookup_df columns_mapping tower_name evc_value =
  Ok (cell lookup_df "CVLAN" <$>
      matching_rows lookup_df columns_mapping tower_name evc_value).
Proof.
  unfold query_ok, col_comparable. intros (Ht & He & Hc).
  unfold cvlan_query, df_filter. simpl.
  destruct (column_dtype lookup_df (tower_column columns_mapping)) as [t1|];
    [|done].
  destruct (comparable t1 tower_name); [|done].
  destruct (column_dtype lookup_df (evc_column columns_mapping)) as [t2|];
    [|done].
  destruct (comparable t2 evc_value); [|done]. simpl.
  unfold df_column, df_columns. simpl. fold (df_columns lookup_df).
  rewrite bool_decide_eq_true_2 by done.
  unfold matching_rows, cell, named_row. simpl. do 2 f_equal.
  apply list_filter_iff. intros row. simpl. by rewrite andb_true_r.
Qed.

Lemma cvlan_query_raise lookup_df columns_mapping tower_name evc_value :
  ¬ query_ok lookup_df columns_mapping tower_name evc_value →
  ∃ e, cvlan_query lookup_df columns_mapping tower_name evc_value = Raise e.
Proof.
  unfold query_ok, col_comparable. intros Hq.
  unfold cvlan_query, df_filter. simpl.
  destruct (column_dtype lookup_df (tower_column columns_mapping)) as [t1|];
    [|by eexists].
  destruct (comparable t1 tower_name); [|by eexists].
  destruct (column_dtype lookup_df (evc_column columns_mapping)) as [t2|];
    [|by eexists].
  destruct (comparable t2 evc_value); [|by eexists]. simpl.
  unfold df_column, df_columns. simpl. fold (df_columns lookup_df).
  destruct (decide ("CVLAN" ∈ df_columns lookup_df)) as [Hc|Hc].
  - destruct Hq. by split_and!.
  - rewrite (bool_decide_eq_false_2 _ Hc). by eexists.
Qed.

(** C4, as the code has it.  A query that matches more than one row gives
    no tag and leaves [suspicious_towers] as it was; a query that raises
    (a column of the query is missing, or the tower or the circuit cannot
    be compared with the cells of its column) gives no tag and appends the
    tower name to [suspicious_towers]. *)
Theorem get_cvlan_ambiguous_or_error (lookup_df : DataFrame)
    (columns_mapping : ColumnsMapping) (tower_name evc_value : pyval)
    (evc_key : string) (suspicious_towers : list pyval) :
  (query_ok lookup_df columns_mapping tower_name evc_value →
   1 < length (matching_rows lookup_df columns_mapping tower_name evc_value) →
   _get_cvlan lookup_df columns_mapping tower_name evc_value evc_key
     suspicious_towers = (None, suspicious_towers)) ∧
  (¬ query_ok lookup_df columns_mapping tower_name evc_value →
   _get_cvlan lookup_df columns_mapping tower_name evc_value evc_key
     suspicious_towers = (None, suspicious_towers ++ [tower_name])).
Proof.
  split.
  - intros Hq Hlen. unfold _get_cvlan. rewrite cvlan_query_ok by done.
    rewrite length_fmap. rewrite bool_decide_eq_false_2; [done|lia].
  - intros Hq. unfold _get_cvlan.
    by destruct (cvlan_query_raise lookup_df columns_mapping tower_name
                   evc_value Hq) as [e ->].
Qed.

(** The tag [_get_cvlan] returns does not depend on the list it is given,
    and the list only grows at its end. *)
Lemma get_cvlan_frame lookup_df columns_mapping tower_name evc_value evc_key
    suspicious_towers :
  _get_cvlan lookup_df columns_mapping tower_name evc_value evc_key
    suspicious_towers =
  let r := _get_cvlan lookup_df columns_mapping tower_name evc_value evc_key [] in
  (r.1, suspicious_towers ++ r.2).
Proof.
  unfold _get_cvlan.
  destruct (cvlan_query lookup_df columns_mapping tower_name evc_value); simpl.
  - by rewrite app_nil_r.
  - done.
Qed.

Lemma add_cvlan_item_Ok lookup_df columns_mapping value susp value' susp' :
  add_cvlan_item lookup_df columns_mapping value susp = Ok (value', susp') →
  value' = with_cvlan lookup_df columns_mapping value ∧
  ∃ flagged, susp' = susp ++ flagged.
Proof.
  unfold add_cvlan_item, with_cvlan, slot_tag, getitem.
  destruct (dget "tower_name" value) as [tower_name|]; simpl; [|done].
  destruct (dget "evc1" value) as [evc1|]; simpl; [|done].
  rewrite (get_cvlan_frame _ _ _ evc1). simpl.
  destruct (dget "evc2" value) as [evc2|]; simpl; [|done].
  rewrite (get_cvlan_frame _ _ _ evc2). simpl.
  case_bool_decide; intros [= <- <-]; (split; [done|]);
    rewrite <- app_assoc; by eexists.
Qed.

Lemma add_cvlan_loop_Ok lookup_df columns_mapping items done_ susp out susp' :
  add_cvlan_loop lookup_df columns_mapping items done_ susp = Ok (out, susp') →
  out = done_ ++
        ((λ kv, (kv.1, with_cvlan lookup_df columns_mapping kv.2)) <$> items).
Proof.
  revert done_ susp. induction items as [|[key value] items IH];
    intros done_ susp; simpl.
  - intros [= <- <-]. by rewrite app_nil_r.
  - destruct (add_cvlan_item lookup_df columns_mapping value susp)
      as [[value' susp1]|e] eqn:Hitem; simpl; [|done].
    apply add_cvlan_item_Ok in Hitem as [-> _].
    intros ->%IH. by rewrite <- app_assoc.
Qed.

Lemma dget_fmap_value {A B} (f : string → A → B) (d : dict A) key :
  dget key ((λ kv, (kv.1, f kv.1 kv.2)) <$> d) = f key <$> dget key d.
Proof.
  induction d as [|[k v] d IH]; simpl; [done|].
  destruct (decide (key = k)) as [->|]; [done|]. apply IH.
Qed.

Lemma add_cvlan_data_Ok pon_dict config lookup_df out susp :
  add_cvlan_data pon_dict config lookup_df = Ok (out, susp) →
  out = (λ kv, (kv.1, with_cvlan lookup_df (tmo_columns_mapping config) kv.2))
        <$> pon_dict.
Proof. unfold add_cvlan_data. by intros ->%add_cvlan_loop_Ok. Qed.

Lemma add_cvlan_item_total lookup_df columns_mapping value susp :
  has_circuit_fields value →
  ∃ susp', add_cvlan_item lookup_df columns_mapping value susp =
           Ok (with_cvlan lookup_df columns_mapping value, susp').
Proof.
  intros ([tower_name Ht] & [evc1 H1] & [evc2 H2]).
  unfold add_cvlan_item, with_cvlan, slot_tag, getitem. rewrite Ht, H1, H2. simpl.
  rewrite (get_cvlan_frame _ _ _ evc1). simpl.
  rewrite (get_cvlan_frame _ _ _ evc2). simpl.
  case_bool_decide; by eexists.
Qed.

Lemma add_cvlan_loop_total lookup_df columns_mapping items done_ susp :
  Forall (λ kv, has_circuit_fields kv.2) items →
  ∃ out susp', add_cvlan_loop lookup_df columns_mapping items done_ susp =
               Ok (out, susp').
Proof.
  intros Hall. revert done_ susp.
  induction Hall as [|[key value] items Hv _ IH]; intros done_ susp; simpl.
  - by eexists _, _.
  - destruct (add_cvlan_item_total lookup_df columns_mapping value susp Hv)
      as [susp' ->]. simpl. apply IH.
Qed.

Lemma or_empty_falsy v : truthy v = false → or_empty v = EmptyString.
Proof. unfold or_empty. destruct v as [a|]; [|done]. by intros ->. Qed.


(** * Properties of the record builder *)

Section builder_facts.
Variable _extract_pdf_text : path → string.
Variable _parse_date_info : string → option string.
Variable _parse_contact_info : string → ContactInfo.
Variable _parse_circuit_info : string → option string.
Variable config : Config.

(** The builder's functions on this staging area and extractor *)
Local Abbreviation set_date_contact' :=
  (set_date_contact _parse_date_info _parse_contact_info).
Local Abbreviation set_circuit' := (set_circuit config).
Local Abbreviation pon_loop' :=
  (pon_loop _extract_pdf_text _parse_date_info _parse_contact_info
     _parse_circuit_info config).
Lemma any_in_cir_Some keys c :
  any_in_cir keys (Some c) = Ok (existsb (λ key, py_in key c) keys).
Proof.
  induction keys as [|key keys IH]; simpl; [done|].
  destruct (py_in key c); simpl; [done|exact IH].
Qed.

(** The notions of the builder on this extractor and configuration *)
Local Abbreviation cir_of' := (cir_of _extract_pdf_text _parse_circuit_info).
Local Abbreviation date_of' := (date_of _extract_pdf_text _parse_date_info).
Local Abbreviation is_primary' := (is_primary config).
Local Abbreviation is_access' := (is_access config).

(** The date and contact assignments leave the other fields alone. *)
Lemma dget_set_date_contact f text dict_pon :
  f ∉ ["date_sent"; "contact_name"; "contact_phone"; "contact_email"] →
  dget f (set_date_contact' text dict_pon) = dget f dict_pon.
Proof.
  intros Hf. unfold set_date_contact.
  repeat match goal with
         | |- context [if ?b then _ else _] => destruct b
         end;
    rewrite ?dget_dset_ne; try done; intros ->; apply Hf; set_solver.
Qed.

(** What the circuit-slot statement does with a token *)
Lemma set_circuit_Some c dict_pon log e1 :
  dget "evc1" dict_pon = Some e1 →
  set_circuit' (Some c) dict_pon log =
  Ok (if is_primary' c then
        match e1 with
        | None => (dset "evc1" (Str c) dict_pon, log)
        | Some _ => (dset "evc2" (Str c) dict_pon, log)
        end
      else if is_access' c then (dset "uni" (Str c) dict_pon, log)
      else (dict_pon, log ++ [CircuitNotFound (Some c)])).
Proof.
  intros He1. unfold set_circuit, is_access, is_primary, getitem. simpl.
  destruct (py_in (evc_uniq_keys config) c); simpl.
  - rewrite He1. simpl. by destruct e1.
  - rewrite any_in_cir_Some. simpl.
    by destruct (existsb _ _).
Qed.

(** Without a token the statement raises. *)
Lemma set_circuit_None dict_pon log :
  set_circuit' None dict_pon log = Raise TypeError.
Proof. reflexivity. Qed.

Lemma set_circuit_tower cir dict_pon log dict_pon' log' :
  set_circuit' cir dict_pon log = Ok (dict_pon', log') →
  dget "tower_name" dict_pon' = dget "tower_name" dict_pon.
Proof.
  unfold set_circuit, getitem.
  destruct cir as [c|]; simpl; [|done].
  destruct (py_in (evc_uniq_keys config) c); simpl.
  - destruct (dget "evc1" dict_pon) as [[?|]|]; simpl; [| |done];
      intros [= <- <-]; by rewrite dget_dset_ne.
  - rewrite any_in_cir_Some. simpl. destruct (existsb _ _);
      intros [= <- <-]; [by rewrite dget_dset_ne|done].
Qed.

Lemma pon_loop_tower process_dir items dict_pon log :
  dget "tower_name" (pon_loop' process_dir items dict_pon log).1.1 =
  dget "tower_name" dict_pon.
Proof.
  revert dict_pon log. induction items as [|item items IH];
    intros dict_pon log; simpl; [done|].
  destruct (set_circuit' _ _ log) as [[dict_pon' log']|e] eqn:Hset; simpl.
  - rewrite IH. rewrite (set_circuit_tower _ _ _ _ _ Hset).
    apply dget_set_date_contact. set_solver.
  - apply dget_set_date_contact. set_solver.
Qed.

(** ** Slot assignment *)

Lemma last_cons_or {A B} (f : A → B) (x : A) (l : list A) (d : B) :
  match last (x :: l) with Some y => f y | None => d end =
  match last l with Some y => f y | None => f x end.
Proof. rewrite last_cons. by destruct (last l). Qed.

(** The loop on documents that all yield a token: it ends without an
    exception; [evc1] keeps its value if it has one and else takes the
    first token of the primary family; [evc2] takes the last token of the
    primary family that did not go to [evc1]; [uni] takes the last token
    of the access family; a token of neither family is logged. *)
Lemma pon_loop_tokens process_dir toks :
  ∀ items dict_pon log e1 e2 u,
    cir_of' process_dir <$> items = Some <$> toks →
    dget "evc1" dict_pon = Some e1 →
    dget "evc2" dict_pon = Some e2 →
    dget "uni" dict_pon = Some u →
    ∃ dict_pon' log',
      pon_loop' process_dir items dict_pon log = (dict_pon', log', None) ∧
      dget "evc1" dict_pon' =
        Some (match e1 with
              | Some _ => e1
              | None => of_str (head (filter is_primary' toks))
              end) ∧
      dget "evc2" dict_pon' =
        Some (match last (match e1 with
                          | Some _ => filter is_primary' toks
                          | None => tail (filter is_primary' toks)
                          end) with
              | Some c => Str c
              | None => e2
              end) ∧
      dget "uni" dict_pon' =
        Some (match last (filter is_access' toks) with
              | Some c => Str c
              | None => u
              end) ∧
      log' = log ++ ((λ c, CircuitNotFound (Some c)) <$>
                     filter (λ c, ¬ is_primary' c ∧ ¬ is_access' c) toks).
Proof.
  induction toks as [|c toks IH]; intros items dict_pon log e1 e2 u Hitems H1 H2 Hu.
  - destruct items; [|discriminate Hitems]. simpl. exists dict_pon, log.
    rewrite app_nil_r. by destruct e1.
  - destruct items as [|item items]; [discriminate Hitems|]. simpl in Hitems.
    injection Hitems as Hc Hitems. unfold cir_of in Hc. simpl. rewrite Hc.
    set (dict1 := set_date_contact' _ dict_pon).
    assert (Hd1 : ∀ f, f ∈ ["evc1"; "evc2"; "uni"] → dget f dict1 = dget f dict_pon).
    { intros f Hf. apply dget_set_date_contact. set_solver. }
    rewrite (set_circuit_Some c dict1 log e1)
      by (rewrite Hd1; [done|set_solver]).
    destruct (is_primary' c) eqn:Hp; [|destruct (is_access' c) eqn:Ha].
    + assert (Hna : ¬ is_access' c).
      { unfold is_access. rewrite Hp. simpl. intros []. }
      rewrite (filter_cons_True is_primary') by (by rewrite Hp).
      rewrite (filter_cons_False is_access') by done.
      rewrite (filter_cons_False (λ c, ¬ is_primary' c ∧ ¬ is_access' c))
        by (rewrite Hp; intros [Hf _]; by apply Hf).
      destruct e1 as [x|].
      * destruct (IH items (dset "evc2" (Str c) dict1) log (Some x) (Str c) u)
          as (d' & log' & Hloop & He1 & He2 & Hu' & Hlog);
          [done|rewrite dget_dset_ne by done; rewrite Hd1; [done|set_solver]
          |apply dget_dset_eq
          |rewrite dget_dset_ne by done; rewrite Hd1; [done|set_solver]|].
        exists d', log'. split_and!; [done..| |done|done].
        by rewrite He2, last_cons_or.
      * destruct (IH items (dset "evc1" (Str c) dict1) log (Str c) e2 u)
          as (d' & log' & Hloop & He1 & He2 & Hu' & Hlog);
          [done|apply dget_dset_eq
          |rewrite dget_dset_ne by done; rewrite Hd1; [done|set_solver]
          |rewrite dget_dset_ne by done; rewrite Hd1; [done|set_solver]|].
        exists d', log'. by split_and!.
    + rewrite (filter_cons_False is_primary') by (rewrite Hp; intros []).
      rewrite (filter_cons_True is_access') by (by rewrite Ha).
      rewrite (filter_cons_False (λ c, ¬ is_primary' c ∧ ¬ is_access' c))
        by (rewrite Ha; intros [_ Hf]; by apply Hf).
      destruct (IH items (dset "uni" (Str c) dict1) log e1 e2 (Str c))
        as (d' & log' & Hloop & He1 & He2 & Hu' & Hlog);
        [done|rewrite dget_dset_ne by done; rewrite Hd1; [done|set_solver]
        |rewrite dget_dset_ne by done; rewrite Hd1; [done|set_solver]
        |apply dget_dset_eq|].
      exists d', log'. split_and!; [done..| |done].
      by rewrite Hu', last_cons_or.
    + rewrite (filter_cons_False is_primary') by (rewrite Hp; intros []).
      rewrite (filter_cons_False is_access') by (rewrite Ha; intros []).
      rewrite (filter_cons_True (λ c, ¬ is_primary' c ∧ ¬ is_access' c))
        by (rewrite Hp, Ha; split; intros []).
      destruct (IH items dict1 (log ++ [CircuitNotFound (Some c)]) e1 e2 u)
        as (d' & log' & Hloop & He1 & He2 & Hu' & Hlog);
        [done|rewrite Hd1; [done|set_solver]..|].
      exists d', log'. split_and!; [done..|].
      rewrite Hlog. simpl. by rewrite <- app_assoc.
Qed.

(** ** A document without a circuit token *)

(** C3, what the code does.  When a document yields no circuit token the
    loop ends there with an exception: the documents after it are never
    read, and the result is the one for the directory cut after that
    document. *)
Theorem pon_loop_stops_without_token (process_dir : path)
    (items1 items2 : list string) (item : string)
    (dict_pon : Record_) (log : list log_event) :
  cir_of' process_dir item = None →
  pon_loop' process_dir (items1 ++ item :: items2) dict_pon log =
    pon_loop' process_dir (items1 ++ [item]) dict_pon log ∧
  is_Some (pon_loop' process_dir (items1 ++ item :: items2) dict_pon log).2.
Proof.
  intros Hnone. revert dict_pon log.
  induction items1 as [|item1 items1 IH]; intros dict_pon log; simpl.
  - unfold cir_of in Hnone. rewrite Hnone. simpl. by split.
  - destruct (set_circuit' _ _ log) as [[d' log']|e]; simpl; [apply IH|].
    by split.
Qed.
(** ** The sent date *)

Lemma dget_date_set_date_contact text dict_pon :
  dget "date_sent" (set_date_contact' text dict_pon) =
  if truthy (of_str (_parse_date_info text))
  then Some (of_str (_parse_date_info text))
  else dget "date_sent" dict_pon.
Proof.
  unfold set_date_contact.
  destruct (truthy (of_str (_parse_date_info text)));
    repeat match goal with
           | |- context [if ?b then _ else _] => destruct b
           end;
    rewrite ?dget_dset_ne by done; try done; apply dget_dset_eq.
Qed.

Lemma set_circuit_other f cir dict_pon log dict_pon' log' :
  f ∉ ["evc1"; "evc2"; "uni"] →
  set_circuit' cir dict_pon log = Ok (dict_pon', log') →
  dget f dict_pon' = dget f dict_pon.
Proof.
  intros Hf. unfold set_circuit, getitem.
  destruct cir as [c|]; simpl; [|done].
  destruct (py_in (evc_uniq_keys config) c); simpl.
  - destruct (dget "evc1" dict_pon) as [[?|]|]; simpl; [| |done];
      intros [= <- <-]; rewrite dget_dset_ne; try done;
      intros ->; apply Hf; set_solver.
  - rewrite any_in_cir_Some. simpl. destruct (existsb _ _);
      intros [= <- <-]; [|done]. rewrite dget_dset_ne; [done|].
    intros ->; apply Hf; set_solver.
Qed.

(** When the loop ends without an exception, [date_sent] is the last
    truthy date of the documents, if any. *)
Lemma pon_loop_date process_dir items :
  ∀ dict_pon log,
    (pon_loop' process_dir items dict_pon log).2 = None →
    dget "date_sent" (pon_loop' process_dir items dict_pon log).1.1 =
    match last (filter (λ d, truthy (of_str d))
                  (date_of' process_dir <$> items)) with
    | Some d => Some (of_str d)
    | None => dget "date_sent" dict_pon
    end.
Proof.
  induction items as [|item items IH]; intros dict_pon log; simpl; [done|].
  destruct (set_circuit' _ _ log) as [[d' log']|e] eqn:Hset; simpl; [|done].
  intros Hend. rewrite IH by done.
  rewrite (set_circuit_other "date_sent" _ _ _ _ _ ltac:(set_solver) Hset).
  rewrite dget_date_set_date_contact. fold (date_of' process_dir item).
  destruct (truthy (of_str (date_of' process_dir item))) eqn:Hd.
  - rewrite filter_cons_True by (by rewrite Hd). by rewrite last_cons_or.
  - rewrite filter_cons_False by (rewrite Hd; intros []). done.
Qed.
(** ** On a staging area *)

Section staging.
Variable listdir : path → result (list string).

Local Abbreviation _create_pon_dict_log' :=
  (_create_pon_dict_log listdir _extract_pdf_text _parse_date_info
     _parse_contact_info _parse_circuit_info config).
Local Abbreviation _create_pon_dict' :=
  (_create_pon_dict listdir _extract_pdf_text _parse_date_info
     _parse_contact_info _parse_circuit_info config).
Local Abbreviation create_full_dict' :=
  (create_full_dict listdir _extract_pdf_text _parse_date_info
     _parse_contact_info _parse_circuit_info config).

(** The collection [_create_pon_dict] returns: one record, stored under
    the name of the directory, which is also its [tower_name]. *)
Lemma create_pon_dict_shape process_dir :
  ∃ dict_pon, _create_pon_dict' process_dir = [(basename process_dir, dict_pon)] ∧
              dget "tower_name" dict_pon = Some (Str (basename process_dir)).
Proof.
  unfold _create_pon_dict, _create_pon_dict_log.
  destruct (listdir process_dir) as [items|e]; simpl.
  - pose proof (pon_loop_tower process_dir items
                  (new_pon (basename process_dir)) []) as Ht.
    destruct (pon_loop' _ _ _ _) as [[dict_pon' log] [e|]]; simpl in *;
      by eexists.
  - by eexists.
Qed.

Lemma tower_is_key_update process_dir full_dict :
  tower_is_key full_dict →
  tower_is_key (dupdate (_create_pon_dict' process_dir) full_dict).
Proof.
  intros Hinv. destruct (create_pon_dict_shape process_dir)
    as (dict_pon & -> & Ht).
  unfold dupdate. simpl. intros key value. rewrite dget_dset.
  case_decide as Hk; [|by apply Hinv]. intros [= <-]. by rewrite Hk.
Qed.

Lemma create_full_dict_tower_is_key process_dir full_dict full_dict' :
  tower_is_key full_dict →
  create_full_dict' process_dir full_dict = Ok full_dict' →
  tower_is_key full_dict'.
Proof.
  unfold create_full_dict.
  destruct (listdir process_dir) as [items|e]; simpl; [|done].
  intros Hinv [= <-]. revert full_dict Hinv.
  induction items as [|item items IH]; intros full_dict Hinv; simpl; [done|].
  by apply IH, tower_is_key_update.
Qed.
(** C2, as the code has it.  When every document of an order yields a
    token and the tokens of the primary family are, in order, A, B and C,
    the record ends with [evc1] = A and [evc2] = C: the third token takes
    the place of the second, and nothing is logged about a token of the
    primary family.  A token of the access family overwrites [uni], so
    the last one stays. *)
Theorem create_pon_dict_slots (process_dir : path) (items : list string)
    (toks : list string) (A B C : string) :
  listdir process_dir = Ok items →
  cir_of' process_dir <$> items = Some <$> toks →
  filter is_primary' toks = [A; B; C] →
  ∃ dict_pon log,
    _create_pon_dict_log' process_dir =
      ([(basename process_dir, dict_pon)], log) ∧
    dget "evc1" dict_pon = Some (Str A) ∧
    dget "evc2" dict_pon = Some (Str C) ∧
    dget "uni" dict_pon = Some (of_str (last (filter is_access' toks))) ∧
    ∀ ev, ev ∈ log → ∃ c, ev = CircuitNotFound (Some c) ∧ ¬ is_primary' c.
Proof.
  intros Hdir Hitems Hprim. unfold _create_pon_dict_log. rewrite Hdir.
  destruct (pon_loop_tokens process_dir toks items
              (new_pon (basename process_dir)) [] None None None)
    as (d' & log' & -> & He1 & He2 & Hu & ->); [done..|].
  exists d', ((λ c, CircuitNotFound (Some c)) <$>
              filter (λ c, ¬ is_primary' c ∧ ¬ is_access' c) toks).
  rewrite Hprim in He1, He2. simpl in He1, He2.
  split_and!; [done..| |].
  - rewrite Hu. by destruct (last _).
  - intros ev (c & -> & [[Hc _] _]%list_elem_of_filter)%list_elem_of_fmap.
    by exists c.
Qed.

End staging.
End builder_facts.

(** C10.  In the collection [create_full_dict] builds, the [tower_name] of
    every record is the key the record is stored under.  The enrichment
    keeps the keys, and the tag it resolves for a slot of a record is the
    answer of [_get_cvlan] asked with that key as the tower: the same
    identity [sort_by_type] counts the rows of ([tower_match_count]). *)
Theorem create_full_dict_tower_name
    (listdir : path → result (list string)) (_extract_pdf_text : path → string)
    (_parse_date_info : string → option string)
    (_parse_contact_info : string → ContactInfo)
    (_parse_circuit_info : string → option string) (config : Config)
    (process_dir : path) (items : list string) :
  listdir process_dir = Ok items →
  ∃ full_dict,
    create_full_dict listdir _extract_pdf_text _parse_date_info
      _parse_contact_info _parse_circuit_info config process_dir [] = Ok full_dict ∧
    (∀ key value, dget key full_dict = Some value →
                  dget "tower_name" value = Some (Str key)) ∧
    (∀ lookup_df address_df out susp,
       add_cvlan_data full_dict config lookup_df = Ok (out, susp) →
       dkeys (add_address_data out address_df) = dkeys full_dict) ∧
    (∀ lookup_df key value slot evc_value,
       dget key full_dict = Some value →
       dget slot value = Some evc_value →
       slot_tag lookup_df (tmo_columns_mapping config) value slot =
       (_get_cvlan lookup_df (tmo_columns_mapping config) (Str key) evc_value
          slot []).1).
Proof.
  intros Hdir.
  destruct (create_full_dict listdir _extract_pdf_text _parse_date_info
              _parse_contact_info _parse_circuit_info config process_dir [])
    as [full_dict|e] eqn:Hfull.
  2:{ unfold create_full_dict in Hfull. by rewrite Hdir in Hfull. }
  exists full_dict. split; [done|].
  assert (Hinv : tower_is_key full_dict).
  { eapply create_full_dict_tower_is_key; [|exact Hfull]. by intros ??. }
  split_and!.
  - exact Hinv.
  - intros lookup_df address_df out susp ->%add_cvlan_data_Ok.
    unfold add_address_data, dkeys. rewrite <- !list_fmap_compose.
    by apply list_fmap_ext.
  - intros lookup_df key value slot evc_value Hkv Hslot. unfold slot_tag.
    by rewrite (Hinv key value Hkv), Hslot.
Qed.

(** * The pipeline on one order *)

Lemma dkeys_dupdate {V} (src d : dict V) k :
  k ∈ dkeys (dupdate src d) → k ∈ dkeys src ∨ k ∈ dkeys d.
Proof.
  unfold dupdate. revert d. induction src as [|[k0 v0] src IH]; intros d; simpl.
  - auto.
  - intros [Hk|Hk]%IH.
    + left. by right.
    + apply elem_dkeys_dset in Hk as [->|Hk]; [left; left|by right].
Qed.

Lemma dkeys_named_row df row k :
  k ∈ dkeys (named_row df row) → k ∈ df_columns df.
Proof.
  unfold named_row, dict_of_items. intros [Hk|Hk]%dkeys_dupdate.
  - unfold dkeys in Hk. apply list_elem_of_fmap in Hk as ([k' v] & -> & Hkv).
    by apply elem_of_zip_l in Hkv.
  - by apply elem_of_nil in Hk.
Qed.

(** The address lookup changes no field outside the columns of the address
    table. *)
Lemma dget_add_address_item address_df key value f :
  f ∉ df_columns address_df → f ≠ "Site Name" →
  dget f (add_address_item address_df key value) = dget f value.
Proof.
  intros Hf Hne. unfold add_address_item.
  destruct (df_filter _ address_df) as [filtered|e] eqn:Hfil; simpl; [|done].
  unfold df_row0. destruct (df_rows filtered) as [|row rows]; simpl; [done|].
  rewrite dget_dpop_ne by done. apply dget_dupdate_notin.
  intros Hk. apply dkeys_named_row in Hk. unfold df_columns in Hk.
  by rewrite (df_filter_schema _ _ _ Hfil) in Hk.
Qed.

Lemma dget_with_cvlan lookup_df columns_mapping value f :
  f ≠ "cvlan" →
  dget f (with_cvlan lookup_df columns_mapping value) = dget f value.
Proof.
  intros Hne. unfold with_cvlan. case_bool_decide; [done|].
  by rewrite dget_dset_ne.
Qed.

Lemma section_name_cases section :
  (∃ b, section = section_name b) ∨ (∀ b, section ≠ section_name b).
Proof.
  destruct (decide (section = "unievc")) as [->|?]; [left; by exists PdiscUnievc|].
  destruct (decide (section = "vlan")) as [->|?]; [left; by exists PdiscVlan|].
  destruct (decide (section = "fdisc")) as [->|?]; [left; by exists Fdisc|].
  destruct (decide (section = "no_type")) as [->|?]; [left; by exists NoType|].
  right. by intros [].
Qed.

(** [process] on a collection whose records have the fields the enrichment
    reads, with the tower column, a column of strings, in the reference
    table: it returns, and a
    record is found in the output under the section of its leaf and its
    date, where leaf and date are read from the record as built when the
    address table has no column named like one of [sort_fields]. *)
Lemma process_spec pon_dict config lookup_df address_df :
  dict_wf pon_dict →
  Forall (λ kv, has_circuit_fields kv.2) pon_dict →
  str_column lookup_df "Tower Name" →
  (∀ f, f ∈ sort_fields → f ∉ df_columns address_df) →
  ∃ grouped, process pon_dict config lookup_df address_df = Ok grouped ∧
    ∀ section date key,
      in_grouped section date key grouped =
      match dget key pon_dict with
      | Some value =>
          if decide (section = section_name (leaf_of lookup_df key value) ∧
                     sent_on date value)
          then Some (add_address_item address_df key
                       (with_cvlan lookup_df (tmo_columns_mapping config) value))
          else None
      | None => None
      end.
Proof.
  intros Hwf Hall Hcol Haddr. unfold process.
  destruct (add_cvlan_loop_total lookup_df (tmo_columns_mapping config)
              pon_dict [] [] Hall) as (out & susp & Hout).
  unfold add_cvlan_data at 1. rewrite Hout. simpl.
  apply add_cvlan_loop_Ok in Hout. simpl in Hout. subst out.
  set (enriched := add_address_data _ address_df).
  set (enrich := λ key value, add_address_item address_df key
                   (with_cvlan lookup_df (tmo_columns_mapping config) value)).
  assert (Henr : ∀ key, dget key enriched = enrich key <$> dget key pon_dict).
  { intros key. unfold enriched, add_address_data.
    rewrite <- list_fmap_compose. apply (dget_fmap_value enrich). }
  assert (Hfield : ∀ key value f, f ∈ sort_fields →
            dget f (enrich key value) = dget f value).
  { intros key value f Hf. unfold enrich.
    rewrite dget_add_address_item.
    - apply dget_with_cvlan. intros ->. unfold sort_fields in Hf. set_solver.
    - by apply Haddr.
    - intros ->. unfold sort_fields in Hf. set_solver. }
  assert (Hwf' : dict_wf enriched).
  { unfold dict_wf, dkeys, enriched, add_address_data.
    rewrite <- !list_fmap_compose. exact Hwf. }
  destruct (sort_by_type_spec enriched lookup_df Hwf' Hcol)
    as (sorted & Hsort & Hin & Hnotin).
  rewrite Hsort. simpl. eexists. split; [reflexivity|].
  assert (Hbwf : ∀ b, dict_wf (get_bucket b sorted)).
  { intros b. apply (sort_by_type_wf enriched lookup_df sorted Hsort). }
  intros section date key.
  destruct (section_name_cases section) as [[b ->]|Hsec].
  2:{ destruct (in_grouped section date key (sort_by_date sorted)) eqn:Hg.
      - destruct (in_grouped_section section date key sorted) as [b ->];
          [by rewrite Hg|]. by destruct (Hsec b).
      - destruct (dget key pon_dict); [|done].
        rewrite decide_False; [done|]. intros [-> _]. by eapply Hsec. }
  rewrite in_grouped_sort_by_date by done.
  pose proof (Henr key) as Hk.
  destruct (dget key pon_dict) as [value|] eqn:Hkv; simpl in Hk.
  - rewrite (Hin key _ Hk b).
    assert (Hleaf : leaf_of lookup_df key (enrich key value)
                    = leaf_of lookup_df key value).
    { unfold leaf_of, field. rewrite !Hfield; [done|unfold sort_fields; set_solver..]. }
    assert (Hsent : sent_on date (enrich key value) ↔ sent_on date value).
    { unfold sent_on, field. rewrite Hfield; [done|unfold sort_fields; set_solver]. }
    rewrite Hleaf.
    destruct (decide (b = leaf_of lookup_df key value)) as [->|Hb].
    + destruct (decide (sent_on date value)).
      * rewrite decide_True by (by apply Hsent). by rewrite decide_True.
      * rewrite decide_False by (by rewrite Hsent).
        rewrite decide_False; [done|]. by intros [_ ?].
    + rewrite decide_False; [done|]. intros [Heq _]. apply Hb.
      by destruct b, (leaf_of lookup_df key value).
  - by rewrite (Hnotin key Hk b).
Qed.

(** C5, as the code has it.  Order PON_1234 with three matching rows in the
    reference table, one document with the primary token 1.EVCTAG.X., one
    with the access token 1.UNITAG.Y., sent date 01-02-2024: the record has
    no second circuit, so [process] puts it in section no_type, under the
    date 01-02-2024, and nowhere else. *)
Theorem process_order_scenario
    (listdir : path → result (list string)) (_extract_pdf_text : path → string)
    (_parse_date_info : string → option string)
    (_parse_contact_info : string → ContactInfo)
    (_parse_circuit_info : string → option string) (config : Config)
    (process_dir : path) (item1 item2 : string)
    (lookup_df address_df : DataFrame) :
  let cir := cir_of _extract_pdf_text _parse_circuit_info process_dir in
  let date := date_of _extract_pdf_text _parse_date_info process_dir in
  basename process_dir = "PON_1234" →
  listdir process_dir = Ok [item1; item2] →
  cir item1 = Some "1.EVCTAG.X." →
  cir item2 = Some "1.UNITAG.Y." →
  is_primary config "1.EVCTAG.X." = true →
  is_access config "1.UNITAG.Y." = true →
  last (filter (λ d, truthy (of_str d)) [date item1; date item2])
  = Some (Some "01-02-2024") →
  str_column lookup_df "Tower Name" →
  tower_match_count lookup_df "PON_1234" = 3 →
  (∀ f, f ∈ sort_fields → f ∉ df_columns address_df) →
  ∃ grouped value,
    process (_create_pon_dict listdir _extract_pdf_text _parse_date_info
               _parse_contact_info _parse_circuit_info config process_dir)
      config lookup_df address_df = Ok grouped ∧
    in_grouped "no_type" (AStr "01-02-2024") "PON_1234" grouped = Some value ∧
    ∀ section date',
      (section, date') ≠ ("no_type", AStr "01-02-2024") →
      in_grouped section date' "PON_1234" grouped = None.
Proof.
  intros cir date Hname Hdir Hc1 Hc2 Hp Ha Hdate Hcol Hcount Haddr.
  assert (Hp2 : is_primary config "1.UNITAG.Y." = false).
  { unfold is_access in Ha. by destruct (is_primary config "1.UNITAG.Y."). }
  assert (Ha1 : is_access config "1.EVCTAG.X." = false).
  { unfold is_access. by rewrite Hp. }
  destruct (pon_loop_tokens _extract_pdf_text _parse_date_info
              _parse_contact_info _parse_circuit_info config process_dir
              ["1.EVCTAG.X."; "1.UNITAG.Y."] [item1; item2]
              (new_pon (basename process_dir)) [] None None None)
    as (d' & log' & Hloop & He1 & He2 & Hu & _); [|done..|].
  { simpl. fold cir. by rewrite Hc1, Hc2. }
  rewrite (filter_cons_True (is_primary config)) in He1, He2 by (by rewrite Hp).
  rewrite (filter_cons_False (is_primary config)) in He1, He2
    by (rewrite Hp2; intros []).
  rewrite (filter_cons_False (is_access config)) in Hu by (rewrite Ha1; intros []).
  rewrite (filter_cons_True (is_access config)) in Hu by (by rewrite Ha).
  simpl in He1, He2, Hu.
  pose proof (pon_loop_date _extract_pdf_text _parse_date_info
                _parse_contact_info _parse_circuit_info config process_dir
                [item1; item2] (new_pon (basename process_dir)) []) as Hd.
  pose proof (pon_loop_tower _extract_pdf_text _parse_date_info
                _parse_contact_info _parse_circuit_info config process_dir
                [item1; item2] (new_pon (basename process_dir)) []) as Ht.
  rewrite Hloop in Hd, Ht. simpl in Hd, Ht. specialize (Hd eq_refl).
  fold date in Hd. rewrite Hdate in Hd.
  unfold _create_pon_dict, _create_pon_dict_log. rewrite Hdir, Hloop, Hname. simpl.
  destruct (process_spec [("PON_1234", d')] config lookup_df address_df)
    as (grouped & Hproc & Hin); [| |done..|].
  { apply NoDup_singleton. }
  { apply Forall_singleton. unfold has_circuit_fields. simpl.
    rewrite Ht, He1, He2. by split_and!. }
  assert (Hleaf : leaf_of lookup_df "PON_1234" d' = NoType).
  { unfold leaf_of, field. by rewrite Hcount, Hu, He1, He2. }
  assert (Hsent : ∀ date', sent_on date' d' ↔ date' = AStr "01-02-2024").
  { intros date'. unfold sent_on, field. rewrite Hd. simpl. split.
    - by intros [[= <-] _].
    - by intros ->. }
  exists grouped. eexists. split; [exact Hproc|]. split.
  - rewrite Hin. simpl. rewrite Hleaf. rewrite decide_True; [done|].
    split; [done|]. by apply Hsent.
  - intros section date' Hne. rewrite Hin. simpl. rewrite Hleaf.
    rewrite decide_False; [done|]. intros [-> ->%Hsent]. done.
Qed.

(** * Properties of the enrichment on the object store *)

(** ** The copy *)







(** ** The assignments *)




Section for_items.
Context {S : Type}.
Variable body : string → Record_ → S → result (Record_ * S).



End for_items.



(** ** The stage as a whole *)




(** ** The store and the values agree

    The other sections treat the enrichment as a function on values: the
    copy is the value itself and an assignment gives a new value.  On a
    store where no two keys share a record, that is what the in-place code
    computes. *)

Lemma add_cvlan_loop_for_values lookup_df columns_mapping items done_ susp :
  add_cvlan_loop lookup_df columns_mapping items done_ susp =
  '(rest, susp') ←
    for_values (λ _ value susp, add_cvlan_item lookup_df columns_mapping value susp)
      items susp;
  Ok (done_ ++ rest, susp').
Proof.
  revert done_ susp. induction items as [|[key value] items IH];
    intros done_ susp; simpl.
  - by rewrite app_nil_r.
  - destruct (add_cvlan_item _ _ value susp) as [[value' susp']|e]; simpl; [|done].
    rewrite IH. destruct (for_values _ items susp') as [[rest susp'']|e]; simpl;
      [|done]. by rewrite <- app_assoc.
Qed.

Lemma add_address_data_for_values pon_dict address_df :
  for_values (λ key value (_ : unit), Ok (add_address_item address_df key value, ()))
    pon_dict () = Ok (add_address_data pon_dict address_df, ()).
Proof.
  induction pon_dict as [|[key value] items IH]; simpl; [done|].
  by rewrite IH.
Qed.

Lemma read_back_ext h h' items :
  (∀ l, l ∈ items.*2 → h' !! l = h !! l) → read_back h' items = read_back h items.
Proof.
  induction items as [|[key l] items IH]; intros Hext; simpl; [done|].
  rewrite Hext by left. rewrite IH; [done|]. intros l0 ?. apply Hext. by right.
Qed.

Lemma read_back_record h items d l :
  read_back h items = Some d → l ∈ items.*2 → ∃ r, h !! l = Some (ORecord r).
Proof.
  revert d. induction items as [|[k0 l0] items IH]; intros d Hd Hin; simpl in *.
  - by apply elem_of_nil in Hin.
  - destruct (h !! l0) as [[r|c]|] eqn:Hl0; [|done..].
    destruct (read_back h items) as [rest|]; [|done].
    apply elem_of_cons in Hin as [->|Hin]; [by exists r|by eapply IH].
Qed.

Lemma for_items_cons {S} (body : string → Record_ → S → result (Record_ * S))
    key l items s h :
  for_items body ((key, l) :: items) s h =
  match h !! l with
  | Some (ORecord r) =>
      match body key r s with
      | Ok (value', s') => for_items body items s' (<[l:=ORecord value']> h)
      | Raise e => (h, Raise e)
      end
  | _ => (h, Raise TypeError)
  end.
Proof.
  simpl. unfold mbind, M_bind, read_record, lift, write.
  destruct (h !! l) as [[r|c]|]; [|done..].
  by destruct (body key r s) as [[value' s']|e].
Qed.

(** On distinct records the loop on the store does what the loop on values
    does, and touches nothing else. *)
Lemma for_items_for_values {S} (body : string → Record_ → S → result (Record_ * S))
    items :
  ∀ s h d,
    NoDup items.*2 → read_back h items = Some d →
    match for_values body d s with
    | Ok (d', s') =>
        ∃ h', for_items body items s h = (h', Ok s') ∧
              read_back h' items = Some d' ∧
              ∀ l, l ∉ items.*2 → h' !! l = h !! l
    | Raise e => ∃ h', for_items body items s h = (h', Raise e)
    end.
Proof.
  induction items as [|[key l] items IH]; intros s h d Hnd Hd;
    simpl in Hnd, Hd.
  - injection Hd as <-. simpl. by exists h.
  - apply NoDup_cons in Hnd as [Hl Hnd].
    destruct (h !! l) as [[r|c]|] eqn:Hhl; [|done..].
    destruct (read_back h items) as [rest|] eqn:Hrest; [|done].
    injection Hd as <-. rewrite for_items_cons, Hhl. simpl.
    destruct (body key r s) as [[value' s1]|e]; simpl; [|by eexists].
    assert (Hrest' : read_back (<[l:=ORecord value']> h) items = Some rest).
    { rewrite <- Hrest. apply read_back_ext. intros l0 Hl0.
      rewrite lookup_insert_ne; [done|]. by intros <-. }
    specialize (IH s1 (<[l:=ORecord value']> h) rest Hnd Hrest').
    destruct (for_values body rest s1) as [[d' s2]|e]; simpl.
    + destruct IH as (h' & -> & Hback & Hother). exists h'.
      split_and!; [done| |].
      * simpl. rewrite Hother by done. rewrite lookup_insert_eq. by rewrite Hback.
      * intros l0 [Hne Hl0]%not_elem_of_cons. rewrite Hother by done.
        by rewrite lookup_insert_ne.
    + destruct IH as [h' ->]. by eexists.
Qed.

(** The copy of a collection without shared records: the same keys in the
    same order, distinct new records, the same values. *)
Lemma deepcopy_items_exact h_in y :
  y ∉ dom h_in →
  ∀ items memo h d,
    h_in ⊆ h → h !! y = Some (OColl d) →
    NoDup items.*2 → (∀ l, l ∈ items.*2 → memo !! l = None) →
    NoDup (dkeys d ++ dkeys items) →
    is_Some (read_back h_in items) →
    (∀ l', l' ∈ d.*2 → l' ∈ dom h ∧ l' ≠ y) → NoDup d.*2 →
    ∃ h' items',
      deepcopy_items items memo y h = (h', Ok ()) ∧
      h' !! y = Some (OColl (d ++ items')) ∧
      NoDup (d ++ items').*2 ∧
      read_back h' items' = read_back h_in items ∧
      ∀ l', l' ∈ d.*2 → h' !! l' = h !! l'.
Proof.
  intros Hy. induction items as [|[key l] items IH];
    intros memo h d Hh Hd Hnd Hmemo Hkeys Hback Hdl Hdnd; simpl in *.
  - exists h, []. rewrite app_nil_r. by split_and!.
  - apply NoDup_cons in Hnd as [Hl Hnd].
    rewrite (Hmemo l) by left.
    destruct (h_in !! l) as [[r|c]|] eqn:Hr; [|by destruct Hback..].
    assert (Hback' : is_Some (read_back h_in items)).
    { destruct (read_back h_in items); [by eexists|by destruct Hback]. }
    unfold mbind, M_bind, read_record, alloc, read_coll, write.
    rewrite (lookup_weaken _ _ _ _ Hr Hh).
    set (l' := fresh (dom h)).
    assert (Hl' : l' ∉ dom h) by apply is_fresh.
    assert (Hl'y : l' ≠ y).
    { intros ->. apply Hl'. apply elem_of_dom. by eexists. }
    assert (Hl'in : l' ∉ dom h_in).
    { intros Hc'. apply Hl'. apply elem_of_dom. apply elem_of_dom in Hc' as [o Ho].
      exists o. by eapply lookup_weaken. }
    rewrite lookup_insert_ne by done. rewrite Hd.
    assert (Hkey : key ∉ dkeys d).
    { apply NoDup_app in Hkeys as (_ & Hk & _). intros Hin. apply (Hk key Hin). left. }
    rewrite (dset_notin key l' d Hkey).
    set (h2 := <[y:=OColl (d ++ [(key, l')])]> (<[l':=ORecord r]> h)).
    destruct (IH (<[l:=l']> memo) h2 (d ++ [(key, l')]))
      as (h' & items' & -> & Hy' & Hnd' & Hrb & Hsame); [| |done| | |done| | |].
    + apply insert_subseteq_r; [by apply not_elem_of_dom|].
      apply insert_subseteq_r; [by apply not_elem_of_dom|done].
    + apply lookup_insert_eq.
    + intros l0 Hl0. rewrite lookup_insert_ne; [|by intros <-].
      apply Hmemo. by right.
    + rewrite dkeys_app. simpl. by rewrite <- app_assoc.
    + intros l0. rewrite fmap_app. simpl.
      intros [Hl0| ->%list_elem_of_singleton]%elem_of_app.
      * destruct (Hdl l0 Hl0) as [Hdom ?]. split; [|done]. unfold h2.
        rewrite !dom_insert_L. set_solver.
      * split; [|done]. unfold h2. rewrite !dom_insert_L. set_solver.
    + rewrite fmap_app. simpl. apply NoDup_app. split_and!; [done| |apply NoDup_singleton].
      intros l0 Hl0 ->%list_elem_of_singleton. by destruct (Hdl l' Hl0).
    + exists h', ((key, l') :: items'). rewrite <- app_assoc in Hy', Hnd'. simpl in *.
      split_and!; [done..| |].
      * rewrite (Hsame l').
        2:{ rewrite fmap_app. simpl. apply elem_of_app. right. left. }
        unfold h2. rewrite lookup_insert_ne by done. rewrite lookup_insert_eq.
        by rewrite Hrb.
      * intros l0 Hl0. rewrite Hsame.
        2:{ rewrite fmap_app. apply elem_of_app. by left. }
        destruct (Hdl l0 Hl0) as [Hdom Hne]. unfold h2.
        rewrite lookup_insert_ne by done. rewrite lookup_insert_ne; [done|].
        by intros <-.
Qed.

Lemma deepcopy_exact h x items d :
  h !! x = Some (OColl items) → dict_wf items → NoDup items.*2 →
  read_back h items = Some d →
  ∃ h' y items',
    deepcopy x h = (h', Ok y) ∧ h' !! y = Some (OColl items') ∧
    NoDup items'.*2 ∧ read_back h' items' = Some d.
Proof.
  intros Hx Hwf Hnd Hd. unfold deepcopy, mbind, M_bind, read_coll, alloc.
  rewrite Hx. set (y := fresh (dom h)).
  assert (Hy : y ∉ dom h) by apply is_fresh.
  destruct (deepcopy_items_exact h y Hy items ∅ (<[y:=OColl []]> h) [])
    as (h' & items' & -> & Hy' & Hnd' & Hrb & _).
  - apply insert_subseteq. by apply not_elem_of_dom.
  - apply lookup_insert_eq.
  - done.
  - intros l _. apply lookup_empty.
  - done.
  - by rewrite Hd.
  - intros l' Hl'. by apply elem_of_nil in Hl'.
  - apply NoDup_nil_2.
  - exists h', y, items'. simpl in *. split_and!; [done..|]. by rewrite Hrb.
Qed.

Lemma add_cvlan_data_heap_unfold x config lookup_df h :
  add_cvlan_data_heap x config lookup_df h =
  match deepcopy x h with
  | (h1, Ok y) =>
      match h1 !! y with
      | Some (OColl items) =>
          match for_items (λ _ value susp,
                   add_cvlan_item lookup_df (tmo_columns_mapping config) value susp)
                  items [] h1 with
          | (h2, Ok susp) => (h2, Ok (y, susp))
          | (h2, Raise e) => (h2, Raise e)
          end
      | _ => (h1, Raise TypeError)
      end
  | (h1, Raise e) => (h1, Raise e)
  end.
Proof.
  unfold add_cvlan_data_heap, mbind, M_bind, read_coll.
  destruct (deepcopy x h) as [h1 [y|e]]; [|done].
  destruct (h1 !! y) as [[r|items]|]; [done| |done].
  by destruct (for_items _ items [] h1) as [h2 [susp|e]].
Qed.

Lemma add_address_data_heap_unfold x address_df h :
  add_address_data_heap x address_df h =
  match deepcopy x h with
  | (h1, Ok y) =>
      match h1 !! y with
      | Some (OColl items) =>
          match for_items (λ key value (_ : unit),
                   Ok (add_address_item address_df key value, ()))
                  items () h1 with
          | (h2, Ok _) => (h2, Ok y)
          | (h2, Raise e) => (h2, Raise e)
          end
      | _ => (h1, Raise TypeError)
      end
  | (h1, Raise e) => (h1, Raise e)
  end.
Proof.
  unfold add_address_data_heap, mbind, M_bind, read_coll.
  destruct (deepcopy x h) as [h1 [y|e]]; [|done].
  destruct (h1 !! y) as [[r|items]|]; [done| |done].
  by destruct (for_items _ items () h1) as [h2 [u|e]].
Qed.

(** On a store where the collection [x] has the value [pon_dict] and no
    two keys share a record, [add_cvlan_data] and [add_address_data] on the
    store give what the functions on values give. *)
Lemma enrichment_heap_value (h : heap) (x : loc) (items : dict loc)
    (pon_dict : dict Record_) (config : Config)
    (lookup_df address_df : DataFrame) :
  h !! x = Some (OColl items) → dict_wf items → NoDup items.*2 →
  read_back h items = Some pon_dict →
  match add_cvlan_data pon_dict config lookup_df with
  | Ok (out, susp) =>
      ∃ h' y items',
        add_cvlan_data_heap x config lookup_df h = (h', Ok (y, susp)) ∧
        h' !! y = Some (OColl items') ∧ read_back h' items' = Some out
  | Raise e =>
      ∃ h', add_cvlan_data_heap x config lookup_df h = (h', Raise e)
  end ∧
  ∃ h' y items',
    add_address_data_heap x address_df h = (h', Ok y) ∧
    h' !! y = Some (OColl items') ∧
    read_back h' items' = Some (add_address_data pon_dict address_df).
Proof.
  intros Hx Hwf Hnd Hd.
  destruct (deepcopy_exact h x items pon_dict Hx Hwf Hnd Hd)
    as (h1 & y & items' & Hcopy & Hy & Hnd' & Hback).
  assert (Hyl : y ∉ items'.*2).
  { intros Hin. destruct (read_back_record h1 items' pon_dict y Hback Hin) as [r Hr].
    by rewrite Hy in Hr. }
  split.
  - unfold add_cvlan_data. rewrite add_cvlan_loop_for_values.
    rewrite add_cvlan_data_heap_unfold, Hcopy, Hy.
    pose proof (for_items_for_values
                  (λ _ value susp,
                     add_cvlan_item lookup_df (tmo_columns_mapping config) value susp)
                  items' [] h1 pon_dict Hnd' Hback) as Hloop.
    destruct (for_values _ pon_dict []) as [[out susp]|e]; simpl.
    + destruct Hloop as (h' & -> & Hb & Hother). exists h', y, items'.
      split_and!; [done| |done]. by rewrite Hother.
    + destruct Hloop as [h' ->]. by eexists.
  - rewrite add_address_data_heap_unfold, Hcopy, Hy.
    pose proof (for_items_for_values
                  (λ key value (_ : unit),
                     Ok (add_address_item address_df key value, ()))
                  items' () h1 pon_dict Hnd' Hback) as Hloop.
    rewrite add_address_data_for_values in Hloop.
    destruct Hloop as (h' & -> & Hb & Hother). exists h', y, items'.
    split_and!; [done| |done]. by rewrite Hother.
Qed.

(** * The properties on the worked staging area *)

Example ex_create_pon_dict_1234 :
  ex_create_pon_dict ["tmp"; "PON_1234"] = [("PON_1234", ex_record)].
Proof. vm_compute. reflexivity. Qed.

Example ex_sort_by_type : sort_by_type ex_pon_dict ex_lookup_df = Ok ex_sorted_dict.
Proof. vm_compute. reflexivity. Qed.

Lemma ex_pon_dict_wf : dict_wf ex_pon_dict.
Proof. unfold dict_wf. apply (bool_decide_unpack _). vm_compute. exact I. Defined.

Lemma ex_sorted_dict_wf b : dict_wf (get_bucket b ex_sorted_dict).
Proof.
  destruct b; unfold dict_wf; apply (bool_decide_unpack _); vm_compute; exact I.
Defined.

Lemma ex_pon_dict_fields : Forall (λ kv, has_circuit_fields kv.2) ex_pon_dict.
Proof.
  repeat apply Forall_cons_2; try apply Forall_nil_2;
    (split_and!; eexists; reflexivity).
Defined.

Lemma ex_lookup_df_tower : str_column ex_lookup_df "Tower Name".
Proof. reflexivity. Defined.

(** ** The classifier and the grouper on the example *)

Lemma sort_by_type_decision_table_witness :
  dict_wf ex_pon_dict ∧ str_column ex_lookup_df "Tower Name" ∧
  ∃ sorted_dict, sort_by_type ex_pon_dict ex_lookup_df = Ok sorted_dict ∧
    dget "PON_1234" (get_bucket NoType sorted_dict) = Some ex_record ∧
    dget "PON_1234" (get_bucket PdiscUnievc sorted_dict) = None ∧
    dget "PON_2" (get_bucket NoType sorted_dict) = None.
Proof.
  split; [exact ex_pon_dict_wf|]. split; [exact ex_lookup_df_tower|].
  destruct (sort_by_type_decision_table ex_pon_dict ex_lookup_df
              ex_pon_dict_wf ex_lookup_df_tower) as (sorted & Hs & Hin & Hout).
  exists sorted. split; [exact Hs|]. split_and!.
  - exact (Hin "PON_1234" ex_record eq_refl NoType).
  - exact (Hin "PON_1234" ex_record eq_refl PdiscUnievc).
  - exact (Hout "PON_2" eq_refl NoType).
Defined.

Lemma sort_by_date_groups_witness :
  (∀ b, dict_wf (get_bucket b ex_sorted_dict)) ∧
  dkeys (sort_by_date ex_sorted_dict) = ["unievc"; "vlan"; "fdisc"; "no_type"] ∧
  in_grouped "no_type" (AStr "01-02-2024") "PON_1234" (sort_by_date ex_sorted_dict)
    = Some ex_record ∧
  (∀ section date,
     in_grouped section date "T1" (sort_by_date ex_sorted_dict)
     ≠ dget "T1" (fdisc ex_sorted_dict)).
Proof.
  split; [exact ex_sorted_dict_wf|].
  destruct (sort_by_date_groups ex_sorted_dict ex_sorted_dict_wf)
    as (Hkeys & _ & Hdrop & Hdated).
  split; [exact Hkeys|]. split.
  - apply (Hdated NoType "PON_1234" ex_record (AStr "01-02-2024") eq_refl).
    split; [reflexivity|exact I].
  - intros section date. exact (Hdrop Fdisc "T1" _ eq_refl eq_refl section date).
Defined.

Lemma sort_by_date_idempotent_witness :
  (∀ b, dict_wf (get_bucket b ex_sorted_dict)) ∧
  sort_by_date (flatten (sort_by_date ex_sorted_dict)) = sort_by_date ex_sorted_dict.
Proof.
  split; [exact ex_sorted_dict_wf|].
  exact (sort_by_date_idempotent ex_sorted_dict ex_sorted_dict_wf).
Defined.

(** ** The CVLAN lookup on the example *)

Lemma ex_query_ok tower_name evc_value :
  query_ok ex_lookup_df (tmo_columns_mapping ex_config)
    (Str tower_name) (Str evc_value).
Proof.
  split; [exact I|]. split; [exact I|].
  apply (bool_decide_unpack _). vm_compute. exact I.
Defined.

Lemma ex_query_no_tower tower_name evc_value :
  ¬ query_ok ex_lookup_df_no_tower (tmo_columns_mapping ex_config)
      tower_name evc_value.
Proof. intros [H _]. exact H. Defined.

(** Tower T1 has its circuit on two rows: the lookup gives no tag, and the
    tower is not put on the list. *)
Lemma get_cvlan_ambiguous_counterexample :
  length (matching_rows ex_lookup_df (tmo_columns_mapping ex_config)
            (Str "T1") (Str "1.EVCTAG.E.")) = 2 ∧
  _get_cvlan ex_lookup_df (tmo_columns_mapping ex_config)
    (Str "T1") (Str "1.EVCTAG.E.") "evc1" [] = (None, []) ∧
  ¬ (_get_cvlan ex_lookup_df (tmo_columns_mapping ex_config)
       (Str "T1") (Str "1.EVCTAG.E.") "evc1" [] = (None, [] ++ [Str "T1"])).
Proof. split_and!; [vm_compute; reflexivity..|vm_compute; discriminate]. Qed.

Lemma get_cvlan_ambiguous_or_error_witness :
  (query_ok ex_lookup_df (tmo_columns_mapping ex_config)
     (Str "T1") (Str "1.EVCTAG.E.") ∧
   1 < length (matching_rows ex_lookup_df (tmo_columns_mapping ex_config)
                 (Str "T1") (Str "1.EVCTAG.E.")) ∧
   _get_cvlan ex_lookup_df (tmo_columns_mapping ex_config)
     (Str "T1") (Str "1.EVCTAG.E.") "evc1" [] = (None, [])) ∧
  (¬ query_ok ex_lookup_df_no_tower (tmo_columns_mapping ex_config)
       (Str "T1") (Str "1.EVCTAG.E.") ∧
   _get_cvlan ex_lookup_df_no_tower (tmo_columns_mapping ex_config)
     (Str "T1") (Str "1.EVCTAG.E.") "evc1" [] = (None, [] ++ [Str "T1"])).
Proof.
  assert (Hlen : 1 < length (matching_rows ex_lookup_df
                   (tmo_columns_mapping ex_config) (Str "T1")
                   (Str "1.EVCTAG.E."))).
  { vm_compute. lia. }
  split.
  - split; [exact (ex_query_ok _ _)|]. split; [exact Hlen|].
    exact (proj1 (get_cvlan_ambiguous_or_error ex_lookup_df
                    (tmo_columns_mapping ex_config) (Str "T1")
                    (Str "1.EVCTAG.E.") "evc1" []) (ex_query_ok _ _) Hlen).
  - split; [exact (ex_query_no_tower _ _)|].
    exact (proj2 (get_cvlan_ambiguous_or_error ex_lookup_df_no_tower
                    (tmo_columns_mapping ex_config) (Str "T1")
                    (Str "1.EVCTAG.E.") "evc1" []) (ex_query_no_tower _ _)).
Defined.


(** Tower T0 has the tags 0 and 7, integers: the first is dropped, the
    composite is 7. *)
Example add_cvlan_data_zero_tag :
  add_cvlan_data
    [("T0", [("evc1", Str "1.EVCTAG.P."); ("evc2", Str "1.EVCTAG.S.");
             ("tower_name", Str "T0")])] ex_config ex_lookup_df
  = Ok ([("T0", [("evc1", Str "1.EVCTAG.P."); ("evc2", Str "1.EVCTAG.S.");
                 ("tower_name", Str "T0"); ("cvlan", Str "7")])], []).
Proof. vm_compute. reflexivity. Qed.

(** With a tower column of integers the classifier raises. *)
Example sort_by_type_int_tower :
  sort_by_type ex_pon_dict ex_lookup_df_int_tower = Raise ComputeError.
Proof. vm_compute. reflexivity. Qed.

(** ** The builder on the example *)

(** Order PON_777 has three documents with the primary tokens A, B, C: the
    record ends with C, not B, in [evc2], and nothing is logged. *)
Lemma create_pon_dict_third_token_counterexample :
  cir_of ex_extract_pdf_text ex_parse_circuit_info ["tmp"; "PON_777"]
    <$> ["a.pdf"; "b.pdf"; "c.pdf"]
  = [Some "1.EVCTAG.A."; Some "1.EVCTAG.B."; Some "1.EVCTAG.C."] ∧
  is_primary ex_config "1.EVCTAG.A." = true ∧
  is_primary ex_config "1.EVCTAG.B." = true ∧
  is_primary ex_config "1.EVCTAG.C." = true ∧
  ∃ dict_pon,
    ex_create_pon_dict_log ["tmp"; "PON_777"] = ([("PON_777", dict_pon)], []) ∧
    dget "evc1" dict_pon = Some (Str "1.EVCTAG.A.") ∧
    dget "evc2" dict_pon = Some (Str "1.EVCTAG.C.") ∧
    dget "evc2" dict_pon ≠ Some (Str "1.EVCTAG.B.").
Proof.
  split_and!; [vm_compute; reflexivity..|].
  eexists. split; [vm_compute; reflexivity|].
  split_and!; [vm_compute; reflexivity..|vm_compute; discriminate].
Qed.

Lemma create_pon_dict_slots_witness :
  ex_listdir ["tmp"; "PON_777"] = Ok ["a.pdf"; "b.pdf"; "c.pdf"] ∧
  cir_of ex_extract_pdf_text ex_parse_circuit_info ["tmp"; "PON_777"]
    <$> ["a.pdf"; "b.pdf"; "c.pdf"]
  = Some <$> ["1.EVCTAG.A."; "1.EVCTAG.B."; "1.EVCTAG.C."] ∧
  filter (is_primary ex_config) ["1.EVCTAG.A."; "1.EVCTAG.B."; "1.EVCTAG.C."]
  = ["1.EVCTAG.A."; "1.EVCTAG.B."; "1.EVCTAG.C."] ∧
  ∃ dict_pon log,
    ex_create_pon_dict_log ["tmp"; "PON_777"] = ([("PON_777", dict_pon)], log) ∧
    dget "evc1" dict_pon = Some (Str "1.EVCTAG.A.") ∧
    dget "evc2" dict_pon = Some (Str "1.EVCTAG.C.").
Proof.
  assert (Hdir : ex_listdir ["tmp"; "PON_777"] = Ok ["a.pdf"; "b.pdf"; "c.pdf"])
    by (vm_compute; reflexivity).
  assert (Hcir : cir_of ex_extract_pdf_text ex_parse_circuit_info ["tmp"; "PON_777"]
                   <$> ["a.pdf"; "b.pdf"; "c.pdf"]
                 = Some <$> ["1.EVCTAG.A."; "1.EVCTAG.B."; "1.EVCTAG.C."])
    by (vm_compute; reflexivity).
  assert (Hprim : filter (is_primary ex_config)
                    ["1.EVCTAG.A."; "1.EVCTAG.B."; "1.EVCTAG.C."]
                  = ["1.EVCTAG.A."; "1.EVCTAG.B."; "1.EVCTAG.C."])
    by (vm_compute; reflexivity).
  split; [exact Hdir|]. split; [exact Hcir|]. split; [exact Hprim|].
  destruct (create_pon_dict_slots ex_extract_pdf_text ex_parse_date_info
              ex_parse_contact_info ex_parse_circuit_info ex_config ex_listdir
              ["tmp"; "PON_777"] _ _ _ _ _ Hdir Hcir Hprim)
    as (dict_pon & log & Hlog & He1 & He2 & _).
  exists dict_pon, log. split; [exact Hlog|]. split; [exact He1|exact He2].
Defined.

(** Order PON_9 has an unreadable scan before its primary document: the
    loop ends at the scan, the primary document is never read, and [evc1]
    stays empty. *)
Example create_pon_dict_scan_first :
  ex_create_pon_dict_log ["tmp"; "PON_9"] =
  ([("PON_9", new_pon "PON_9")], [Caught TypeError]).
Proof. vm_compute. reflexivity. Qed.

Lemma pon_loop_stops_without_token_witness :
  cir_of ex_extract_pdf_text ex_parse_circuit_info ["tmp"; "PON_9"] "scan.pdf"
  = None ∧
  pon_loop ex_extract_pdf_text ex_parse_date_info ex_parse_contact_info
    ex_parse_circuit_info ex_config ["tmp"; "PON_9"] ([] ++ "scan.pdf" :: ["evc.pdf"])
    (new_pon "PON_9") []
  = pon_loop ex_extract_pdf_text ex_parse_date_info ex_parse_contact_info
      ex_parse_circuit_info ex_config ["tmp"; "PON_9"] ([] ++ ["scan.pdf"])
      (new_pon "PON_9") [].
Proof.
  assert (Hnone : cir_of ex_extract_pdf_text ex_parse_circuit_info
                    ["tmp"; "PON_9"] "scan.pdf" = None)
    by (vm_compute; reflexivity).
  split; [exact Hnone|].
  exact (proj1 (pon_loop_stops_without_token ex_extract_pdf_text
                  ex_parse_date_info ex_parse_contact_info ex_parse_circuit_info
                  ex_config ["tmp"; "PON_9"] [] ["evc.pdf"] "scan.pdf"
                  (new_pon "PON_9") [] Hnone)).
Defined.

Lemma create_full_dict_tower_name_witness :
  ex_listdir ["tmp"] = Ok ["PON_1234"; "PON_777"; "PON_9"] ∧
  ∃ full_dict,
    create_full_dict ex_listdir ex_extract_pdf_text ex_parse_date_info
      ex_parse_contact_info ex_parse_circuit_info ex_config ["tmp"] []
    = Ok full_dict ∧
    dkeys full_dict = ["PON_1234"; "PON_777"; "PON_9"] ∧
    ∀ key value, dget key full_dict = Some value →
                 dget "tower_name" value = Some (Str key).
Proof.
  assert (Hdir : ex_listdir ["tmp"] = Ok ["PON_1234"; "PON_777"; "PON_9"])
    by (vm_compute; reflexivity).
  split; [exact Hdir|].
  destruct (create_full_dict_tower_name ex_listdir ex_extract_pdf_text
              ex_parse_date_info ex_parse_contact_info ex_parse_circuit_info
              ex_config ["tmp"] _ Hdir) as (full_dict & Hfull & Hinv & _).
  exists full_dict. split; [exact Hfull|]. split; [|exact Hinv].
  vm_compute in Hfull. injection Hfull as <-. vm_compute. reflexivity.
Defined.

(** ** The pipeline on the example *)

(** Order PON_1234: three rows in the reference table, a primary and an
    access document, sent date 01-02-2024.  The record is not in section
    unievc; it is in section no_type under its date. *)
Lemma process_order_counterexample :
  tower_match_count ex_lookup_df "PON_1234" = 3 ∧
  ex_create_pon_dict ["tmp"; "PON_1234"] = [("PON_1234", ex_record)] ∧
  ∃ grouped,
    process (ex_create_pon_dict ["tmp"; "PON_1234"]) ex_config ex_lookup_df
      ex_address_df = Ok grouped ∧
    dget "unievc" grouped = Some [] ∧
    in_grouped "unievc" (AStr "01-02-2024") "PON_1234" grouped = None ∧
    is_Some (in_grouped "no_type" (AStr "01-02-2024") "PON_1234" grouped).
Proof.
  split; [vm_compute; reflexivity|]. split; [vm_compute; reflexivity|].
  eexists. split; [vm_compute; reflexivity|].
  split_and!; [vm_compute; reflexivity..|]. vm_compute. by eexists.
Qed.

Lemma ex_address_df_columns f : f ∈ sort_fields → f ∉ df_columns ex_address_df.
Proof.
  apply (proj1 (Forall_forall (λ f, f ∉ df_columns ex_address_df) sort_fields)).
  apply (bool_decide_unpack _). vm_compute. exact I.
Defined.

Lemma process_order_scenario_witness :
  ∃ grouped value,
    process (ex_create_pon_dict ["tmp"; "PON_1234"]) ex_config ex_lookup_df
      ex_address_df = Ok grouped ∧
    in_grouped "no_type" (AStr "01-02-2024") "PON_1234" grouped = Some value ∧
    in_grouped "unievc" (AStr "01-02-2024") "PON_1234" grouped = None.
Proof.
  destruct (process_order_scenario ex_listdir ex_extract_pdf_text
              ex_parse_date_info ex_parse_contact_info ex_parse_circuit_info
              ex_config ["tmp"; "PON_1234"] "evc.pdf" "uni.pdf"
              ex_lookup_df ex_address_df)
    as (grouped & value & Hproc & Hin & Hout).
  - vm_compute; reflexivity.
  - vm_compute; reflexivity.
  - vm_compute; reflexivity.
  - vm_compute; reflexivity.
  - vm_compute; reflexivity.
  - vm_compute; reflexivity.
  - vm_compute; reflexivity.
  - exact ex_lookup_df_tower.
  - vm_compute; reflexivity.
  - exact ex_address_df_columns.
  - exists grouped, value. split; [exact Hproc|]. split; [exact Hin|].
    apply Hout. discriminate.
Defined.

(** ** The store on the example *)

Lemma ex_heap_coll : heap_coll ex_heap 1 [("S1", 2%positive)].
Proof.
  split; [reflexivity|]. intros key l Hin.
  apply list_elem_of_singleton in Hin. injection Hin as -> ->.
  eexists. reflexivity.
Defined.

(** [add_address_data] on the store [ex_heap], whose record has a field
    Site Name: the input record keeps its field, the record of the
    returned collection has not got it; without the condition on the input
    records the copy has every field but that one. *)
Example site_name_field_is_popped :
  let res := add_address_data_heap 1 ex_address_df ex_heap in
  ex_heap !! 2%positive =
    Some (ORecord [("Site Name", Str "old"); ("evc1", None); ("evc2", None);
                   ("tower_name", Str "S1")]) ∧
  res.2 = Ok 3%positive ∧
  res.1 !! 3%positive = Some (OColl [("S1", 4%positive)]) ∧
  res.1 !! 4%positive =
    Some (ORecord [("evc1", None); ("evc2", None); ("tower_name", Str "S1");
                   ("City", Str "Shelbyville"); ("Zip", Int 46176)]).
Proof. split_and!; vm_compute; reflexivity. Qed.




(** * Further properties of the classifier *)

Lemma get_bucket_set_bucket b b0 key value s :
  get_bucket b (set_bucket b0 key value s) =
  if decide (b = b0) then dset key value (get_bucket b s) else get_bucket b s.
Proof. by destruct b, b0. Qed.

Lemma sort_loop_filter lookup_df items :
  str_column lookup_df "Tower Name" →
  ∀ acc,
    dict_wf items →
    (∀ b k, k ∈ dkeys (get_bucket b acc) → k ∉ dkeys items) →
    ∃ sorted, sort_loop lookup_df items acc = Ok sorted ∧
      ∀ b, get_bucket b sorted =
           get_bucket b acc ++
           filter (B := list (string * Record_))
             (λ kv, leaf_of lookup_df kv.1 kv.2 = b) items.
Proof.
  intros Hcol. induction items as [|[k0 v0] items IH]; intros acc Hwf Hfresh.
  - exists acc. split; [done|]. intros b. by rewrite app_nil_r.
  - apply NoDup_cons in Hwf as [Hk0 Hwf]. simpl in Hk0.
    destruct (IH (set_bucket (leaf_of lookup_df k0 v0) k0 v0 acc) Hwf)
      as (sorted & Hloop & Hs).
    { intros b k. rewrite get_bucket_set_bucket. case_decide as Hb.
      - intros [->|Hk]%elem_dkeys_dset; [done|].
        intros Hin. apply (Hfresh b k Hk). by right.
      - intros Hk Hin. apply (Hfresh b k Hk). by right. }
    exists sorted. split.
    { simpl. rewrite sort_item_ok by done. exact Hloop. }
    intros b. rewrite Hs, get_bucket_set_bucket, filter_cons. simpl.
    destruct (decide (b = leaf_of lookup_df k0 v0)) as [->|Hb].
    + rewrite decide_True by done. rewrite dset_notin.
      * by rewrite <- app_assoc.
      * intros Hin. apply (Hfresh _ _ Hin). left.
    + rewrite decide_False; [done|]. by intros <-.
Qed.

Lemma filter_leaf_length {A} (f : A → bucket) (l : list A) :
  length (filter (λ x, f x = PdiscVlan) l) +
  length (filter (λ x, f x = PdiscUnievc) l) +
  length (filter (λ x, f x = Fdisc) l) +
  length (filter (λ x, f x = NoType) l) = length l.
Proof.
  induction l as [|x l IH]; [done|]. rewrite !filter_cons.
  destruct (f x); simpl; lia.
Qed.

(** X1.  The four leaves [sort_by_type] returns are the collection cut in
    four: each leaf holds, in the order of the collection, exactly the
    items the decision table sends to it, so the sizes of the leaves add up
    to the size of the collection. *)
Theorem sort_by_type_partition (pon_dict : dict Record_) (lookup_df : DataFrame) :
  dict_wf pon_dict →
  str_column lookup_df "Tower Name" →
  ∃ sorted_dict, sort_by_type pon_dict lookup_df = Ok sorted_dict ∧
    (∀ b, get_bucket b sorted_dict =
          filter (B := list (string * Record_))
            (λ kv, leaf_of lookup_df kv.1 kv.2 = b) pon_dict) ∧
    length (vlan (pdisc sorted_dict)) + length (unievc (pdisc sorted_dict)) +
    length (fdisc sorted_dict) + length (no_type sorted_dict) = length pon_dict.
Proof.
  intros Hwf Hcol.
  destruct (sort_loop_filter lookup_df pon_dict Hcol empty_sorted Hwf)
    as (sorted & Hs & Hb).
  { intros b k Hk. destruct b; by apply elem_of_nil in Hk. }
  exists sorted. split; [exact Hs|].
  assert (Hb' : ∀ b, get_bucket b sorted =
            filter (B := list (string * Record_))
            (λ kv, leaf_of lookup_df kv.1 kv.2 = b) pon_dict).
  { intros b. rewrite Hb. by destruct b. }
  split; [exact Hb'|].
  pose proof (Hb' PdiscVlan) as H1. pose proof (Hb' PdiscUnievc) as H2.
  pose proof (Hb' Fdisc) as H3. pose proof (Hb' NoType) as H4.
  simpl in H1, H2, H3, H4. rewrite H1, H2, H3, H4.
  apply (filter_leaf_length (λ kv, leaf_of lookup_df kv.1 kv.2)).
Qed.

Lemma sort_by_type_raise pon_dict lookup_df :
  ¬ str_column lookup_df "Tower Name" → pon_dict ≠ [] →
  sort_by_type pon_dict lookup_df =
  Raise (if decide ("Tower Name" ∈ df_columns lookup_df) then ComputeError
         else ColumnNotFoundError "Tower Name").
Proof.
  intros Hcol Hne. destruct pon_dict as [|[key value] items]; [done|].
  unfold sort_by_type. simpl. unfold sort_item.
  rewrite df_filter_one_raise; [done|].
  intros Hc. by apply Hcol, (comparable_str_column _ _ key).
Qed.

(** * Further properties of the enrichment *)

Lemma add_cvlan_item_raise lookup_df columns_mapping value susp :
  ¬ has_circuit_fields value →
  ∃ f, f ∈ ["tower_name"; "evc1"; "evc2"] ∧
       add_cvlan_item lookup_df columns_mapping value susp = Raise (KeyError f).
Proof.
  intros Hno. unfold add_cvlan_item, getitem.
  destruct (dget "tower_name" value) as [tower_name|] eqn:Ht; simpl.
  2:{ exists "tower_name". split; [set_solver|done]. }
  destruct (dget "evc1" value) as [evc1|] eqn:H1; simpl.
  2:{ exists "evc1". split; [set_solver|done]. }
  destruct (_get_cvlan _ _ tower_name evc1 _ susp) as [c1 s1].
  destruct (dget "evc2" value) as [evc2|] eqn:H2; simpl.
  2:{ exists "evc2". split; [set_solver|done]. }
  destruct Hno. unfold has_circuit_fields. rewrite Ht, H1, H2. by split_and!.
Qed.

Lemma add_cvlan_loop_raise lookup_df columns_mapping items done_ susp :
  ¬ Forall (λ kv, has_circuit_fields kv.2) items →
  ∃ f, f ∈ ["tower_name"; "evc1"; "evc2"] ∧
       add_cvlan_loop lookup_df columns_mapping items done_ susp
       = Raise (KeyError f).
Proof.
  revert done_ susp. induction items as [|[key value] items IH];
    intros done_ susp Hno.
  - destruct Hno. apply Forall_nil_2.
  - simpl. destruct (decide (has_circuit_fields value)) as [Hv|Hv].
    + destruct (add_cvlan_item_total lookup_df columns_mapping value susp Hv)
        as [susp' ->]. simpl. apply IH. intros Hall. apply Hno.
      by apply Forall_cons_2.
    + destruct (add_cvlan_item_raise lookup_df columns_mapping value susp Hv)
        as (f & Hf & ->). by exists f.
Qed.

(** X2.  [add_cvlan_data] returns exactly when every record has the fields
    [tower_name], [evc1] and [evc2]; otherwise the whole call raises the
    [KeyError] of one of these three names and no record is returned. *)
Theorem add_cvlan_data_key_error (pon_dict : dict Record_) (config : Config)
    (lookup_df : DataFrame) :
  match add_cvlan_data pon_dict config lookup_df with
  | Ok _ => Forall (λ kv, has_circuit_fields kv.2) pon_dict
  | Raise e =>
      ¬ Forall (λ kv, has_circuit_fields kv.2) pon_dict ∧
      ∃ f, f ∈ ["tower_name"; "evc1"; "evc2"] ∧ e = KeyError f
  end.
Proof.
  unfold add_cvlan_data.
  destruct (decide (Forall (λ kv, has_circuit_fields kv.2) pon_dict)) as [Hall|Hno].
  - by destruct (add_cvlan_loop_total lookup_df (tmo_columns_mapping config)
                   pon_dict [] [] Hall) as (out & susp & ->).
  - destruct (add_cvlan_loop_raise lookup_df (tmo_columns_mapping config)
                pon_dict [] [] Hno) as (f & Hf & ->).
    split; [done|]. by exists f.
Qed.

(** X3.  When the query can be evaluated (the reference table has the
    three columns, and the tower and the circuit can be compared with the
    cells of theirs), [_get_cvlan] gives the CVLAN cell of the matching row
    when exactly one row matches the tower and the circuit, and nothing
    when no row or several rows match; in all these cases the list of
    suspicious towers is left as it was. *)
Theorem get_cvlan_single_match (lookup_df : DataFrame)
    (columns_mapping : ColumnsMapping) (tower_name evc_value : pyval)
    (evc_key : string) (suspicious_towers : list pyval) :
  query_ok lookup_df columns_mapping tower_name evc_value →
  _get_cvlan lookup_df columns_mapping tower_name evc_value evc_key
    suspicious_towers =
  (match matching_rows lookup_df columns_mapping tower_name evc_value with
   | [row] => cell lookup_df "CVLAN" row
   | _ => None
   end, suspicious_towers).
Proof.
  intros Hq. unfold _get_cvlan. rewrite cvlan_query_ok by done.
  by destruct (matching_rows _ _ _ _) as [|row [|row' rows]].
Qed.

Lemma get_cvlan_flag lookup_df columns_mapping tower_name evc_value evc_key :
  (_get_cvlan lookup_df columns_mapping tower_name evc_value evc_key []).2 =
  if decide (query_ok lookup_df columns_mapping tower_name evc_value)
  then [] else [tower_name].
Proof.
  unfold _get_cvlan. case_decide as Hq.
  - by rewrite cvlan_query_ok.
  - by destruct (cvlan_query_raise lookup_df columns_mapping tower_name
                   evc_value Hq) as [e ->].
Qed.

Lemma add_cvlan_item_flagged lookup_df columns_mapping value susp value' susp' :
  add_cvlan_item lookup_df columns_mapping value susp = Ok (value', susp') →
  susp' = susp ++ flagged lookup_df columns_mapping value.
Proof.
  unfold add_cvlan_item, flagged, field, getitem.
  destruct (dget "tower_name" value) as [tower_name|]; simpl; [|done].
  destruct (dget "evc1" value) as [evc1|]; simpl; [|done].
  rewrite (get_cvlan_frame _ _ _ evc1). simpl.
  destruct (dget "evc2" value) as [evc2|]; simpl; [|done].
  rewrite (get_cvlan_frame _ _ _ evc2). simpl.
  rewrite !get_cvlan_flag.
  case_bool_decide; intros [= <- <-]; by rewrite <- ?app_assoc.
Qed.

Lemma add_cvlan_loop_flagged lookup_df columns_mapping items done_ susp out susp' :
  add_cvlan_loop lookup_df columns_mapping items done_ susp = Ok (out, susp') →
  susp' = susp ++ (items ≫= λ kv, flagged lookup_df columns_mapping kv.2).
Proof.
  revert done_ susp. induction items as [|[key value] items IH];
    intros done_ susp; simpl.
  - intros [= <- <-]. by rewrite app_nil_r.
  - destruct (add_cvlan_item lookup_df columns_mapping value susp)
      as [[value' susp1]|e] eqn:Hitem; simpl; [|done].
    apply add_cvlan_item_flagged in Hitem as ->.
    intros ->%IH. by rewrite <- app_assoc.
Qed.

Lemma query_ok_columns lookup_df columns_mapping tower_name evc_value :
  query_ok lookup_df columns_mapping tower_name evc_value →
  query_columns lookup_df columns_mapping.
Proof.
  intros (Ht & He & Hc). split_and!; [| |done]; by eapply col_comparable_elem.
Qed.

(** X4.  The list of suspicious towers [add_cvlan_data] returns holds, for
    each record in the order of the collection, the tower of the record
    once for each of its two circuit slots whose query cannot be
    evaluated.  So it is empty when every query can be evaluated, and when
    a column of the query is missing it holds the tower of every record
    twice. *)
Theorem add_cvlan_data_suspicious (pon_dict : dict Record_) (config : Config)
    (lookup_df : DataFrame) (out : dict Record_) (susp : list pyval) :
  add_cvlan_data pon_dict config lookup_df = Ok (out, susp) →
  susp = (pon_dict ≫= λ kv, flagged lookup_df (tmo_columns_mapping config) kv.2) ∧
  (Forall (λ kv,
      query_ok lookup_df (tmo_columns_mapping config)
        (field "tower_name" kv.2) (field "evc1" kv.2) ∧
      query_ok lookup_df (tmo_columns_mapping config)
        (field "tower_name" kv.2) (field "evc2" kv.2)) pon_dict →
   susp = []) ∧
  (¬ query_columns lookup_df (tmo_columns_mapping config) →
   susp = pon_dict ≫= λ kv, [field "tower_name" kv.2; field "tower_name" kv.2]).
Proof.
  unfold add_cvlan_data. intros ->%add_cvlan_loop_flagged. simpl.
  split; [done|]. split.
  - induction 1 as [|[key value] items [H1 H2] _ IH]; [done|].
    rewrite bind_cons, IH. unfold flagged. simpl.
    by rewrite !decide_True.
  - intros Hq. induction pon_dict as [|[key value] items IH]; [done|].
    rewrite !bind_cons, IH. unfold flagged. simpl.
    rewrite !decide_False; [done|intros Hok; by eapply Hq, query_ok_columns..].
Qed.

(** X5.  [add_cvlan_data] keeps the keys of the collection and their order,
    and changes no field of a record other than [cvlan]: item by item, the
    record returned has the key and all other fields of the input record. *)
Theorem add_cvlan_data_frame (pon_dict : dict Record_) (config : Config)
    (lookup_df : DataFrame) (out : dict Record_) (susp : list pyval) :
  add_cvlan_data pon_dict config lookup_df = Ok (out, susp) →
  dkeys out = dkeys pon_dict ∧
  Forall2 (λ kv kv',
      kv'.1 = kv.1 ∧
      (∀ f, f ≠ "cvlan" → dget f kv'.2 = dget f kv.2) ∧
      (kv'.2 = kv.2 ∨ ∃ cvlan, kv'.2 = dset "cvlan" (Str cvlan) kv.2))
    pon_dict out.
Proof.
  intros ->%add_cvlan_data_Ok. split.
  - unfold dkeys. rewrite <- list_fmap_compose. by apply list_fmap_ext.
  - induction pon_dict as [|[key value] items IH]; simpl; [apply Forall2_nil_2|].
    apply Forall2_cons_2; [|exact IH]. simpl. split; [done|]. split.
    + intros f Hf. by apply dget_with_cvlan.
    + unfold with_cvlan. case_bool_decide; [by left|right; by eexists].
Qed.

(** ** The composite tag *)

Lemma lstrip_first c s : first_char (lstrip c s) ≠ Some c.
Proof.
  induction s as [|a s IH]; simpl; [done|].
  case_decide; [done|]. simpl. congruence.
Qed.

Lemma lstrip_id c s : first_char s ≠ Some c → lstrip c s = s.
Proof. destruct s as [|a s]; simpl; [done|]. intros H. case_decide; congruence. Qed.

Lemma last_char_cons a s :
  s ≠ EmptyString → last_char (String a s) = last_char s.
Proof. by destruct s. Qed.

Lemma rstrip_last c s : last_char (rstrip c s) ≠ Some c.
Proof.
  induction s as [|a s IH]; simpl; [done|].
  destruct (rstrip c s) as [|b r] eqn:Hr.
  - case_decide; simpl; congruence.
  - by rewrite last_char_cons.
Qed.

Lemma rstrip_id c s : last_char s ≠ Some c → rstrip c s = s.
Proof.
  induction s as [|a s IH]; [done|]. destruct s as [|b s].
  - simpl. intros H. case_decide; congruence.
  - intros H. rewrite last_char_cons in H by done.
    change (rstrip c (String a (String b s))) with
      (match rstrip c (String b s) with
       | EmptyString => if decide (a = c) then EmptyString else String a EmptyString
       | r => String a r
       end).
    by rewrite IH.
Qed.

Lemma rstrip_first c s : first_char s ≠ Some c → first_char (rstrip c s) ≠ Some c.
Proof.
  destruct s as [|a s]; simpl; [done|]. intros H.
  destruct (rstrip c s); [case_decide|]; simpl; congruence.
Qed.

Lemma rstrip_snoc c s : rstrip c (s +:+ String c EmptyString) = rstrip c s.
Proof.
  induction s as [|a s IH]; simpl.
  - by rewrite decide_True.
  - by rewrite IH.
Qed.

Lemma last_char_app s t : t ≠ EmptyString → last_char (s +:+ t) = last_char t.
Proof.
  intros Ht. induction s as [|a s IH]; simpl; [done|].
  rewrite <- IH. destruct (s +:+ t) eqn:Hst; [|done].
  destruct s; simpl in Hst; [done|discriminate].
Qed.

Lemma or_empty_truthy a : truthy (Some a) → or_empty (Some a) = py_str a.
Proof. unfold or_empty. by intros ->%Is_true_true. Qed.

Lemma strip_two a b :
  clean_tag a → clean_tag b →
  strip "/" (a +:+ "/" +:+ b) = a +:+ "/" +:+ b.
Proof.
  intros (Ha & Ha1 & _) (Hb & _ & Hb2). unfold strip.
  rewrite lstrip_id by (by destruct a).
  apply rstrip_id. rewrite last_char_app by done.
  change ("/" +:+ b) with (String "/" b). by rewrite last_char_cons.
Qed.

Lemma strip_left a : clean_tag a → strip "/" (a +:+ "/" +:+ EmptyString) = a.
Proof.
  intros (Ha & Ha1 & Ha2). unfold strip.
  rewrite lstrip_id by (by destruct a).
  change ("/" +:+ EmptyString) with (String "/"%char EmptyString).
  rewrite rstrip_snoc. by apply rstrip_id.
Qed.

Lemma strip_right a : clean_tag a → strip "/" (EmptyString +:+ "/" +:+ a) = a.
Proof.
  intros (Ha & Ha1 & Ha2). unfold strip.
  change (EmptyString +:+ "/" +:+ a) with (String "/"%char a).
  cbn [lstrip]. rewrite decide_True by done.
  rewrite lstrip_id by done. by apply rstrip_id.
Qed.

(** X6.  The composite [cvlan] never begins or ends with the separator.
    For two tags Python takes for true, whose text has no slash at either
    end, it is the text of the first tag, a slash, the text of the second.
    A tag Python takes for false ([None], the empty string, the integer 0)
    leaves no trace: beside such a tag the composite is the text of the
    other tag alone. *)
Theorem combine_cvlan_separator (tag1 tag2 : pyval) (a b : atom) :
  first_char (combine_cvlan tag1 tag2) ≠ Some "/"%char ∧
  last_char (combine_cvlan tag1 tag2) ≠ Some "/"%char ∧
  (truthy (Some a) → truthy (Some b) →
   clean_tag (py_str a) → clean_tag (py_str b) →
   combine_cvlan (Some a) (Some b) = py_str a +:+ "/" +:+ py_str b) ∧
  (truthy (Some a) → clean_tag (py_str a) → truthy tag2 = false →
   combine_cvlan (Some a) tag2 = py_str a ∧
   combine_cvlan tag2 (Some a) = py_str a).
Proof.
  unfold combine_cvlan. split_and!.
  - apply rstrip_first, lstrip_first.
  - apply rstrip_last.
  - intros Hta Htb Ha Hb. rewrite !or_empty_truthy by done.
    by apply strip_two.
  - intros Hta Ha Ht2. rewrite or_empty_truthy, (or_empty_falsy tag2) by done.
    split; [by apply strip_left|by apply strip_right].
Qed.

(** ** The address lookup *)

Lemma dget_dupdate_from {V} (k : string) (src : dict V) :
  ∀ (d e : dict V) (x : option V),
    dget k d = match dget k e with Some v => Some v | None => x end →
    dget k (dupdate src d) =
    match dget k (dupdate src e) with Some v => Some v | None => x end.
Proof.
  unfold dupdate. induction src as [|[k0 v0] src IH]; intros d e x Hd; simpl;
    [done|].
  apply IH. rewrite !dget_dset. by case_decide.
Qed.

Lemma dupdate_nil_wf {V} (src : dict V) : dict_wf src → dupdate src [] = src.
Proof. intros Hwf. by rewrite dupdate_fresh. Qed.

Lemma dget_dupdate {V} (k : string) (src d : dict V) :
  dict_wf src →
  dget k (dupdate src d) =
  match dget k src with Some v => Some v | None => dget k d end.
Proof.
  intros Hwf. rewrite (dget_dupdate_from k src d [] (dget k d)) by done.
  by rewrite dupdate_nil_wf.
Qed.

Lemma named_row_wf df row : dict_wf (named_row df row).
Proof. apply dict_wf_dupdate, dict_wf_nil. Qed.

(** X7.  [add_address_data] on one record: without a Site Name column in
    the address table, with a Site Name column that is not a column of
    strings (the comparison with the key raises), or without a row for the
    site, the record is returned as it was.  With rows for the site, the
    first one is taken: each of its columns other than Site Name becomes a
    field of the record, over the value the record had, the other fields
    stay, and the record has no field Site Name. *)
Theorem add_address_item_first_row (address_df : DataFrame) (key : string)
    (value : Record_) :
  dict_wf value →
  ("Site Name" ∉ df_columns address_df →
   add_address_item address_df key value = value) ∧
  (¬ str_column address_df "Site Name" →
   add_address_item address_df key value = value) ∧
  (str_column address_df "Site Name" →
   match address_row address_df key with
   | None => add_address_item address_df key value = value
   | Some row =>
       ∀ f, dget f (add_address_item address_df key value) =
            if decide (f = "Site Name") then None
            else match dget f (named_row address_df row) with
                 | Some v => Some v
                 | None => dget f value
                 end
   end).
Proof.
  intros Hwf.
  assert (Hraise : ¬ str_column address_df "Site Name" →
                   add_address_item address_df key value = value).
  { intros Hcol. unfold add_address_item.
    rewrite df_filter_one_raise; [done|].
    intros Hc. by apply Hcol, (comparable_str_column _ _ key). }
  split_and!.
  - intros Hcol. apply Hraise. intros Hs.
    by apply Hcol, (column_dtype_elem _ _ DString).
  - exact Hraise.
  - intros Hcol. unfold add_address_item, address_row.
    rewrite df_filter_one by (by apply str_column_comparable).
    unfold df_row0. simpl.
    destruct (filter _ (df_rows address_df)) as [|row rows]; simpl; [done|].
    intros f. rewrite dget_dpop by (by apply dict_wf_dupdate).
    case_decide; [done|]. apply dget_dupdate, named_row_wf.
Qed.

(** * Further properties of the grouper *)

Lemma dated_sent_on key value : dated (key, value) ↔ ∃ date, sent_on date value.
Proof.
  unfold dated, sent_on. cbn [fst snd].
  destruct (field "date_sent" value) as [d|].
  - split.
    + intros Hd. by exists d.
    + by intros (date & [= <-] & ?).
  - split; [done|]. by intros (date & [=] & _).
Qed.

Lemma target_set_entries date key value target :
  key ∉ all_keys target →
  all_entries (target_set date key value target)
  ≡ₚ all_entries target ++ [(key, value)].
Proof.
  intros Hk. unfold all_entries.
  destruct (target_set_shape date key value target Hk)
    as [[_ ->]|(t1 & grp & t2 & -> & _ & ->)].
  - by rewrite bind_app, bind_singleton.
  - rewrite !bind_app, !bind_cons. simpl.
    rewrite <- !app_assoc. do 2 f_equiv. simpl.
    by rewrite Permutation_app_comm.
Qed.

Lemma group_entries_perm entries target :
  grouped_wf target → dict_wf entries →
  (∀ k, k ∈ dkeys entries → k ∉ all_keys target) →
  all_entries (group_entries entries target)
  ≡ₚ all_entries target ++ filter (B := list (string * Record_)) dated entries.
Proof.
  unfold group_entries. revert target.
  induction entries as [|[k0 v0] entries IH]; intros target Ht Hwf Hfresh; simpl.
  - by rewrite app_nil_r.
  - apply NoDup_cons in Hwf as [Hk0 Hwf]. simpl in Hk0.
    rewrite filter_cons.
    destruct (group_entry_cases target k0 v0) as [(d0 & Hd0 & ->)|[Hno ->]].
    + rewrite decide_True by (apply dated_sent_on; by exists d0).
      destruct (target_set_wf d0 k0 v0 target Ht Hd0) as [Hwf' Hperm].
      { apply Hfresh. left. }
      rewrite IH; [|done..|].
      * rewrite target_set_entries by (apply Hfresh; left).
        by rewrite <- app_assoc.
      * intros k Hk. rewrite Hperm. apply not_elem_of_cons.
        split; [by intros ->|]. apply Hfresh. by right.
    + rewrite decide_False.
      2:{ intros (date & Hs)%dated_sent_on. by apply (Hno date). }
      apply IH; [done..|]. intros k Hk. apply Hfresh. by right.
Qed.

(** X8.  Every section of the output of [sort_by_date] has distinct dates,
    holds an order id under one date only, has no empty date group, and
    holds under a date only records sent on that date; the records of its
    groups are the records of the leaf that have a date, each one once. *)
Theorem sort_by_date_sections (pon_dict : SortedDict) (b : bucket) :
  (∀ b, dict_wf (get_bucket b pon_dict)) →
  ∃ g, dget (section_name b) (sort_by_date pon_dict) = Some g ∧
       grouped_wf g ∧
       all_entries g ≡ₚ
       filter (B := list (string * Record_)) dated (get_bucket b pon_dict).
Proof.
  intros Hwf. exists (group_entries (get_bucket b pon_dict) []). split_and!.
  - rewrite sort_by_date_unfold. by destruct b.
  - apply group_entries_wf; [apply grouped_wf_nil|apply Hwf|].
    intros k _. apply not_elem_of_nil.
  - rewrite group_entries_perm; [done|apply grouped_wf_nil|apply Hwf|].
    intros k _. apply not_elem_of_nil.
Qed.

(** * Further properties of the pipeline *)

Lemma sort_loop_total lookup_df items acc :
  str_column lookup_df "Tower Name" →
  ∃ sorted, sort_loop lookup_df items acc = Ok sorted.
Proof.
  intros Hcol. revert acc. induction items as [|[key value] items IH];
    intros acc; simpl; [by eexists|].
  rewrite sort_item_ok by done. apply IH.
Qed.

(** X9.  [process] returns exactly when every record has the fields
    [tower_name], [evc1], [evc2] and, unless the collection is empty, the
    reference table has a column Tower Name that is a column of strings.
    Otherwise it raises: the [KeyError] of a missing field, or else the
    error of the missing column, or else, the column being there but not a
    column of strings, the error of the comparison with the key. *)
Theorem process_returns (pon_dict : dict Record_) (config : Config)
    (lookup_df address_df : DataFrame) :
  match process pon_dict config lookup_df address_df with
  | Ok _ =>
      Forall (λ kv, has_circuit_fields kv.2) pon_dict ∧
      (pon_dict = [] ∨ str_column lookup_df "Tower Name")
  | Raise e =>
      (¬ Forall (λ kv, has_circuit_fields kv.2) pon_dict ∧
       ∃ f, f ∈ ["tower_name"; "evc1"; "evc2"] ∧ e = KeyError f) ∨
      (Forall (λ kv, has_circuit_fields kv.2) pon_dict ∧ pon_dict ≠ [] ∧
       ("Tower Name" ∉ df_columns lookup_df) ∧
       e = ColumnNotFoundError "Tower Name") ∨
      (Forall (λ kv, has_circuit_fields kv.2) pon_dict ∧ pon_dict ≠ [] ∧
       "Tower Name" ∈ df_columns lookup_df ∧
       ¬ str_column lookup_df "Tower Name" ∧
       e = ComputeError)
  end.
Proof.
  unfold process, add_cvlan_data.
  destruct (decide (Forall (λ kv, has_circuit_fields kv.2) pon_dict)) as [Hall|Hno].
  2:{ destruct (add_cvlan_loop_raise lookup_df (tmo_columns_mapping config)
                  pon_dict [] [] Hno) as (f & Hf & ->). simpl.
      left. split; [done|]. by exists f. }
  destruct (add_cvlan_loop_total lookup_df (tmo_columns_mapping config)
              pon_dict [] [] Hall) as (out & susp & Hout).
  rewrite Hout. simpl. apply add_cvlan_loop_Ok in Hout. simpl in Hout. subst out.
  destruct (decide (str_column lookup_df "Tower Name")) as [Hcol|Hcol].
  - unfold sort_by_type.
    destruct (sort_loop_total lookup_df
                (add_address_data
                   ((λ kv, (kv.1, with_cvlan lookup_df (tmo_columns_mapping config)
                                    kv.2)) <$> pon_dict) address_df)
                empty_sorted Hcol) as [sorted ->].
    simpl. split; [done|by right].
  - destruct pon_dict as [|[key value] items].
    + simpl. split; [done|by left].
    + rewrite sort_by_type_raise; [|done|done]. simpl. right.
      case_decide; [right|left]; by split_and!.
Qed.

(** X10.  When [process] has what it needs (records with the fields the
    enrichment reads, the tower column, a column of strings, in the
    reference table) and the
    address table has no column named like a circuit or date field, the
    output holds a record under a section, a date and a key exactly when
    the input record under that key is sent on that date and the decision
    table sends it to that section's leaf; what is held is the input record
    with its [cvlan] and address added. *)
Theorem process_sections (pon_dict : dict Record_) (config : Config)
    (lookup_df address_df : DataFrame) :
  dict_wf pon_dict →
  Forall (λ kv, has_circuit_fields kv.2) pon_dict →
  str_column lookup_df "Tower Name" →
  (∀ f, f ∈ sort_fields → f ∉ df_columns address_df) →
  ∃ grouped, process pon_dict config lookup_df address_df = Ok grouped ∧
    ∀ section date key,
      in_grouped section date key grouped =
      match dget key pon_dict with
      | Some value =>
          if decide (section = section_name (leaf_of lookup_df key value) ∧
                     sent_on date value)
          then Some (add_address_item address_df key
                       (with_cvlan lookup_df (tmo_columns_mapping config) value))
          else None
      | None => None
      end.
Proof. apply process_spec. Qed.

(** * Further properties of the enrichment on the object store *)

(** X11.  On a store where the collection is a dictionary of records and
    no two keys share a record, the in-place code on a deep copy computes
    what the functions on values compute: [add_cvlan_data] returns a new
    collection with the same value and the same list, or raises the same
    exception, and [add_address_data] returns a new collection with the
    same value. *)
Theorem enrichment_store_agrees (h : heap) (x : loc) (items : dict loc)
    (pon_dict : dict Record_) (config : Config)
    (lookup_df address_df : DataFrame) :
  h !! x = Some (OColl items) → dict_wf items → NoDup items.*2 →
  read_back h items = Some pon_dict →
  match add_cvlan_data pon_dict config lookup_df with
  | Ok (out, susp) =>
      ∃ h' y items',
        add_cvlan_data_heap x config lookup_df h = (h', Ok (y, susp)) ∧
        h' !! y = Some (OColl items') ∧ read_back h' items' = Some out
  | Raise e =>
      ∃ h', add_cvlan_data_heap x config lookup_df h = (h', Raise e)
  end ∧
  ∃ h' y items',
    add_address_data_heap x address_df h = (h', Ok y) ∧
    h' !! y = Some (OColl items') ∧
    read_back h' items' = Some (add_address_data pon_dict address_df).
Proof. apply enrichment_heap_value. Qed.

(** * Properties of the field extractor *)

(** ** Substrings and lines *)

Lemma str_app_cons x (a b : string) : String x a +:+ b = String x (a +:+ b).
Proof. reflexivity. Qed.

Lemma str_app_nil_l (a : string) : EmptyString +:+ a = a.
Proof. reflexivity. Qed.

Lemma str_app_assoc (a b c : string) : (a +:+ b) +:+ c = a +:+ (b +:+ c).
Proof.
  induction a as [|x a IH]; [done|]. by rewrite !str_app_cons, IH.
Qed.

Lemma str_app_nil_r (a : string) : a +:+ EmptyString = a.
Proof. induction a as [|x a IH]; [done|]. by rewrite str_app_cons, IH. Qed.

Lemma prefix_app p s : String.prefix p s = true ↔ ∃ b, s = p +:+ b.
Proof.
  revert s. induction p as [|x p IH]; intros s.
  - destruct s; simpl; (split; [intros _; by eexists|done]).
  - destruct s as [|y s]; simpl.
    + split; [done|]. intros [b Hb]. by rewrite str_app_cons in Hb.
    + destruct (ascii_dec x y) as [->|Hxy].
      * rewrite IH. split; intros [b Hb]; exists b;
          rewrite str_app_cons in *; congruence.
      * split; [done|]. intros [b Hb]. rewrite str_app_cons in Hb. congruence.
Qed.

Lemma py_in_nil p : py_in p EmptyString = String.prefix p EmptyString.
Proof. unfold py_in. apply orb_false_r. Qed.

Lemma py_in_cons p x s :
  py_in p (String x s) = String.prefix p (String x s) || py_in p s.
Proof. reflexivity. Qed.

Lemma py_in_spec p s : py_in p s ↔ ∃ a b, s = a +:+ p +:+ b.
Proof.
  induction s as [|x s IH].
  - rewrite py_in_nil, Is_true_true, prefix_app. split.
    + intros [b Hb]. by exists EmptyString, b.
    + intros (a & b & Hab). destruct a as [|y a]; [by exists b|].
      by rewrite str_app_cons in Hab.
  - rewrite py_in_cons, orb_True, Is_true_true, prefix_app, IH. split.
    + intros [[b Hb]|(a & b & ->)].
      * by exists EmptyString, b.
      * by exists (String x a), b.
    + intros (a & b & Hab). destruct a as [|y a].
      * left. by exists b.
      * right. exists a, b. rewrite str_app_cons in Hab. congruence.
Qed.

Lemma py_split_head c s line lines :
  py_split c s = line :: lines → ∃ b, s = line +:+ b.
Proof.
  revert line lines. induction s as [|x s IH]; intros line lines; simpl.
  - intros [= <- <-]. by exists EmptyString.
  - case_decide.
    + intros [= <- <-]. by eexists.
    + destruct (py_split c s) as [|l ls].
      * intros [= <- <-]. by exists s.
      * intros [= <- <-]. destruct (IH l ls eq_refl) as [b ->]. by exists b.
Qed.

Lemma py_split_substring c s line :
  line ∈ py_split c s → ∃ a b, s = a +:+ line +:+ b.
Proof.
  revert line. induction s as [|x s IH]; intros line; simpl.
  - intros ->%list_elem_of_singleton. by exists EmptyString, EmptyString.
  - case_decide.
    + intros [->|Hin]%elem_of_cons.
      * by exists EmptyString, (String x s).
      * destruct (IH line Hin) as (a & b & ->). by exists (String x a), b.
    + destruct (py_split c s) as [|l ls] eqn:Hs.
      * intros ->%list_elem_of_singleton. by exists EmptyString, s.
      * intros [->|Hin]%elem_of_cons.
        -- destruct (py_split_head c s l ls Hs) as [b ->]. by exists EmptyString, b.
        -- destruct (IH line) as (a & b & ->); [by right|].
           by exists (String x a), b.
Qed.

(** A header that occurs in a line of the text occurs in the text. *)
Lemma py_in_split c header s line :
  line ∈ py_split c s → py_in header line → py_in header s.
Proof.
  intros (a & b & ->)%py_split_substring (a' & b' & ->)%py_in_spec.
  apply py_in_spec. exists (a +:+ a'), (b' +:+ b).
  by rewrite !str_app_assoc.
Qed.

Lemma py_split_no_newline c s :
  (∀ a, a ∈ list_ascii_of_string s → a ≠ c) → py_split c s = [s].
Proof.
  induction s as [|x s IH]; simpl; [done|]. intros Hs.
  rewrite decide_False by (apply Hs; left).
  rewrite IH; [done|]. intros a Ha. apply Hs. by right.
Qed.

(** ** The search under a header *)

Section extractor_facts.
Variable re_search : string → string → option string.

Local Abbreviation search_lines' := (search_lines re_search).
Local Abbreviation search_header' := (search_header re_search).

Lemma search_lines_cons2 header pattern line next rest :
  search_lines' header pattern (line :: next :: rest) =
  if py_in header line then
    match re_search pattern next with
    | Some m => Some m
    | None => search_lines' header pattern (next :: rest)
    end
  else search_lines' header pattern (next :: rest).
Proof. reflexivity. Qed.

Lemma match_at_0 header pattern line next rest m :
  match_at re_search header pattern (line :: next :: rest) 0 m ↔
  py_in header line ∧ re_search pattern next = Some m.
Proof.
  unfold match_at. simpl. split.
  - by intros (? & ? & [= <-] & [= <-] & ? & ?).
  - intros [? ?]. by exists line, next.
Qed.

Lemma match_at_S header pattern line lines i m :
  match_at re_search header pattern (line :: lines) (S i) m ↔
  match_at re_search header pattern lines i m.
Proof. reflexivity. Qed.

Lemma match_at_short header pattern lines i m :
  length lines < 2 → ¬ match_at re_search header pattern lines i m.
Proof.
  intros Hlen (line & next & _ & Hnext%lookup_lt_Some & _). lia.
Qed.

(** The loop returns the match at the first index that has one. *)
Lemma search_lines_spec header pattern lines :
  match search_lines' header pattern lines with
  | Some m =>
      ∃ i, match_at re_search header pattern lines i m ∧
           ∀ j m', j < i → ¬ match_at re_search header pattern lines j m'
  | None => ∀ i m, ¬ match_at re_search header pattern lines i m
  end.
Proof.
  induction lines as [|line rest IH].
  { intros i m. apply match_at_short. simpl. lia. }
  destruct rest as [|next rest].
  { intros i m. apply match_at_short. simpl. lia. }
  rewrite search_lines_cons2.
  assert (Hrec :
    (¬ py_in header line ∨ re_search pattern next = None) →
    match search_lines' header pattern (next :: rest) with
    | Some m =>
        ∃ i, match_at re_search header pattern (line :: next :: rest) i m ∧
             ∀ j m', j < i →
                     ¬ match_at re_search header pattern (line :: next :: rest) j m'
    | None => ∀ i m, ¬ match_at re_search header pattern (line :: next :: rest) i m
    end).
  { intros Hno. assert (H0 : ∀ m, ¬ match_at re_search header pattern
                                      (line :: next :: rest) 0 m).
    { intros m [Hh Hm]%match_at_0. destruct Hno as [Hno|Hno]; [done|congruence]. }
    destruct (search_lines' header pattern (next :: rest)) as [m|].
    - destruct IH as (i & Hi & Hmin). exists (S i). split; [done|].
      intros [|j] m' Hj; [apply H0|]. rewrite match_at_S. apply Hmin. lia.
    - intros [|i] m; [apply H0|]. rewrite match_at_S. apply IH. }
  destruct (py_in header line) eqn:Hh; [|apply Hrec; left; by intros []].
  destruct (re_search pattern next) as [m|] eqn:Hm; [|apply Hrec; by right].
  exists 0. split; [|intros j m' Hj; lia].
  apply match_at_0. by rewrite Hh.
Qed.

Lemma match_at_header header pattern text i m :
  match_at re_search header pattern (py_split newline text) i m →
  py_in header text.
Proof.
  intros (line & next & Hline & _ & Hh & _).
  eapply py_in_split; [|exact Hh]. by eapply list_elem_of_lookup_2.
Qed.

Lemma search_header_spec text header pattern :
  match search_header' text header pattern with
  | Some m =>
      ∃ i, match_at re_search header pattern (py_split newline text) i m ∧
           ∀ j m', j < i →
                   ¬ match_at re_search header pattern (py_split newline text) j m'
  | None =>
      ∀ i m, ¬ match_at re_search header pattern (py_split newline text) i m
  end.
Proof.
  unfold search_header. destruct (py_in header text) eqn:Hin.
  - apply search_lines_spec.
  - intros i m Hat%match_at_header. by rewrite Hin in Hat.
Qed.

Lemma match_at_inj header pattern lines i m m' :
  match_at re_search header pattern lines i m →
  match_at re_search header pattern lines i m' → m = m'.
Proof.
  intros (l & n & Hl & Hn & _ & Hm) (l' & n' & Hl' & Hn' & _ & Hm'). congruence.
Qed.

Lemma search_header_first text header pattern i m :
  match_at re_search header pattern (py_split newline text) i m →
  (∀ j m', j < i →
           ¬ match_at re_search header pattern (py_split newline text) j m') →
  search_header' text header pattern = Some m.
Proof.
  intros Hi Hmin. pose proof (search_header_spec text header pattern) as Hs.
  destruct (search_header' text header pattern) as [m'|]; [|by destruct (Hs i m)].
  destruct Hs as (i' & Hi' & Hmin'). f_equal.
  destruct (lt_eq_lt_dec i i') as [[Hlt| ->]|Hlt].
  - by destruct (Hmin' i m Hlt).
  - by eapply match_at_inj.
  - by destruct (Hmin i' m' Hlt).
Qed.

(** X12.  [search_header] looks for the header line by line and returns
    the match of the pattern on the line after the first header line that
    has one there; it returns nothing exactly when no header line is
    followed by a line with a match.  The test [header in text] before the
    loop changes nothing. *)
Theorem search_header_first_match (text header pattern : string) :
  search_header' text header pattern =
    search_lines' header pattern (py_split newline text) ∧
  match search_header' text header pattern with
  | Some m =>
      ∃ i, match_at re_search header pattern (py_split newline text) i m ∧
           ∀ j m', j < i →
                   ¬ match_at re_search header pattern (py_split newline text) j m'
  | None =>
      ∀ i m, ¬ match_at re_search header pattern (py_split newline text) i m
  end.
Proof.
  split; [|apply search_header_spec].
  unfold search_header. destruct (py_in header text) eqn:Hin; [done|].
  pose proof (search_lines_spec header pattern (py_split newline text)) as Hs.
  destruct (search_lines' header pattern (py_split newline text)) as [m|];
    [|done].
  destruct Hs as (i & Hat%match_at_header & _). by rewrite Hin in Hat.
Qed.

(** ** The circuit token *)

Section parse_circuit_info.
Variable config : Config.
Variable headers : TargetHeaders.

Local Abbreviation _parse_circuit_info' :=
  (_parse_circuit_info re_search config headers).

Lemma parse_circuit_info_cases text :
  _parse_circuit_info' text =
    search_header' text (evc_target_header headers) (evc_pattern config) ∨
  _parse_circuit_info' text =
    search_header' text (uni_target_header headers) (uni_pattern config).
Proof.
  unfold _parse_circuit_info.
  destruct (truthy (of_str (search_header' _ _ _))); [by left|by right].
Qed.

Lemma search_header_one_line text header pattern :
  length (py_split newline text) < 2 →
  search_header' text header pattern = None.
Proof.
  intros Hlen. pose proof (search_header_spec text header pattern) as Hs.
  destruct (search_header' text header pattern) as [m|]; [|done].
  destruct Hs as (i & Hi & _). by apply match_at_short in Hi.
Qed.

Lemma parse_circuit_info_one_line text :
  length (py_split newline text) < 2 → _parse_circuit_info' text = None.
Proof.
  intros Hlen.
  destruct (parse_circuit_info_cases text) as [-> | ->];
    by apply search_header_one_line.
Qed.

(** X13.  A circuit token is only ever taken from the line after a header
    line: what [_parse_circuit_info] returns is a match of the EVC pattern
    on the line after a line with the EVC header, or a match of the UNI
    pattern on the line after a line with the UNI header.  A text with
    neither header, and a text of one line, give [None]. *)
Theorem parse_circuit_info_source (text : string) :
  (∀ m, _parse_circuit_info' text = Some m →
        ∃ i,
          match_at re_search (evc_target_header headers) (evc_pattern config)
            (py_split newline text) i m ∨
          match_at re_search (uni_target_header headers) (uni_pattern config)
            (py_split newline text) i m) ∧
  (¬ py_in (evc_target_header headers) text →
   ¬ py_in (uni_target_header headers) text →
   _parse_circuit_info' text = None) ∧
  ((∀ a, a ∈ list_ascii_of_string text → a ≠ newline) →
   _parse_circuit_info' text = None).
Proof.
  split_and!.
  - intros m Hm.
    pose proof (search_header_spec text (evc_target_header headers)
                  (evc_pattern config)) as He.
    pose proof (search_header_spec text (uni_target_header headers)
                  (uni_pattern config)) as Hu.
    destruct (parse_circuit_info_cases text) as [Heq|Heq];
      rewrite Heq in Hm; rewrite Hm in *.
    + destruct He as (i & Hi & _). exists i. by left.
    + destruct Hu as (i & Hi & _). exists i. by right.
  - intros He Hu. unfold _parse_circuit_info, search_header.
    destruct (py_in (evc_target_header headers) text); [by destruct He|].
    destruct (py_in (uni_target_header headers) text); [by destruct Hu|].
    done.
  - intros Hnl. apply parse_circuit_info_one_line.
    rewrite py_split_no_newline by done. simpl. lia.
Qed.

(** X14.  The EVC header has priority: when a line with the EVC header is
    followed by a line with a non-empty match of the EVC pattern, the first
    such match is the token, wherever the UNI header stands in the text. *)
Theorem parse_circuit_info_evc_first (text : string) (i : nat) (m : string) :
  match_at re_search (evc_target_header headers) (evc_pattern config)
    (py_split newline text) i m →
  (∀ j m', j < i →
     ¬ match_at re_search (evc_target_header headers) (evc_pattern config)
         (py_split newline text) j m') →
  m ≠ EmptyString →
  _parse_circuit_info' text = Some m.
Proof.
  intros Hi Hmin Hm. unfold _parse_circuit_info.
  rewrite (search_header_first _ _ _ i m Hi Hmin). simpl.
  by rewrite bool_decide_eq_false_2.
Qed.

End parse_circuit_info.
End extractor_facts.

(** ** The text of a document *)

Section extract_pdf_text.
Variable pdf_pages : path → result (list (result (option string))).

Local Abbreviation _extract_pdf_text' := (_extract_pdf_text pdf_pages).

Lemma read_pages_texts texts text :
  read_pages ((λ t, Ok (Some t)) <$> texts) text =
  Ok (text +:+ foldr (λ t acc, t +:+ nl +:+ acc) EmptyString texts).
Proof.
  revert text. induction texts as [|t texts IH]; intros text; simpl.
  - by rewrite str_app_nil_r.
  - rewrite IH. by rewrite !str_app_assoc.
Qed.

Lemma read_pages_bad pages text :
  Exists (λ page, ∀ t, page ≠ Ok (Some t)) pages →
  ∃ e, read_pages pages text = Raise e.
Proof.
  intros Hbad. revert text.
  induction Hbad as [page pages Hpage|page pages _ IH]; intros text; simpl.
  - destruct page as [[t|]|e]; simpl; [by destruct (Hpage t)|by eexists..].
  - destruct page as [[t|]|e]; simpl; [apply IH|by eexists..].
Qed.

(** X15.  [_extract_pdf_text] gives all of a document or nothing: the
    texts of the pages, in order, each followed by a line feed, when every
    page yields a string; the empty string when the document cannot be
    opened, and also when a single page raises or yields [None], whatever
    the pages before it held. *)
Theorem extract_pdf_text_all_or_nothing (pdf_path : path) :
  (∀ texts, pdf_pages pdf_path = Ok ((λ t, Ok (Some t)) <$> texts) →
     _extract_pdf_text' pdf_path =
     foldr (λ t acc, t +:+ nl +:+ acc) EmptyString texts) ∧
  (∀ pages, pdf_pages pdf_path = Ok pages →
     Exists (λ page, ∀ t, page ≠ Ok (Some t)) pages →
     _extract_pdf_text' pdf_path = EmptyString) ∧
  (∀ e, pdf_pages pdf_path = Raise e →
     _extract_pdf_text' pdf_path = EmptyString).
Proof.
  unfold _extract_pdf_text. split_and!.
  - intros texts ->. simpl. by rewrite read_pages_texts.
  - intros pages -> Hbad. simpl.
    by destruct (read_pages_bad pages EmptyString Hbad) as [e ->].
  - by intros e ->.
Qed.

End extract_pdf_text.

(** * The builder on the field extractor *)

Section builder_on_extractor.
Variable pdf_pages : path → result (list (result (option string))).
Variable re_search : string → string → option string.
Variable _parse_date_info : string → option string.
Variable _parse_contact_info : string → ContactInfo.
Variable config : Config.
Variable headers : TargetHeaders.

(** The loop of the builder with the extractor of the source in the place
    of its parameters *)
Local Abbreviation pon_loop' :=
  (pon_loop (_extract_pdf_text pdf_pages) _parse_date_info _parse_contact_info
     (_parse_circuit_info re_search config headers) config).

Lemma parse_circuit_info_empty :
  _parse_circuit_info re_search config headers EmptyString = None.
Proof. apply parse_circuit_info_one_line. simpl. lia. Qed.

Lemma pon_loop_cut process_dir items1 items2 item dict_pon log :
  _parse_circuit_info re_search config headers
    (_extract_pdf_text pdf_pages (path_join process_dir item)) = None →
  pon_loop' process_dir (items1 ++ item :: items2) dict_pon log =
    pon_loop' process_dir (items1 ++ [item]) dict_pon log ∧
  is_Some (pon_loop' process_dir (items1 ++ item :: items2) dict_pon log).2.
Proof.
  intros Hnone. revert dict_pon log.
  induction items1 as [|item1 items1 IH]; intros dict_pon log; simpl.
  - rewrite Hnone. simpl. by split.
  - destruct (set_circuit config _ _ log) as [[d' log']|e]; simpl; [apply IH|].
    by split.
Qed.

(** X16.  A document that gives no text (it cannot be opened, a page of it
    fails, or it has no page) ends the loop of the builder: the documents
    after it in the directory are never read, and the loop ends with an
    exception. *)
Theorem unreadable_document_ends_order (process_dir : path)
    (items1 items2 : list string) (item : string)
    (dict_pon : Record_) (log : list log_event) :
  _extract_pdf_text pdf_pages (path_join process_dir item) = EmptyString →
  pon_loop' process_dir (items1 ++ item :: items2) dict_pon log =
    pon_loop' process_dir (items1 ++ [item]) dict_pon log ∧
  is_Some (pon_loop' process_dir (items1 ++ item :: items2) dict_pon log).2.
Proof.
  intros Htext. apply pon_loop_cut. rewrite Htext.
  apply parse_circuit_info_empty.
Qed.

End builder_on_extractor.

(** * Further properties of the record builder *)

Section record_fields.
Variable _extract_pdf_text : path → string.
Variable _parse_date_info : string → option string.
Variable _parse_contact_info : string → ContactInfo.
Variable _parse_circuit_info : string → option string.
Variable config : Config.

(** The fields of a record under construction: those it was created
    with, and [date_sent] after them once a document had a date. *)
Local Abbreviation built d :=
  (dkeys d = new_fields ∨ dkeys d = new_fields ++ ["date_sent"]).

Lemma built_dset_old k v (d : Record_) :
  k ∈ new_fields → built d → built (dset k v d).
Proof.
  intros Hk [Hd|Hd]; [left|right]; rewrite dkeys_dset_in; try done;
    rewrite Hd; set_solver.
Qed.

Lemma built_dset_date v (d : Record_) : built d → built (dset "date_sent" v d).
Proof.
  intros [Hd|Hd]; right.
  - rewrite dkeys_dset_notin, Hd; [done|]. rewrite Hd.
    apply (bool_decide_unpack _). vm_compute. exact I.
  - rewrite dkeys_dset_in; [done|]. rewrite Hd. set_solver.
Qed.

Lemma built_set_date_contact text d :
  built d → built (set_date_contact _parse_date_info _parse_contact_info text d).
Proof.
  intros Hd. unfold set_date_contact.
  repeat match goal with
         | |- context [if ?b then _ else _] => destruct b
         end;
    repeat first [done
                 | apply built_dset_old; [set_solver|]
                 | apply built_dset_date].
Qed.

Lemma built_set_circuit cir d log d' log' :
  set_circuit config cir d log = Ok (d', log') → built d → built d'.
Proof.
  unfold set_circuit, getitem. destruct cir as [c|]; simpl; [|done].
  destruct (py_in (evc_uniq_keys config) c); simpl.
  - destruct (dget "evc1" d) as [[?|]|]; simpl; [| |done];
      intros [= <- <-] Hd; (apply built_dset_old; [set_solver|done]).
  - rewrite any_in_cir_Some. simpl. destruct (existsb _ _);
      intros [= <- <-] Hd; [|done]. apply built_dset_old; [set_solver|done].
Qed.

Lemma built_pon_loop process_dir items d log :
  built d →
  built (pon_loop _extract_pdf_text _parse_date_info _parse_contact_info
           _parse_circuit_info config process_dir items d log).1.1.
Proof.
  revert d log. induction items as [|item items IH]; intros d log Hd; simpl;
    [done|].
  destruct (set_circuit config _ _ log) as [[d' log']|e] eqn:Hset; simpl.
  - apply IH. eapply built_set_circuit; [exact Hset|].
    by apply built_set_date_contact.
  - by apply built_set_date_contact.
Qed.

Lemma built_circuit_fields (d : Record_) : built d → has_circuit_fields d.
Proof.
  intros Hd. unfold has_circuit_fields.
  assert (Hin : ∀ k, k ∈ new_fields → is_Some (dget k d)).
  { intros k Hk. destruct (dget k d) eqn:Hget; [by eexists|].
    apply dget_None in Hget. destruct Hget.
    destruct Hd as [-> | ->]; set_solver. }
  split_and!; apply Hin; set_solver.
Qed.

Section staging_fields.
Variable listdir : path → result (list string).

Local Abbreviation _create_pon_dict' :=
  (_create_pon_dict listdir _extract_pdf_text _parse_date_info
     _parse_contact_info _parse_circuit_info config).
Local Abbreviation create_full_dict' :=
  (create_full_dict listdir _extract_pdf_text _parse_date_info
     _parse_contact_info _parse_circuit_info config).

Lemma create_pon_dict_built process_dir :
  ∃ dict_pon,
    _create_pon_dict' process_dir = [(basename process_dir, dict_pon)] ∧
    built dict_pon.
Proof.
  unfold _create_pon_dict, _create_pon_dict_log.
  destruct (listdir process_dir) as [items|e]; simpl.
  - pose proof (built_pon_loop process_dir items
                  (new_pon (basename process_dir)) [] ltac:(by left)) as Hb.
    destruct (pon_loop _ _ _ _ _ _ _ _ _) as [[dict_pon' log] [e|]];
      simpl in *; by eexists.
  - eexists. split; [done|]. by left.
Qed.

(** X17.  Whatever the documents of an order hold, and also when the
    directory cannot be listed or the loop ends with an exception,
    [_create_pon_dict] returns one record, under the name of the directory,
    with the seven fields it was created with, in that order, and at most
    one more field, [date_sent], after them. *)
Theorem create_pon_dict_fields (process_dir : path) :
  ∃ dict_pon,
    _create_pon_dict' process_dir = [(basename process_dir, dict_pon)] ∧
    (dkeys dict_pon =
       ["evc1"; "evc2"; "uni"; "tower_name";
        "contact_name"; "contact_phone"; "contact_email"] ∨
     dkeys dict_pon =
       ["evc1"; "evc2"; "uni"; "tower_name";
        "contact_name"; "contact_phone"; "contact_email"; "date_sent"]).
Proof. apply create_pon_dict_built. Qed.

Lemma basename_path_join p item : basename (path_join p item) = item.
Proof. unfold basename, path_join. by rewrite last_snoc. Qed.

Lemma Forall_dset {V} (P : V → Prop) k v (d : dict V) :
  P v → Forall (λ kv, P kv.2) d → Forall (λ kv, P kv.2) (dset k v d).
Proof.
  intros Hv. induction 1 as [|[k' v'] d Hkv Hd IH]; simpl.
  - by apply Forall_singleton.
  - case_decide; apply Forall_cons_2; done.
Qed.

Lemma built_no_site_name (d : Record_) : built d → dget "Site Name" d = None.
Proof.
  intros Hd. apply dget_None. destruct Hd as [-> | ->];
    apply (bool_decide_unpack _); vm_compute; exact I.
Qed.

Lemma create_full_dict_fold (P : Record_ → Prop) process_dir items :
  (∀ d : Record_, built d → P d) →
  ∀ full_dict,
    dict_wf full_dict →
    Forall (λ kv, P kv.2) full_dict →
    let full_dict' :=
      fold_left (λ full_dict item,
          dupdate (_create_pon_dict' (path_join process_dir item)) full_dict)
        items full_dict in
    dict_wf full_dict' ∧
    Forall (λ kv, P kv.2) full_dict' ∧
    ∀ key, key ∈ dkeys full_dict' ↔ key ∈ items ∨ key ∈ dkeys full_dict.
Proof.
  intros HP. induction items as [|item items IH]; intros full_dict Hwf Hall;
    simpl.
  { split_and!; [done..|]. intros key. set_solver. }
  destruct (create_pon_dict_built (path_join process_dir item))
    as (dict_pon & -> & Hb).
  rewrite basename_path_join. unfold dupdate at 2. simpl.
  destruct (IH (dset item dict_pon full_dict)) as (Hwf' & Hall' & Hkeys).
  { by apply dict_wf_dset. }
  { apply (Forall_dset P); [by apply HP|done]. }
  split_and!; [done..|]. intros key. rewrite Hkeys, elem_dkeys_dset.
  set_solver.
Qed.

Lemma create_full_dict_built process_dir full_dict :
  create_full_dict' process_dir [] = Ok full_dict →
  Forall (λ kv, has_circuit_fields kv.2 ∧ dget "Site Name" kv.2 = None)
    full_dict.
Proof.
  unfold create_full_dict.
  destruct (listdir process_dir) as [items|e]; simpl; [|done]. intros [= <-].
  apply (create_full_dict_fold
           (λ d, has_circuit_fields d ∧ dget "Site Name" d = None)
           process_dir items); [|apply dict_wf_nil|apply Forall_nil_2].
  intros d Hd. split; [by apply built_circuit_fields|by apply built_no_site_name].
Qed.

End staging_fields.
End record_fields.

Lemma process_total pon_dict config lookup_df address_df :
  Forall (λ kv, has_circuit_fields kv.2) pon_dict →
  str_column lookup_df "Tower Name" →
  ∃ grouped, process pon_dict config lookup_df address_df = Ok grouped.
Proof.
  intros Hall Hcol. unfold process, add_cvlan_data.
  destruct (add_cvlan_loop_total lookup_df (tmo_columns_mapping config)
              pon_dict [] [] Hall) as (out & susp & ->).
  simpl. unfold sort_by_type.
  destruct (sort_loop_total lookup_df (add_address_data out address_df)
              empty_sorted Hcol) as [sorted ->].
  simpl. by eexists.
Qed.

(** X18.  What [main] passes from the builder to the processor: the
    collection [create_full_dict] builds on an empty [full_dict] has one
    record for each entry of the staging directory, under distinct keys,
    and every record has the fields the enrichment reads.  So
    [add_cvlan_data] does not raise on it, and [process] returns whenever
    the reference table has a column Tower Name that is a column of
    strings. *)
Theorem create_full_dict_process
    (listdir : path → result (list string)) (_extract_pdf_text : path → string)
    (_parse_date_info : string → option string)
    (_parse_contact_info : string → ContactInfo)
    (_parse_circuit_info : string → option string) (config : Config)
    (process_dir : path) (items : list string) :
  listdir process_dir = Ok items →
  ∃ full_dict,
    create_full_dict listdir _extract_pdf_text _parse_date_info
      _parse_contact_info _parse_circuit_info config process_dir [] = Ok full_dict ∧
    dict_wf full_dict ∧
    (∀ key, key ∈ dkeys full_dict ↔ key ∈ items) ∧
    Forall (λ kv, has_circuit_fields kv.2) full_dict ∧
    (∀ lookup_df,
       ∃ out susp, add_cvlan_data full_dict config lookup_df = Ok (out, susp)) ∧
    (∀ lookup_df address_df,
       str_column lookup_df "Tower Name" →
       ∃ grouped, process full_dict config lookup_df address_df = Ok grouped).
Proof.
  intros Hdir. unfold create_full_dict. rewrite Hdir. simpl.
  eexists. split; [done|].
  destruct (create_full_dict_fold _extract_pdf_text _parse_date_info
              _parse_contact_info _parse_circuit_info config listdir
              has_circuit_fields process_dir items
              (built_circuit_fields _parse_date_info _parse_contact_info
                 _parse_circuit_info) [] dict_wf_nil (Forall_nil_2 _))
    as (Hwf & Hall & Hkeys).
  split_and!; [done| |done| |].
  - intros key. rewrite Hkeys. set_solver.
  - intros lookup_df.
    by apply (add_cvlan_loop_total lookup_df (tmo_columns_mapping config)).
  - intros lookup_df address_df Hcol. by apply process_total.
Qed.

(** X19.  No record that reaches [add_address_data] in [main] has a field
    named Site Name: the records [create_full_dict] builds have none, and
    [add_cvlan_data] adds none. *)
Theorem enriched_records_no_site_name
    (listdir : path → result (list string)) (_extract_pdf_text : path → string)
    (_parse_date_info : string → option string)
    (_parse_contact_info : string → ContactInfo)
    (_parse_circuit_info : string → option string) (config : Config)
    (process_dir : path) (full_dict : dict Record_) (lookup_df : DataFrame)
    (out : dict Record_) (susp : list pyval) :
  create_full_dict listdir _extract_pdf_text _parse_date_info
    _parse_contact_info _parse_circuit_info config process_dir [] = Ok full_dict →
  add_cvlan_data full_dict config lookup_df = Ok (out, susp) →
  Forall (λ kv, dget "Site Name" kv.2 = None) full_dict ∧
  Forall (λ kv, dget "Site Name" kv.2 = None) out.
Proof.
  intros Hfull%create_full_dict_built ->%add_cvlan_data_Ok.
  assert (Hno : Forall (λ kv : string * Record_, dget "Site Name" kv.2 = None)
                  full_dict).
  { eapply Forall_impl; [exact Hfull|]. by intros kv [_ ?]. }
  split; [exact Hno|]. apply Forall_fmap.
  eapply Forall_impl; [exact Hno|]. intros [key value] Hv. simpl in *.
  by rewrite dget_with_cvlan.
Qed.

(** * The further properties on the worked staging area *)

Lemma sort_by_type_partition_witness :
  dict_wf ex_pon_dict ∧ str_column ex_lookup_df "Tower Name" ∧
  ∃ sorted_dict, sort_by_type ex_pon_dict ex_lookup_df = Ok sorted_dict ∧
    dkeys (get_bucket NoType sorted_dict) = ["PON_1234"; "PON_1"] ∧
    length (vlan (pdisc sorted_dict)) + length (unievc (pdisc sorted_dict)) +
    length (fdisc sorted_dict) + length (no_type sorted_dict) = 3.
Proof.
  split; [exact ex_pon_dict_wf|]. split; [exact ex_lookup_df_tower|].
  destruct (sort_by_type_partition ex_pon_dict ex_lookup_df ex_pon_dict_wf
              ex_lookup_df_tower) as (sorted & Hs & Hb & Hlen).
  exists sorted. split; [exact Hs|]. split; [|exact Hlen].
  rewrite Hb. vm_compute. reflexivity.
Defined.

(** The tag of a column of integers is an integer. *)
Lemma get_cvlan_single_match_witness :
  query_ok ex_lookup_df (tmo_columns_mapping ex_config)
    (Str "PON_1234") (Str "1.EVCTAG.X.") ∧
  _get_cvlan ex_lookup_df (tmo_columns_mapping ex_config) (Str "PON_1234")
    (Str "1.EVCTAG.X.") "evc1" [] = (Int 10, []).
Proof.
  split; [exact (ex_query_ok _ _)|].
  rewrite (get_cvlan_single_match ex_lookup_df (tmo_columns_mapping ex_config)
             (Str "PON_1234") (Str "1.EVCTAG.X.") "evc1" [] (ex_query_ok _ _)).
  vm_compute. reflexivity.
Defined.

(** Without the tower column every tower is listed twice; and also with a
    tower column of integers, which the towers, strings, cannot be compared
    with. *)
Lemma add_cvlan_data_suspicious_witness :
  ¬ query_columns ex_lookup_df_no_tower (tmo_columns_mapping ex_config) ∧
  (∃ out susp,
     add_cvlan_data ex_pon_dict ex_config ex_lookup_df_no_tower = Ok (out, susp) ∧
     susp = [Str "PON_1234"; Str "PON_1234"; Str "PON_1"; Str "PON_1";
             Str "T1"; Str "T1"]) ∧
  query_columns ex_lookup_df_int_tower (tmo_columns_mapping ex_config) ∧
  ∃ out susp,
    add_cvlan_data ex_pon_dict ex_config ex_lookup_df_int_tower = Ok (out, susp) ∧
    susp = [Str "PON_1234"; Str "PON_1234"; Str "PON_1"; Str "PON_1";
            Str "T1"; Str "T1"].
Proof.
  assert (Hno : ¬ query_columns ex_lookup_df_no_tower
                    (tmo_columns_mapping ex_config)).
  { apply (bool_decide_unpack _). vm_compute. exact I. }
  split; [exact Hno|]. split_and!.
  - destruct (add_cvlan_data ex_pon_dict ex_config ex_lookup_df_no_tower)
      as [[out susp]|e] eqn:H.
    + exists out, susp. split; [reflexivity|].
      rewrite (proj2 (proj2 (add_cvlan_data_suspicious _ _ _ _ _ H)) Hno).
      vm_compute. reflexivity.
    + vm_compute in H. discriminate H.
  - apply (bool_decide_unpack _). vm_compute. exact I.
  - destruct (add_cvlan_data ex_pon_dict ex_config ex_lookup_df_int_tower)
      as [[out susp]|e] eqn:H.
    + exists out, susp. split; [reflexivity|].
      rewrite (proj1 (add_cvlan_data_suspicious _ _ _ _ _ H)).
      vm_compute. reflexivity.
    + vm_compute in H. discriminate H.
Defined.

Lemma add_cvlan_data_frame_witness :
  ∃ out susp,
    add_cvlan_data ex_pon_dict ex_config ex_lookup_df = Ok (out, susp) ∧
    dkeys out = dkeys ex_pon_dict.
Proof.
  destruct (add_cvlan_data ex_pon_dict ex_config ex_lookup_df)
    as [[out susp]|e] eqn:H.
  - exists out, susp. split; [reflexivity|].
    exact (proj1 (add_cvlan_data_frame _ _ _ _ _ H)).
  - vm_compute in H. discriminate H.
Defined.

(** The tags 10 and 20 give 10/20; the tag 0 beside the tag 7 leaves 7. *)
Lemma combine_cvlan_separator_witness :
  combine_cvlan (Int 10) (Int 20) = "10/20" ∧
  combine_cvlan (Int 7) (Int 0) = "7" ∧
  combine_cvlan (Int 0) (Int 7) = "7" ∧
  combine_cvlan (Str "10") None = "10".
Proof.
  assert (Hclean : ∀ s, s = "10" ∨ s = "20" ∨ s = "7" → clean_tag s).
  { intros s [-> | [-> | ->]]; split_and!; vm_compute; discriminate. }
  destruct (combine_cvlan_separator None None (AInt 10) (AInt 20))
    as (_ & _ & Hab & _).
  destruct (combine_cvlan_separator None (Int 0) (AInt 7) (AInt 7))
    as (_ & _ & _ & H7).
  destruct (combine_cvlan_separator None None (AStr "10") (AStr "10"))
    as (_ & _ & _ & H10).
  split_and!.
  - apply (Hab I I); apply Hclean; vm_compute; auto.
  - apply (H7 I); [apply Hclean; vm_compute; auto|reflexivity].
  - apply (H7 I); [apply Hclean; vm_compute; auto|reflexivity].
  - apply (H10 I); [apply Hclean; vm_compute; auto|reflexivity].
Defined.

Lemma add_address_item_first_row_witness :
  dict_wf ex_record ∧ str_column ex_address_df "Site Name" ∧
  address_row ex_address_df "PON_1234"
  = Some [Str "PON_1234"; Str "Springfield"; Int 62701] ∧
  dget "City" (add_address_item ex_address_df "PON_1234" ex_record)
  = Some (Str "Springfield") ∧
  dget "Zip" (add_address_item ex_address_df "PON_1234" ex_record)
  = Some (Int 62701) ∧
  dget "Site Name" (add_address_item ex_address_df "PON_1234" ex_record) = None.
Proof.
  assert (Hwf : dict_wf ex_record).
  { unfold dict_wf. apply (bool_decide_unpack _). vm_compute. exact I. }
  assert (Hcol : str_column ex_address_df "Site Name") by reflexivity.
  assert (Hrow : address_row ex_address_df "PON_1234"
                 = Some [Str "PON_1234"; Str "Springfield"; Int 62701])
    by (vm_compute; reflexivity).
  split; [exact Hwf|]. split; [exact Hcol|]. split; [exact Hrow|].
  pose proof (proj2 (proj2 (add_address_item_first_row ex_address_df "PON_1234"
                              ex_record Hwf)) Hcol) as H.
  rewrite Hrow in H. split_and!; rewrite H; vm_compute; reflexivity.
Defined.

Lemma sort_by_date_sections_witness :
  (∀ b, dict_wf (get_bucket b ex_sorted_dict)) ∧
  ∃ g, dget "no_type" (sort_by_date ex_sorted_dict) = Some g ∧ grouped_wf g ∧
       all_entries g ≡ₚ get_bucket NoType ex_sorted_dict.
Proof.
  split; [exact ex_sorted_dict_wf|].
  destruct (sort_by_date_sections ex_sorted_dict NoType ex_sorted_dict_wf)
    as (g & Hg & Hwf & Hperm).
  exists g. split; [exact Hg|]. split; [exact Hwf|exact Hperm].
Defined.

Lemma process_sections_witness :
  ∃ grouped,
    process ex_pon_dict ex_config ex_lookup_df ex_address_df = Ok grouped ∧
    is_Some (in_grouped "no_type" (AStr "01-02-2024") "PON_1234" grouped) ∧
    in_grouped "fdisc" (AStr "01-02-2024") "T1" grouped = None.
Proof.
  destruct (process_sections ex_pon_dict ex_config ex_lookup_df ex_address_df
              ex_pon_dict_wf ex_pon_dict_fields ex_lookup_df_tower
              ex_address_df_columns) as (grouped & Hproc & Hin).
  exists grouped. split; [exact Hproc|]. rewrite !Hin. split.
  - vm_compute. eexists. reflexivity.
  - vm_compute. reflexivity.
Defined.

Lemma enrichment_store_agrees_witness :
  ex_heap !! 1%positive = Some (OColl [("S1", 2%positive)]) ∧
  read_back ex_heap [("S1", 2%positive)] =
    Some [("S1", [("Site Name", Str "old"); ("evc1", None); ("evc2", None);
                  ("tower_name", Str "S1")])] ∧
  ∃ h' y items',
    add_address_data_heap 1 ex_address_df ex_heap = (h', Ok y) ∧
    h' !! y = Some (OColl items') ∧
    read_back h' items' =
      Some (add_address_data
              [("S1", [("Site Name", Str "old"); ("evc1", None); ("evc2", None);
                       ("tower_name", Str "S1")])] ex_address_df).
Proof.
  assert (H1 : ex_heap !! 1%positive = Some (OColl [("S1", 2%positive)]))
    by (vm_compute; reflexivity).
  assert (Hwf : dict_wf [("S1", 2%positive)]).
  { unfold dict_wf. apply (bool_decide_unpack _). vm_compute. exact I. }
  assert (Hnd : NoDup [("S1", 2%positive)].*2).
  { apply (bool_decide_unpack _). vm_compute. exact I. }
  assert (Hrb : read_back ex_heap [("S1", 2%positive)] =
    Some [("S1", [("Site Name", Str "old"); ("evc1", None); ("evc2", None);
                  ("tower_name", Str "S1")])])
    by (vm_compute; reflexivity).
  split; [exact H1|]. split; [exact Hrb|].
  exact (proj2 (enrichment_store_agrees ex_heap 1 _ _ ex_config ex_lookup_df
                  ex_address_df H1 Hwf Hnd Hrb)).
Defined.

(** ** The extractor on the example *)

Lemma search_header_first_match_witness :
  search_lines ex_re_search "EVC CIRCUIT ID" (evc_pattern ex_config)
    (py_split newline ex_text) = Some "1.EVCTAG.X." ∧
  ∃ i, match_at ex_re_search "EVC CIRCUIT ID" (evc_pattern ex_config)
         (py_split newline ex_text) i "1.EVCTAG.X.".
Proof.
  destruct (search_header_first_match ex_re_search ex_text "EVC CIRCUIT ID"
              (evc_pattern ex_config)) as [Hguard Hspec].
  assert (Hv : search_header ex_re_search ex_text "EVC CIRCUIT ID"
                 (evc_pattern ex_config) = Some "1.EVCTAG.X.")
    by (vm_compute; reflexivity).
  rewrite Hv in Hguard, Hspec. split; [by rewrite <- Hguard|].
  destruct Hspec as (i & Hi & _). exists i. exact Hi.
Defined.

Lemma parse_circuit_info_source_witness :
  (∃ i,
     match_at ex_re_search "EVC CIRCUIT ID" (evc_pattern ex_config)
       (py_split newline ex_text) i "1.EVCTAG.X." ∨
     match_at ex_re_search "UNI CIRCUIT ID" (uni_pattern ex_config)
       (py_split newline ex_text) i "1.EVCTAG.X.") ∧
  _parse_circuit_info ex_re_search ex_config ex_headers
    ("CIRCUIT" +:+ nl +:+ "1.EVCTAG.X.") = None ∧
  _parse_circuit_info ex_re_search ex_config ex_headers
    "EVC CIRCUIT ID 1.EVCTAG.X." = None.
Proof.
  split_and!.
  - apply (proj1 (parse_circuit_info_source ex_re_search ex_config ex_headers
                    ex_text)).
    vm_compute. reflexivity.
  - apply (proj1 (proj2 (parse_circuit_info_source ex_re_search ex_config
                           ex_headers ("CIRCUIT" +:+ nl +:+ "1.EVCTAG.X."))));
      vm_compute; intros [].
  - apply (proj2 (proj2 (parse_circuit_info_source ex_re_search ex_config
                           ex_headers "EVC CIRCUIT ID 1.EVCTAG.X."))).
    apply (proj1 (Forall_forall (λ a, a ≠ newline) _)).
    apply (bool_decide_unpack _). vm_compute. exact I.
Defined.

Lemma parse_circuit_info_evc_first_witness :
  match_at ex_re_search "UNI CIRCUIT ID" (uni_pattern ex_config)
    (py_split newline ex_text) 0 "1.UNITAG.Y." ∧
  match_at ex_re_search "EVC CIRCUIT ID" (evc_pattern ex_config)
    (py_split newline ex_text) 2 "1.EVCTAG.X." ∧
  _parse_circuit_info ex_re_search ex_config ex_headers ex_text
  = Some "1.EVCTAG.X.".
Proof.
  assert (Huni : match_at ex_re_search "UNI CIRCUIT ID" (uni_pattern ex_config)
                   (py_split newline ex_text) 0 "1.UNITAG.Y.").
  { exists "UNI CIRCUIT ID", "1.UNITAG.Y.".
    split_and!; [vm_compute; reflexivity..|vm_compute; exact I
                |vm_compute; reflexivity]. }
  assert (Hevc : match_at ex_re_search "EVC CIRCUIT ID" (evc_pattern ex_config)
                   (py_split newline ex_text) 2 "1.EVCTAG.X.").
  { exists "EVC CIRCUIT ID", "1.EVCTAG.X.".
    split_and!; [vm_compute; reflexivity..|vm_compute; exact I
                |vm_compute; reflexivity]. }
  split; [exact Huni|]. split; [exact Hevc|].
  apply (parse_circuit_info_evc_first ex_re_search ex_config ex_headers ex_text
           2 "1.EVCTAG.X." Hevc); [|discriminate].
  intros j m' Hj (line & next & Hl & Hn & Hh & Hm).
  destruct j as [|[|j]]; [| |lia];
    vm_compute in Hl; vm_compute in Hn;
    injection Hl as <-; injection Hn as <-;
    vm_compute in Hh; try exact Hh; vm_compute in Hm; discriminate Hm.
Defined.

Lemma extract_pdf_text_all_or_nothing_witness :
  _extract_pdf_text ex_pdf_pages ["tmp"; "PON_1234"; "evc.pdf"] = ex_text ∧
  _extract_pdf_text ex_pdf_pages ["tmp"; "PON_9"; "scan.pdf"] = EmptyString ∧
  _extract_pdf_text ex_pdf_pages ["tmp"; "PON_9"; "none.pdf"] = EmptyString.
Proof.
  split_and!.
  - rewrite (proj1 (extract_pdf_text_all_or_nothing ex_pdf_pages
                      ["tmp"; "PON_1234"; "evc.pdf"]) ex_pages);
      vm_compute; reflexivity.
  - apply (proj1 (proj2 (extract_pdf_text_all_or_nothing ex_pdf_pages
                           ["tmp"; "PON_9"; "scan.pdf"]))
             [Ok (Some "cover"); Ok None]); [vm_compute; reflexivity|].
    apply Exists_cons_tl, Exists_cons_hd. discriminate.
  - apply (proj2 (proj2 (extract_pdf_text_all_or_nothing ex_pdf_pages
                           ["tmp"; "PON_9"; "none.pdf"])) OSError).
    vm_compute. reflexivity.
Defined.

Lemma unreadable_document_ends_order_witness :
  _extract_pdf_text ex_pdf_pages (path_join ["tmp"; "PON_9"] "scan.pdf")
  = EmptyString ∧
  pon_loop (_extract_pdf_text ex_pdf_pages) ex_parse_date_info
    ex_parse_contact_info (_parse_circuit_info ex_re_search ex_config ex_headers)
    ex_config ["tmp"; "PON_9"] ([] ++ "scan.pdf" :: ["evc.pdf"])
    (new_pon "PON_9") []
  = pon_loop (_extract_pdf_text ex_pdf_pages) ex_parse_date_info
      ex_parse_contact_info (_parse_circuit_info ex_re_search ex_config ex_headers)
      ex_config ["tmp"; "PON_9"] ([] ++ ["scan.pdf"]) (new_pon "PON_9") [].
Proof.
  assert (Htext : _extract_pdf_text ex_pdf_pages
                    (path_join ["tmp"; "PON_9"] "scan.pdf") = EmptyString)
    by (vm_compute; reflexivity).
  split; [exact Htext|].
  exact (proj1 (unreadable_document_ends_order ex_pdf_pages ex_re_search
                  ex_parse_date_info ex_parse_contact_info ex_config ex_headers
                  ["tmp"; "PON_9"] [] ["evc.pdf"] "scan.pdf"
                  (new_pon "PON_9") [] Htext)).
Defined.

(** ** The builder and the pipeline on the example *)

Lemma create_full_dict_process_witness :
  ex_listdir ["tmp"] = Ok ["PON_1234"; "PON_777"; "PON_9"] ∧
  ∃ full_dict grouped,
    create_full_dict ex_listdir ex_extract_pdf_text ex_parse_date_info
      ex_parse_contact_info ex_parse_circuit_info ex_config ["tmp"] []
    = Ok full_dict ∧
    dict_wf full_dict ∧
    process full_dict ex_config ex_lookup_df ex_address_df = Ok grouped.
Proof.
  assert (Hdir : ex_listdir ["tmp"] = Ok ["PON_1234"; "PON_777"; "PON_9"])
    by (vm_compute; reflexivity).
  split; [exact Hdir|].
  destruct (create_full_dict_process ex_listdir ex_extract_pdf_text
              ex_parse_date_info ex_parse_contact_info ex_parse_circuit_info
              ex_config ["tmp"] _ Hdir)
    as (full_dict & Hfull & Hwf & _ & _ & _ & Hproc).
  destruct (Hproc ex_lookup_df ex_address_df ex_lookup_df_tower)
    as [grouped Hgrouped].
  exists full_dict, grouped. split; [exact Hfull|]. split; [exact Hwf|].
  exact Hgrouped.
Defined.

Lemma enriched_records_no_site_name_witness :
  ∃ full_dict out susp,
    create_full_dict ex_listdir ex_extract_pdf_text ex_parse_date_info
      ex_parse_contact_info ex_parse_circuit_info ex_config ["tmp"] []
    = Ok full_dict ∧
    add_cvlan_data full_dict ex_config ex_lookup_df = Ok (out, susp) ∧
    Forall (λ kv, dget "Site Name" kv.2 = None) out.
Proof.
  destruct (create_full_dict ex_listdir ex_extract_pdf_text ex_parse_date_info
              ex_parse_contact_info ex_parse_circuit_info ex_config ["tmp"] [])
    as [full_dict|e] eqn:Hfull; [|vm_compute in Hfull; discriminate Hfull].
  destruct (add_cvlan_data full_dict ex_config ex_lookup_df)
    as [[out susp]|e] eqn:Hout.
  - exists full_dict, out, susp. split; [reflexivity|]. split; [exact Hout|].
    exact (proj2 (enriched_records_no_site_name _ _ _ _ _ _ _ _ _ _ _
                    Hfull Hout)).
  - vm_compute in Hfull. injection Hfull as <-. vm_compute in Hout.
    discriminate Hout.
Defined.
